(** * MGPU kernel driver: command ring, scheduler, fences, health and reset

    A shallow embedding of the command-submission core of the MGPU driver
    (kernel/drivers/gpu/mgpu) and the properties its design document states
    about it.

    Conventions of the embedding:
    - a C [u32] is a [Z] reduced with [u32]; [int] wraps with [s32];
    - the register window is a pair of the history of what the host did to
      the device and of the device's behaviour, a function from that history
      to the value a register read returns;
    - heap objects that several parties point at (jobs) live in a [gmap]
      keyed by their address, and lists hold the addresses;
    - whatever the kernel decides for the driver (allocation results, user
      memory, wake-ups of a sleeping task) is an explicit argument. *)

From stdpp Require Import base numbers option list gmap.
From Stdlib Require Import ZArith Lia.
Local Open Scope Z_scope.

(** ** Machine integers and errno values *)

Definition u32 (z : Z) : Z := z mod 2 ^ 32.
Definition u64 (z : Z) : Z := z mod 2 ^ 64.
(** [int] and [atomic_t]: two's complement, wrapping. *)
Definition s32 (z : Z) : Z := (z + 2 ^ 31) mod 2 ^ 32 - 2 ^ 31.
(** [long] of the 64-bit configuration. *)
Definition s64 (z : Z) : Z := (z + 2 ^ 63) mod 2 ^ 64 - 2 ^ 63.

Definition ENOENT : Z := 2.
Definition EIO : Z := 5.
Definition ENOMEM : Z := 12.
Definition EFAULT : Z := 14.
Definition EBUSY : Z := 16.
Definition ENODEV : Z := 19.
Definition EINVAL : Z := 22.
Definition ETIMEDOUT : Z := 110.
Definition EINPROGRESS : Z := 115.
Definition ECANCELED : Z := 125.
Definition ERESTARTSYS : Z := 512.

Definition PAGE_SIZE : Z := 4096.
Definition LONG_MAX : Z := 2 ^ 63 - 1.
Definition MAX_SCHEDULE_TIMEOUT : Z := LONG_MAX.
(** [(LONG_MAX >> 1) - 1], the longest timeout the kernel converts to. *)
Definition MAX_JIFFY_OFFSET : Z := Z.shiftr LONG_MAX 1 - 1.

(** ** Register map (mgpu_regs.h) *)

Definition MGPU_REG_VERSION : Z := 0x0000.
Definition MGPU_REG_CAPS : Z := 0x0004.
Definition MGPU_REG_CONTROL : Z := 0x0008.
Definition MGPU_REG_STATUS : Z := 0x000C.
Definition MGPU_REG_SCRATCH : Z := 0x0010.
Definition MGPU_REG_IRQ_STATUS : Z := 0x0020.
Definition MGPU_REG_IRQ_ENABLE : Z := 0x0024.
Definition MGPU_REG_IRQ_ACK : Z := 0x0028.
Definition MGPU_REG_CMD_BASE : Z := 0x0040.
Definition MGPU_REG_CMD_SIZE : Z := 0x0044.
Definition MGPU_REG_CMD_HEAD : Z := 0x0048.
Definition MGPU_REG_CMD_TAIL : Z := 0x004C.
Definition MGPU_REG_FENCE_ADDR : Z := 0x0060.
Definition MGPU_REG_FENCE_VALUE : Z := 0x0064.
Definition MGPU_REG_VERTEX_BASE : Z := 0x0080.
Definition MGPU_REG_DOORBELL_BASE : Z := 0x2000.
Definition MGPU_REG_DOORBELL (n : Z) : Z := MGPU_REG_DOORBELL_BASE + n * 4.

Definition MGPU_STATUS_IDLE : Z := 1.
Definition MGPU_STATUS_BUSY : Z := 2.
Definition MGPU_STATUS_ERROR : Z := 4.
Definition MGPU_STATUS_HALTED : Z := 8.
Definition MGPU_STATUS_CMD_FULL : Z := 64.

Definition MGPU_CMD_NOP : Z := 0x00.
Definition MGPU_CMD_DRAW : Z := 0x01.
Definition MGPU_CMD_COMPUTE : Z := 0x02.
Definition MGPU_CMD_DMA : Z := 0x03.
Definition MGPU_CMD_FENCE : Z := 0x04.
Definition MGPU_CMD_WAIT : Z := 0x05.
Definition MGPU_CMD_REG_WRITE : Z := 0x06.
Definition MGPU_CMD_REG_READ : Z := 0x07.

Definition MGPU_RING_SIZE_MIN : Z := 4096.
Definition MGPU_RING_SIZE_MAX : Z := 262144.
Definition MGPU_MAX_QUEUES : Z := 16.

Definition MGPU_SUBMIT_FLAGS_FENCE : Z := 1.
Definition MGPU_SUBMIT_FLAGS_SYNC : Z := 2.

(** ** The register window

    The host's side of the bus is a history of events: the 32-bit writes it
    issued and the time it slept.  The device is whatever function of that
    history answers a read; nothing is assumed about it (a scratch register
    need not echo, a head pointer moves on its own while the host sleeps). *)

Inductive mmio_event : Type :=
| MmioWrite (offset value : Z)
| Sleep (usecs : Z).

Record mgpu_mmio : Type := MkMmio {
  trace : list mmio_event;
  device : list mmio_event -> Z -> Z;
}.

Definition mmio_read (io : mgpu_mmio) (offset : Z) : Z :=
  u32 (device io (trace io) (u32 offset)).

Definition mmio_write (io : mgpu_mmio) (offset value : Z) : mgpu_mmio :=
  MkMmio (trace io ++ [MmioWrite (u32 offset) (u32 value)]) (device io).

Definition mmio_sleep (io : mgpu_mmio) (usecs : Z) : mgpu_mmio :=
  MkMmio (trace io ++ [Sleep usecs]) (device io).

(** The writes of a history, in order. *)
Fixpoint mmio_writes (t : list mmio_event) : list (Z * Z) :=
  match t with
  | [] => []
  | MmioWrite o v :: t' => (o, v) :: mmio_writes t'
  | Sleep _ :: t' => mmio_writes t'
  end.

(** ** Device context (struct mgpu_device), the fields the core uses *)

(** struct mgpu_ring (mgpu_cmdq.c).  [vaddr] is the ring memory, one entry
    per dword. *)
Record mgpu_ring : Type := MkRing {
  vaddr : list Z;
  dma_addr : Z;
  size : Z;
  head : Z;
  tail : Z;
  queue_id : Z;
  submitted_cmds : Z;
  completed_cmds : Z;
  enabled : bool;
  last_head : Z;
}.

(** struct mgpu_fence_wait and struct mgpu_fence_context (mgpu_fence.c).
    [cpu_addr] is the fence page, one entry per 32-bit cell.  A wait entry
    lives on the stack of its waiter; the wait list holds each entry with
    its address. *)
Record mgpu_fence_wait : Type := MkFenceWait {
  fw_value : Z;
  fw_signaled : bool;
}.

Record mgpu_fence_context : Type := MkFenceCtx {
  cpu_addr : list Z;
  fence_dma_addr : Z;
  seqno : Z;
  wait_list : list (Z * mgpu_fence_wait);
}.

Record mgpu_device : Type := MkDev {
  mmio : mgpu_mmio;
  cmd_ring : option mgpu_ring;
  fence_ctx : option mgpu_fence_context;
  in_reset : Z;
  reset_count : Z;
  reset_work_pending : bool;
  profiling_enabled : bool;
}.

Definition set_mmio (mdev : mgpu_device) (io : mgpu_mmio) : mgpu_device :=
  MkDev io (cmd_ring mdev) (fence_ctx mdev) (in_reset mdev)
        (reset_count mdev) (reset_work_pending mdev) (profiling_enabled mdev).

Definition set_cmd_ring (mdev : mgpu_device) (r : option mgpu_ring) : mgpu_device :=
  MkDev (mmio mdev) r (fence_ctx mdev) (in_reset mdev) (reset_count mdev)
        (reset_work_pending mdev) (profiling_enabled mdev).

Definition set_fence_ctx (mdev : mgpu_device) (c : option mgpu_fence_context)
  : mgpu_device :=
  MkDev (mmio mdev) (cmd_ring mdev) c (in_reset mdev) (reset_count mdev)
        (reset_work_pending mdev) (profiling_enabled mdev).

Definition set_in_reset (mdev : mgpu_device) (v : Z) : mgpu_device :=
  MkDev (mmio mdev) (cmd_ring mdev) (fence_ctx mdev) v (reset_count mdev)
        (reset_work_pending mdev) (profiling_enabled mdev).

Definition set_reset_count (mdev : mgpu_device) (v : Z) : mgpu_device :=
  MkDev (mmio mdev) (cmd_ring mdev) (fence_ctx mdev) (in_reset mdev) v
        (reset_work_pending mdev) (profiling_enabled mdev).

Definition set_reset_work_pending (mdev : mgpu_device) (b : bool) : mgpu_device :=
  MkDev (mmio mdev) (cmd_ring mdev) (fence_ctx mdev) (in_reset mdev)
        (reset_count mdev) b (profiling_enabled mdev).

Definition set_profiling_enabled (mdev : mgpu_device) (b : bool) : mgpu_device :=
  MkDev (mmio mdev) (cmd_ring mdev) (fence_ctx mdev) (in_reset mdev)
        (reset_count mdev) (reset_work_pending mdev) b.

(** mgpu_read / mgpu_write (mgpu_internal.h) and msleep. *)
Definition mgpu_read (mdev : mgpu_device) (offset : Z) : Z :=
  mmio_read (mmio mdev) offset.

Definition mgpu_write (mdev : mgpu_device) (offset value : Z) : mgpu_device :=
  set_mmio mdev (mmio_write (mmio mdev) offset value).

Definition msleep (mdev : mgpu_device) (msecs : Z) : mgpu_device :=
  set_mmio mdev (mmio_sleep (mmio mdev) (msecs * 1000)).

(** What the kernel answers during one driver call: whether the small
    allocations succeed, the bus address of a coherent allocation of a given
    size (or failure), the byte user memory holds at an address (or
    nothing, where it is not mapped), what request_irq returns, and how
    many polls of mgpu_core_wait_idle fit before its deadline in jiffies. *)
Record kenv : Type := MkEnv {
  kzalloc_ok : bool;
  kmalloc_ok : bool;
  dma_alloc_coherent : Z -> option Z;
  user_mem : Z -> option Z;
  request_irq : Z;
  idle_polls : nat;
}.

Definition user_byte (env : kenv) (a : Z) : option Z :=
  (fun b => Z.land b 0xFF) <$> user_mem env a.

(** The dword the CPU reads at [a] once the bytes are in the kernel buffer;
    the host is little-endian, as the magic number of mgpu_shader_validate
    has it. *)
Definition user_dword (env : kenv) (a : Z) : option Z :=
  b0 ← user_byte env a;
  b1 ← user_byte env (a + 1);
  b2 ← user_byte env (a + 2);
  b3 ← user_byte env (a + 3);
  Some (Z.lor (Z.lor b0 (Z.shiftl b1 8))
              (Z.lor (Z.shiftl b2 16) (Z.shiftl b3 24))).

(** copy_from_user of [nbytes] bytes: it faults when any byte of the range
    is not mapped, the bytes past the last whole dword included.  What the
    callers look at afterwards are the whole dwords of the buffer, which is
    what a successful copy yields here. *)
Definition copy_from_user (env : kenv) (from nbytes : Z) : option (list Z) :=
  dwords ← mapM (fun i => user_dword env (from + 4 * Z.of_nat i))
                (seq 0 (Z.to_nat (nbytes / 4)));
  _ ← mapM (fun i => user_byte env (from + 4 * (nbytes / 4) + Z.of_nat i))
           (seq 0 (Z.to_nat (nbytes mod 4)));
  Some dwords.

(** ** Command ring (mgpu_cmdq.c) *)

Definition is_power_of_2 (n : Z) : bool :=
  negb (n =? 0) && (Z.land n (n - 1) =? 0).

Definition roundup_pow_of_two (n : Z) : Z := 2 ^ Z.log2_up n.

Definition lower_32_bits (n : Z) : Z := u32 n.

Definition set_ring_mem (r : mgpu_ring) (mem : list Z) (t : Z) : mgpu_ring :=
  MkRing mem (dma_addr r) (size r) (head r) t (queue_id r)
         (submitted_cmds r) (completed_cmds r) (enabled r) (last_head r).

Definition set_submitted_cmds (r : mgpu_ring) (n : Z) : mgpu_ring :=
  MkRing (vaddr r) (dma_addr r) (size r) (head r) (tail r) (queue_id r)
         n (completed_cmds r) (enabled r) (last_head r).

Definition mgpu_ring_create (env : kenv) (mdev : mgpu_device) (sz qid : Z)
  : option mgpu_ring * mgpu_device :=
  if (sz <? MGPU_RING_SIZE_MIN) || (sz >? MGPU_RING_SIZE_MAX) then (None, mdev)
  else
    let sz := if is_power_of_2 sz then sz else roundup_pow_of_two sz in
    if negb (kzalloc_ok env) then (None, mdev)
    else match dma_alloc_coherent env sz with
         | None => (None, mdev)
         | Some dma =>
           let ring := MkRing (replicate (Z.to_nat (sz / 4)) 0) dma sz 0 0 qid
                              0 0 false 0 in
           let mdev := mgpu_write mdev (MGPU_REG_CMD_BASE + qid * 0x10)
                                  (lower_32_bits dma) in
           let mdev := mgpu_write mdev (MGPU_REG_CMD_SIZE + qid * 0x10) sz in
           let mdev := mgpu_write mdev (MGPU_REG_CMD_HEAD + qid * 0x10) 0 in
           let mdev := mgpu_write mdev (MGPU_REG_CMD_TAIL + qid * 0x10) 0 in
           (Some ring, mdev)
         end.

(** The first definition of mgpu_ring_space in mgpu_cmdq.c, the one in
    scope where mgpu_ring_wait_space calls it (mgpu_dma.c carries the same
    copy): the byte size of the ring enters the subtraction as it is. *)
Definition mgpu_ring_space (mdev : mgpu_device) (ring : mgpu_ring) : Z :=
  let head := mgpu_read mdev (MGPU_REG_CMD_HEAD + queue_id ring * 0x10) in
  let tail := tail ring in
  if head <=? tail then u32 (size ring - u32 (tail - head) - 1)
  else u32 (head - tail - 1).

(** The second definition, further down the same file ("in dwords"): the
    size is converted to dwords first. *)
Definition mgpu_ring_space_dw (mdev : mgpu_device) (ring : mgpu_ring) : Z :=
  let head := mgpu_read mdev (MGPU_REG_CMD_HEAD + queue_id ring * 0x10) in
  let tail := tail ring in
  if head <=? tail then u32 (size ring / 4 - u32 (tail - head) - 1)
  else u32 (head - tail - 1).

(** [while (space < needed) { if (timeout-- <= 0) return -ETIMEDOUT;
    msleep(1); }] with [timeout] starting at 1000. *)
Fixpoint ring_wait_space_loop (timeout : nat) (mdev : mgpu_device)
    (ring : mgpu_ring) (needed : Z) : Z * mgpu_device :=
  if mgpu_ring_space mdev ring <? needed then
    match timeout with
    | O => (- ETIMEDOUT, mdev)
    | S t => ring_wait_space_loop t (msleep mdev 1) ring needed
    end
  else (0, mdev).

Definition mgpu_ring_wait_space (mdev : mgpu_device) (ring : mgpu_ring)
    (needed : Z) : Z * mgpu_device :=
  ring_wait_space_loop 1000 mdev ring needed.

(** The copy loop of mgpu_ring_write.  A store through [ring_ptr[tail]]
    with [tail] past the buffer would corrupt memory in C; it leaves the
    list as it is here, and cannot happen once [tail] has gone through the
    mask. *)
Fixpoint ring_write_loop (ring_ptr : list Z) (tl ring_size_dw : Z)
    (data : list Z) : list Z * Z :=
  match data with
  | [] => (ring_ptr, tl)
  | d :: rest =>
    ring_write_loop (<[Z.to_nat tl := d]> ring_ptr)
                    (Z.land (u32 (tl + 1)) (u32 (ring_size_dw - 1)))
                    ring_size_dw rest
  end.

Definition mgpu_ring_write (ring : mgpu_ring) (data : list Z) (dwords : Z)
  : mgpu_ring :=
  let '(mem, tl) := ring_write_loop (vaddr ring) (tail ring)
                      (u32 (size ring / 4)) (take (Z.to_nat dwords) data) in
  set_ring_mem ring mem tl.

Definition mgpu_ring_kick (mdev : mgpu_device) (ring : mgpu_ring)
  : mgpu_device * mgpu_ring :=
  let mdev := mgpu_write mdev (MGPU_REG_CMD_TAIL + queue_id ring * 0x10)
                         (tail ring) in
  let mdev := mgpu_write mdev (MGPU_REG_DOORBELL (queue_id ring)) 1 in
  (mdev, set_submitted_cmds ring (u64 (submitted_cmds ring + 1))).

(** struct mgpu_submit (uapi). *)
Record mgpu_submit : Type := MkSubmit {
  sub_commands : Z;
  sub_cmd_size : Z;
  sub_queue_id : Z;
  sub_flags : Z;
  sub_fence_addr : Z;
  sub_fence_value : Z;
}.

(** The header dword: opcode in bits 0-7, size in bits 8-15, flags above. *)
Definition mk_header (opcode sz flags : Z) : Z :=
  Z.lor (Z.lor (Z.land opcode 0xFF) (Z.shiftl (Z.land sz 0xFF) 8))
        (Z.shiftl (Z.land flags 0xFFFF) 16).
Definition hdr_opcode (h : Z) : Z := Z.land h 0xFF.
Definition hdr_size (h : Z) : Z := Z.land (Z.shiftr h 8) 0xFF.
Definition hdr_flags (h : Z) : Z := Z.land (Z.shiftr h 16) 0xFFFF.

(** struct mgpu_cmd_fence as the three dwords that go into the ring. *)
Definition fence_cmd (args : mgpu_submit) : list Z :=
  [mk_header MGPU_CMD_FENCE 3 0; u32 (sub_fence_addr args);
   u32 (sub_fence_value args)].

(** The polling loop of a synchronous submission:
    [do { ...; if (head == tail) break; msleep(1); } while (timeout-- > 0);]
    returns the value [timeout] has when the loop is left. *)
Fixpoint sync_poll_loop (timeout : nat) (mdev : mgpu_device) (qid : Z)
  : Z * mgpu_device :=
  let head := mgpu_read mdev (MGPU_REG_CMD_HEAD + qid * 0x10) in
  let tail := mgpu_read mdev (MGPU_REG_CMD_TAIL + qid * 0x10) in
  if head =? tail then (Z.of_nat timeout, mdev)
  else
    let mdev := msleep mdev 1 in
    match timeout with
    | O => (-1, mdev)
    | S t => sync_poll_loop t mdev qid
    end.

Definition submit_sync_wait (mdev : mgpu_device) (ring : mgpu_ring)
    (args : mgpu_submit) : Z * mgpu_device :=
  if Z.land (sub_flags args) MGPU_SUBMIT_FLAGS_SYNC =? 0 then (0, mdev)
  else
    let '(timeout, mdev) := sync_poll_loop 1000 mdev (queue_id ring) in
    if timeout <=? 0 then (- ETIMEDOUT, mdev) else (0, mdev).

Definition mgpu_submit_commands (env : kenv) (mdev : mgpu_device)
    (args : mgpu_submit) : Z * mgpu_device :=
  if (sub_commands args =? 0) || (sub_cmd_size args =? 0) then (- EINVAL, mdev)
  else if MGPU_MAX_QUEUES <=? sub_queue_id args then (- EINVAL, mdev)
  else
    (* get or create the ring *)
    let '(oring, mdev) :=
      match cmd_ring mdev with
      | Some ring => (Some ring, mdev)
      | None =>
        match mgpu_ring_create env mdev MGPU_RING_SIZE_MIN (sub_queue_id args) with
        | (Some ring, mdev) => (Some ring, set_cmd_ring mdev (Some ring))
        | (None, mdev) => (None, mdev)
        end
      end in
    match oring with
    | None => (- ENOMEM, mdev)
    | Some ring =>
      let cmd_dwords := sub_cmd_size args / 4 in
      if negb (kmalloc_ok env) then (- ENOMEM, mdev)
      else match copy_from_user env (sub_commands args) (sub_cmd_size args) with
      | None => (- EFAULT, mdev)
      | Some cmds =>
        let '(ret, mdev) := mgpu_ring_wait_space mdev ring cmd_dwords in
        if negb (ret =? 0) then (ret, mdev)
        else
          let ring := mgpu_ring_write ring cmds cmd_dwords in
          let mdev := set_cmd_ring mdev (Some ring) in
          let '(ret, mdev, ring) :=
            if Z.land (sub_flags args) MGPU_SUBMIT_FLAGS_FENCE =? 0
            then (0, mdev, ring)
            else
              let '(ret, mdev) := mgpu_ring_wait_space mdev ring 3 in
              if negb (ret =? 0) then (ret, mdev, ring)
              else
                let ring := mgpu_ring_write ring (fence_cmd args) 3 in
                (0, set_cmd_ring mdev (Some ring), ring) in
          if negb (ret =? 0) then (ret, mdev)
          else
            let '(mdev, ring) := mgpu_ring_kick mdev ring in
            let mdev := set_cmd_ring mdev (Some ring) in
            submit_sync_wait mdev ring args
      end
    end.

Definition mgpu_cmdq_init (env : kenv) (mdev : mgpu_device) : Z * mgpu_device :=
  match mgpu_ring_create env mdev MGPU_RING_SIZE_MIN 0 with
  | (Some ring, mdev) => (0, set_cmd_ring mdev (Some ring))
  | (None, mdev) => (- ENOMEM, set_cmd_ring mdev None)
  end.

(** A ring as mgpu_ring_create leaves it and as the host keeps it: the size
    a power of two between the bounds, one memory entry per dword, the tail
    inside the ring. *)
Definition ring_wf (r : mgpu_ring) : Prop :=
  (exists k, 12 <= k <= 18 /\ size r = 2 ^ k) /\
  length (vaddr r) = Z.to_nat (size r / 4) /\
  0 <= tail r < size r / 4.

Definition ring_size_dw (r : mgpu_ring) : Z := size r / 4.

(** The same ring object: same queue, same buffer. *)
Definition same_ring (r r' : mgpu_ring) : Prop :=
  queue_id r' = queue_id r /\ dma_addr r' = dma_addr r /\ size r' = size r.

(** Between two states of the device context in which the host only let
    time pass: no register was written and nothing in the context moved. *)
Definition only_slept (mdev mdev' : mgpu_device) : Prop :=
  device (mmio mdev') = device (mmio mdev) /\
  mmio_writes (trace (mmio mdev')) = mmio_writes (trace (mmio mdev)) /\
  cmd_ring mdev' = cmd_ring mdev /\
  fence_ctx mdev' = fence_ctx mdev /\
  in_reset mdev' = in_reset mdev /\
  reset_count mdev' = reset_count mdev /\
  reset_work_pending mdev' = reset_work_pending mdev /\
  profiling_enabled mdev' = profiling_enabled mdev.

(** The dwords a submission puts into the ring: the payload, then the
    fence record when the fence flag is set. *)
Definition submitted_dwords (args : mgpu_submit) (cmds : list Z) : list Z :=
  if Z.land (sub_flags args) MGPU_SUBMIT_FLAGS_FENCE =? 0 then cmds
  else cmds ++ fence_cmd args.

(** A device that never consumes anything: every register reads zero. *)
Definition idle_device : list mmio_event -> Z -> Z := fun _ _ => 0.

Definition fresh_mdev (dev : list mmio_event -> Z -> Z) : mgpu_device :=
  MkDev (MkMmio [] dev) None None 0 0 false false.

(** A kernel that never fails, with the dwords [user] mapped at [base],
    byte by byte. *)
Definition good_env (base : Z) (user : list Z) : kenv :=
  MkEnv true true (fun _ => Some 0x10000000)
        (fun a => if base <=? a
                  then (fun d => Z.land (Z.shiftr d (8 * ((a - base) mod 4))) 0xFF)
                         <$> user !! Z.to_nat ((a - base) / 4)
                  else None)
        0 100.

(** One NOP, one dword, for queue 0, and the kernel handing it over. *)
Definition nop_submit : mgpu_submit := MkSubmit 0x7f000000 4 0 0 0 0.
Definition nop_env : kenv := good_env 0x7f000000 [mk_header MGPU_CMD_NOP 1 0].

(** [n] NOP submissions in a row; [None] as soon as one is refused. *)
Fixpoint submit_nops (n : nat) (mdev : mgpu_device) : option mgpu_device :=
  match n with
  | O => Some mdev
  | S n' =>
    match submit_nops n' mdev with
    | None => None
    | Some mdev' =>
      let '(ret, mdev'') := mgpu_submit_commands nop_env mdev' nop_submit in
      if ret =? 0 then Some mdev'' else None
    end
  end.

(** The 4096-byte ring of queue 0 right after mgpu_cmdq_init, in front of a
    device that consumes nothing. *)
Definition fresh_ring_mdev : mgpu_device :=
  snd (mgpu_cmdq_init nop_env (fresh_mdev idle_device)).

(** A submission that names queue 5 and asks for a fence record, and the
    ring of queue 0 it will meet. *)
Definition q5_fence_submit : mgpu_submit := MkSubmit 0x7f000000 4 5 1 0x10000000 7.
Definition fresh_ring : mgpu_ring :=
  MkRing (replicate 1024 0) 0x10000000 4096 0 0 0 0 0 false 0.

(** What a submission does with the one ring [ring] it works on, [mdev]
    being the device context that holds it: the ring stays in place, no
    register is written but the tail register and the doorbell of the
    ring's own queue, and a submission that succeeds has written them, its
    dwords sitting in the ring from the old tail on. *)
Definition through_ring (env : kenv) (args : mgpu_submit) (ret : Z)
    (mdev : mgpu_device) (ring : mgpu_ring) (mdev' : mgpu_device) : Prop :=
  exists ring',
    cmd_ring mdev' = Some ring' /\ same_ring ring ring' /\
    (mmio_writes (trace (mmio mdev')) = mmio_writes (trace (mmio mdev)) \/
     mmio_writes (trace (mmio mdev')) =
       mmio_writes (trace (mmio mdev)) ++
       [(u32 (MGPU_REG_CMD_TAIL + queue_id ring * 0x10), u32 (tail ring'));
        (u32 (MGPU_REG_DOORBELL (queue_id ring)), 1)]) /\
    (ret = 0 -> ring_wf ring -> 0 <= sub_cmd_size args ->
     sub_cmd_size args / 4
       + (if Z.land (sub_flags args) MGPU_SUBMIT_FLAGS_FENCE =? 0
          then 0 else 3)
       <= ring_size_dw ring ->
     exists cmds,
       copy_from_user env (sub_commands args) (sub_cmd_size args) = Some cmds /\
       let w := submitted_dwords args cmds in
       tail ring' = (tail ring + Z.of_nat (length w)) mod ring_size_dw ring /\
       (forall i, (i < length w)%nat ->
          vaddr ring'
            !! Z.to_nat ((tail ring + Z.of_nat i) mod ring_size_dw ring)
          = w !! i) /\
       mmio_writes (trace (mmio mdev')) =
         mmio_writes (trace (mmio mdev)) ++
         [(u32 (MGPU_REG_CMD_TAIL + queue_id ring * 0x10), tail ring');
          (u32 (MGPU_REG_DOORBELL (queue_id ring)), 1)]).

(** The ring that mgpu_ring_create sets up for queue [qid] at bus address
    [dma], of the smallest size. *)
Definition first_ring (qid dma : Z) : mgpu_ring :=
  MkRing (replicate 1024 0) dma MGPU_RING_SIZE_MIN 0 0 qid 0 0 false 0.

(** The device context after a first submission, for queue 5, on a device
    that has no ring yet. *)
Definition first_q5_mdev : mgpu_device :=
  (mgpu_submit_commands nop_env (fresh_mdev idle_device) q5_fence_submit).2.

(** ** Scheduler (mgpu_sched.c) *)

Inductive mgpu_job_priority : Type :=
| MGPU_PRIORITY_LOW
| MGPU_PRIORITY_NORMAL
| MGPU_PRIORITY_HIGH
| MGPU_PRIORITY_REALTIME.

Definition MGPU_NUM_PRIORITIES : nat := 4.

Definition priority_index (p : mgpu_job_priority) : nat :=
  match p with
  | MGPU_PRIORITY_LOW => 0
  | MGPU_PRIORITY_NORMAL => 1
  | MGPU_PRIORITY_HIGH => 2
  | MGPU_PRIORITY_REALTIME => 3
  end.

Inductive mgpu_job_state : Type :=
| MGPU_JOB_PENDING
| MGPU_JOB_QUEUED
| MGPU_JOB_RUNNING
| MGPU_JOB_COMPLETED
| MGPU_JOB_ABORTED
| MGPU_JOB_TIMEOUT.

Inductive mgpu_job_type : Type :=
| MGPU_JOB_TYPE_DRAW
| MGPU_JOB_TYPE_COMPUTE
| MGPU_JOB_TYPE_DMA
| MGPU_JOB_TYPE_FENCE.

Definition job_state_eqb (a b : mgpu_job_state) : bool :=
  match a, b with
  | MGPU_JOB_PENDING, MGPU_JOB_PENDING
  | MGPU_JOB_QUEUED, MGPU_JOB_QUEUED
  | MGPU_JOB_RUNNING, MGPU_JOB_RUNNING
  | MGPU_JOB_COMPLETED, MGPU_JOB_COMPLETED
  | MGPU_JOB_ABORTED, MGPU_JOB_ABORTED
  | MGPU_JOB_TIMEOUT, MGPU_JOB_TIMEOUT => true
  | _, _ => false
  end.

(** Jobs are heap objects: the buckets of a queue, its current-job slot and
    the waiters all hold the address of the same struct mgpu_job. *)
Abbreviation job_ptr := positive.

(** struct mgpu_job.  [job_commands] is the kernel address of the payload
    copy (0 for NULL); [completion_done] is the counter of the struct
    completion. *)
Record mgpu_job : Type := MkJob {
  job_id : Z;
  job_type : mgpu_job_type;
  job_priority : mgpu_job_priority;
  job_state : mgpu_job_state;
  job_commands : Z;
  job_cmd_size : Z;
  job_queue_id : Z;
  dep_count : Z;
  job_fence_addr : Z;
  job_fence_value : Z;
  start_time : Z;
  end_time : Z;
  timeout_ms : Z;
  completion_done : Z;
  job_result : Z;
}.

Definition set_job_state (j : mgpu_job) (s : mgpu_job_state) : mgpu_job :=
  MkJob (job_id j) (job_type j) (job_priority j) s (job_commands j)
        (job_cmd_size j) (job_queue_id j) (dep_count j) (job_fence_addr j)
        (job_fence_value j) (start_time j) (end_time j) (timeout_ms j)
        (completion_done j) (job_result j).

Definition set_job_queue_id (j : mgpu_job) (q : Z) : mgpu_job :=
  MkJob (job_id j) (job_type j) (job_priority j) (job_state j) (job_commands j)
        (job_cmd_size j) q (dep_count j) (job_fence_addr j)
        (job_fence_value j) (start_time j) (end_time j) (timeout_ms j)
        (completion_done j) (job_result j).

Definition set_job_start_time (j : mgpu_job) (t : Z) : mgpu_job :=
  MkJob (job_id j) (job_type j) (job_priority j) (job_state j) (job_commands j)
        (job_cmd_size j) (job_queue_id j) (dep_count j) (job_fence_addr j)
        (job_fence_value j) t (end_time j) (timeout_ms j)
        (completion_done j) (job_result j).

Definition set_completion_done (j : mgpu_job) (d : Z) : mgpu_job :=
  MkJob (job_id j) (job_type j) (job_priority j) (job_state j) (job_commands j)
        (job_cmd_size j) (job_queue_id j) (dep_count j) (job_fence_addr j)
        (job_fence_value j) (start_time j) (end_time j) (timeout_ms j)
        d (job_result j).

(** struct mgpu_queue.  [pending] holds the MGPU_NUM_PRIORITIES buckets,
    each the addresses of its jobs in list order (head first). *)
Record mgpu_queue : Type := MkQueue {
  q_queue_id : Z;
  queue_depth : Z;
  pending_starts : Z;
  busy : bool;
  pending : list (list job_ptr);
  current_job : option job_ptr;
  jobs_submitted : Z;
  jobs_completed : Z;
}.

Definition set_pending (q : mgpu_queue) (b : list (list job_ptr)) : mgpu_queue :=
  MkQueue (q_queue_id q) (queue_depth q) (pending_starts q) (busy q) b
          (current_job q) (jobs_submitted q) (jobs_completed q).

Definition set_current_job (q : mgpu_queue) (c : option job_ptr) : mgpu_queue :=
  MkQueue (q_queue_id q) (queue_depth q) (pending_starts q) (busy q) (pending q)
          c (jobs_submitted q) (jobs_completed q).

Definition count_submission (q : mgpu_queue) : mgpu_queue :=
  MkQueue (q_queue_id q) (queue_depth q) (u32 (pending_starts q + 1)) (busy q)
          (pending q) (current_job q) (u64 (jobs_submitted q + 1))
          (jobs_completed q).

(** struct mgpu_scheduler: the MGPU_MAX_QUEUES queue slots, and the jobs
    behind the addresses. *)
Record mgpu_scheduler : Type := MkSched {
  queues : list (option mgpu_queue);
  num_queues : Z;
  jobs : gmap job_ptr mgpu_job;
  total_jobs : Z;
}.

Definition set_queue (s : mgpu_scheduler) (qid : Z) (q : mgpu_queue)
  : mgpu_scheduler :=
  MkSched (<[Z.to_nat qid := Some q]> (queues s)) (num_queues s) (jobs s)
          (total_jobs s).

Definition set_job (s : mgpu_scheduler) (p : job_ptr) (j : mgpu_job)
  : mgpu_scheduler :=
  MkSched (queues s) (num_queues s) (<[p := j]> (jobs s)) (total_jobs s).

Definition set_total_jobs (s : mgpu_scheduler) (n : Z) : mgpu_scheduler :=
  MkSched (queues s) (num_queues s) (jobs s) n.

(** [sched->queues[i]], NULL for an empty slot. *)
Definition sched_queue (s : mgpu_scheduler) (qid : Z) : option mgpu_queue :=
  mjoin (queues s !! Z.to_nat qid).

Definition mgpu_job_is_ready (job : mgpu_job) : bool :=
  (dep_count job =? 0) && job_state_eqb (job_state job) MGPU_JOB_PENDING.

(** mgpu_queue_submit_job; [now] is what ktime_get() returns. *)
Definition mgpu_queue_submit_job (env : kenv) (now : Z) (mdev : mgpu_device)
    (queue : mgpu_queue) (p : job_ptr) (job : mgpu_job)
  : Z * mgpu_device * mgpu_queue * mgpu_job :=
  if queue_depth queue <=? pending_starts queue then (- EBUSY, mdev, queue, job)
  else
    let job := set_job_start_time (set_job_state job MGPU_JOB_RUNNING) now in
    let queue := set_current_job queue (Some p) in
    let submit :=
      MkSubmit (job_commands job) (job_cmd_size job) (q_queue_id queue)
               (if job_fence_addr job =? 0 then 0 else MGPU_SUBMIT_FLAGS_FENCE)
               (job_fence_addr job) (job_fence_value job) in
    let '(ret, mdev) := mgpu_submit_commands env mdev submit in
    if negb (ret =? 0)
    then (ret, mdev, set_current_job queue None,
          set_job_state job MGPU_JOB_ABORTED)
    else (0, mdev, count_submission queue, job).

(** The walk over one bucket: position and address of the first ready job. *)
Fixpoint first_ready (js : gmap job_ptr mgpu_job) (bucket : list job_ptr)
    (pos : nat) : option (nat * job_ptr * mgpu_job) :=
  match bucket with
  | [] => None
  | p :: rest =>
    match js !! p with
    | Some j => if mgpu_job_is_ready j then Some (pos, p, j)
                else first_ready js rest (S pos)
    | None => first_ready js rest (S pos)
    end
  end.

(** [for (priority = MGPU_PRIORITY_REALTIME; priority >= MGPU_PRIORITY_LOW;
    priority--)]: [n] is one more than the priority looked at next. *)
Fixpoint scan_priorities (js : gmap job_ptr mgpu_job)
    (buckets : list (list job_ptr)) (n : nat)
  : option (nat * nat * job_ptr * mgpu_job) :=
  match n with
  | O => None
  | S prio =>
    match first_ready js (buckets !!! prio) 0 with
    | Some (pos, p, j) => Some (prio, pos, p, j)
    | None => scan_priorities js buckets prio
    end
  end.

Definition mgpu_sched_process_queue (env : kenv) (now : Z) (mdev : mgpu_device)
    (sched : mgpu_scheduler) (qid : Z) : mgpu_device * mgpu_scheduler :=
  match sched_queue sched qid with
  | None => (mdev, sched)
  | Some queue =>
    if bool_decide (is_Some (current_job queue))
       || (queue_depth queue <=? pending_starts queue)
    then (mdev, sched)
    else
      match scan_priorities (jobs sched) (pending queue) MGPU_NUM_PRIORITIES with
      | None => (mdev, sched)
      | Some (prio, pos, p, job) =>
        (* list_del *)
        let queue := set_pending queue (alter (delete pos) prio (pending queue)) in
        let '(ret, mdev, queue, job) :=
          mgpu_queue_submit_job env now mdev queue p job in
        if ret =? 0 then (mdev, set_job (set_queue sched qid queue) p job)
        else
          (* list_add: back at the head of its bucket *)
          let queue := set_pending queue
                         (alter (fun b => p :: b) prio (pending queue)) in
          (mdev, set_job (set_queue sched qid queue) p job)
      end
  end.

(** mgpu_sched_submit_job.  The job is passed by address; an address with
    no job behind it is treated like NULL. *)
Definition mgpu_sched_submit_job (sched : mgpu_scheduler) (job : option job_ptr)
  : Z * mgpu_scheduler :=
  match job ≫= (fun p => (fun j => (p, j)) <$> jobs sched !! p) with
  | None => (- EINVAL, sched)
  | Some (p, j) =>
    if (job_commands j =? 0) || (job_cmd_size j =? 0) then (- EINVAL, sched)
    else
      let j :=
        if num_queues sched <=? job_queue_id j then
          set_job_queue_id j
            match job_type j with
            | MGPU_JOB_TYPE_COMPUTE => if 1 <? num_queues sched then 1 else 0
            | MGPU_JOB_TYPE_DMA => if 2 <? num_queues sched then 2 else 0
            | _ => 0
            end
        else j in
      let sched := set_job sched p j in
      match sched_queue sched (job_queue_id j) with
      | None => (- EINVAL, sched)
      | Some queue =>
        (* list_add_tail, then the state *)
        let queue := set_pending queue
                       (alter (fun b => b ++ [p])
                              (priority_index (job_priority j)) (pending queue)) in
        let sched := set_queue sched (job_queue_id j) queue in
        let sched := set_job sched p (set_job_state j MGPU_JOB_QUEUED) in
        (0, set_total_jobs sched (u64 (total_jobs sched + 1)))
      end
  end.

(** What a sleeping task finds each time schedule_timeout returns: the
    jiffies that went by, whether a signal is pending for it, and what the
    other contexts (device, interrupt handler, timeout sweep, other callers)
    did to the shared state [St] in the meantime. *)
Record wakeup (St : Type) : Type := MkWakeup {
  elapsed : Z;
  signal_pending : bool;
  others : St -> St;
}.
Arguments MkWakeup {St} _ _ _.
Arguments elapsed {St} _.
Arguments signal_pending {St} _.
Arguments others {St} _ _.

(** The kernel's msecs_to_jiffies(const unsigned int m) for a tick rate
    [hz] that divides 1000 (HZ <= MSEC_PER_SEC and MSEC_PER_SEC % HZ == 0):
    the argument is converted to unsigned int, and one that is negative as
    an int stands for an infinite timeout.  For the other tick rates the
    kernel multiplies by constants it generates when it is built; they are
    not part of this model, and what depends on the value of the conversion
    is stated for tick rates that divide 1000. *)
Definition msecs_to_jiffies (hz m : Z) : Z :=
  let m := u32 m in
  if 2 ^ 31 <=? m then MAX_JIFFY_OFFSET
  else (m + (1000 / hz) - 1) / (1000 / hz).

(** The sleeping loop of the kernel's do_wait_for_common, entered with the
    completion not done: sleep, and again, until the completion is done or
    the budget is used up (the sleep is not interruptible, signals do not
    end it).  [None]: the wake-ups given ran out with the waiter still
    asleep. *)
Fixpoint completion_sleep (wakes : list (wakeup mgpu_job)) (timeout : Z) (j : mgpu_job)
  : option (Z * mgpu_job) :=
  match wakes with
  | [] => None
  | w :: ws =>
    let j := others w j in
    let timeout := Z.max 0 (timeout - elapsed w) in
    if (completion_done j =? 0) && negb (timeout =? 0)
    then completion_sleep ws timeout j
    else Some (timeout, j)
  end.

(** wait_for_completion_timeout: 0 when the budget ran out with the
    completion still not done, else the jiffies left (at least 1), the
    completion consumed. *)
Definition wait_for_completion_timeout (wakes : list (wakeup mgpu_job)) (timeout : Z)
    (j : mgpu_job) : option (Z * mgpu_job) :=
  let consume (t : Z) (j : mgpu_job) :=
    (if t =? 0 then 1 else t, set_completion_done j (completion_done j - 1)) in
  if completion_done j =? 0 then
    match completion_sleep wakes timeout j with
    | None => None
    | Some (t, j) =>
      if completion_done j =? 0 then Some (t, j) else Some (consume t j)
    end
  else Some (consume timeout j).

Definition mgpu_sched_wait_job (hz : Z) (wakes : list (wakeup mgpu_job)) (job : mgpu_job)
    (timeout_ms : Z) : option (Z * mgpu_job) :=
  let timeout := msecs_to_jiffies hz timeout_ms in
  match wait_for_completion_timeout wakes timeout job with
  | None => None
  | Some (ret, job) =>
    if ret =? 0 then Some (- ETIMEDOUT, set_job_state job MGPU_JOB_TIMEOUT)
    else if ret <? 0 then Some (ret, job)
    else Some (job_result job, job)
  end.

(** A scheduler as mgpu_sched_init leaves it on a device without the
    multi-queue capability: queue 0 with the depth of 16, the other slots
    empty. *)
Definition mgpu_queue_create (qid : Z) : mgpu_queue :=
  MkQueue qid 16 0 false (replicate MGPU_NUM_PRIORITIES []) None 0 0.

Definition one_queue_sched : mgpu_scheduler :=
  MkSched (Some (mgpu_queue_create 0) :: replicate 15 None) 1 ∅ 0.

(** A job as mgpu_job_alloc and mgpu_sched_submit set it up for one NOP:
    pending, normal priority, no dependency, the 10 s timeout. *)
Definition nop_job : mgpu_job :=
  MkJob 2 MGPU_JOB_TYPE_DRAW MGPU_PRIORITY_NORMAL MGPU_JOB_PENDING
        0x7f000000 4 0 0 0 0 0 0 10000 0 0.

(** The same job once it runs. *)
Definition running_job : mgpu_job := set_job_state nop_job MGPU_JOB_RUNNING.

(** A waiter's only wake-up: its 50 ms are over and nobody touched the job. *)
Definition quiet_timeout : list (wakeup mgpu_job) :=
  [MkWakeup 50 false (fun j => j)].

(** The scheduler holding that job at address 1, not yet submitted. *)
Definition sched_with_nop : mgpu_scheduler := set_job one_queue_sched 1%positive nop_job.

(** No job of the buckets is ready. *)
Definition nothing_ready (js : gmap job_ptr mgpu_job)
    (buckets : list (list job_ptr)) : Prop :=
  forall bucket p j, bucket ∈ buckets -> p ∈ bucket -> js !! p = Some j ->
                     mgpu_job_is_ready j = false.

(** The scheduler with that job already in the normal bucket of queue 0 and
    still pending, which no path of mgpu_sched_submit_job produces. *)
Definition sched_pending_in_bucket : mgpu_scheduler :=
  set_queue sched_with_nop 0
    (set_pending (mgpu_queue_create 0) [[]; [1%positive]; []; []]).

(** Wake-ups during which no other context touches the job, and the jiffies
    they add up to. *)
Definition quiet {St : Type} (wakes : list (wakeup St)) : Prop :=
  Forall (fun w => 0 <= elapsed w /\ forall j, others w j = j) wakes.

Definition total_elapsed {St : Type} (wakes : list (wakeup St)) : Z :=
  foldr (fun w acc => elapsed w + acc) 0 wakes.

(** ** Fence engine (mgpu_fence.c) *)

Definition set_seqno (ctx : mgpu_fence_context) (s : Z) : mgpu_fence_context :=
  MkFenceCtx (cpu_addr ctx) (fence_dma_addr ctx) s (wait_list ctx).

Definition set_wait_list (ctx : mgpu_fence_context)
    (l : list (Z * mgpu_fence_wait)) : mgpu_fence_context :=
  MkFenceCtx (cpu_addr ctx) (fence_dma_addr ctx) (seqno ctx) l.

Definition mgpu_fence_init (env : kenv) (mdev : mgpu_device) : Z * mgpu_device :=
  if negb (kzalloc_ok env) then (- ENOMEM, mdev)
  else match dma_alloc_coherent env PAGE_SIZE with
       | None => (- ENOMEM, mdev)
       | Some dma =>
         let ctx := MkFenceCtx (replicate (Z.to_nat (PAGE_SIZE / 4)) 0) dma 0 [] in
         let mdev := mgpu_write mdev MGPU_REG_FENCE_ADDR (lower_32_bits dma) in
         (0, set_fence_ctx mdev (Some ctx))
       end.

(** [atomic_inc_return] on the [atomic_t] counter, returned as [u32]. *)
Definition mgpu_fence_next (mdev : mgpu_device) : Z * mgpu_device :=
  match fence_ctx mdev with
  | None => (0, mdev)
  | Some ctx =>
    let s := s32 (seqno ctx + 1) in
    (u32 s, set_fence_ctx mdev (Some (set_seqno ctx s)))
  end.

(** The state after [n] calls of mgpu_fence_next, and the value call number
    [k] (from 1) returns. *)
Fixpoint after_fence_next (n : nat) (mdev : mgpu_device) : mgpu_device :=
  match n with
  | O => mdev
  | S n' => (mgpu_fence_next (after_fence_next n' mdev)).2
  end.

Definition nth_fence_next (k : nat) (mdev : mgpu_device) : Z :=
  (mgpu_fence_next (after_fence_next (pred k) mdev)).1.

(** mgpu_fence_signaled.  The bus address is 64 bits wide, and so is the
    sum that bounds the page.  A cell index past the page, which the range
    test excludes for a page that does not wrap around the address space,
    reads as 0. *)
Definition mgpu_fence_signaled (mdev : mgpu_device) (fence_addr fence_value : Z)
  : bool :=
  match fence_ctx mdev with
  | None => true
  | Some ctx =>
    if (fence_addr <? fence_dma_addr ctx)
       || (u64 (fence_dma_addr ctx + PAGE_SIZE) <=? fence_addr)
    then true
    else
      let current_value :=
        cpu_addr ctx !!! Z.to_nat (u64 (fence_addr - fence_dma_addr ctx) / 4) in
      fence_value <=? current_value
  end.

(** The kernel's schedule_timeout: an unbounded sleep hands its argument
    back, a bounded one what is left of it. *)
Definition schedule_timeout (timeout elapsed : Z) : Z :=
  if timeout =? MAX_SCHEDULE_TIMEOUT then MAX_SCHEDULE_TIMEOUT
  else Z.max 0 (timeout - elapsed).

(** The kernel's wait_event_interruptible_timeout on shared state [St]:
    leave with the time left (at least 1) once the condition holds, with 0
    once the budget is used up, with -ERESTARTSYS on a pending signal, and
    sleep otherwise.  [None]: the wake-ups given ran out with the task
    still asleep. *)
Fixpoint wait_event_interruptible_timeout {St : Type} (condition : St -> bool)
    (wakes : list (wakeup St)) (sig : bool) (ret : Z) (st : St)
  : option (Z * St) :=
  if condition st then Some (if ret =? 0 then 1 else ret, st)
  else if ret =? 0 then Some (0, st)
  else if sig then Some (- ERESTARTSYS, st)
  else match wakes with
       | [] => None
       | w :: ws =>
         wait_event_interruptible_timeout condition ws (signal_pending w)
           (schedule_timeout ret (elapsed w)) (others w st)
       end.

(** struct mgpu_wait_fence (uapi). *)
Record mgpu_wait_fence_args : Type := MkWaitFence {
  wf_fence_addr : Z;
  wf_fence_value : Z;
  wf_timeout_ms : Z;
}.

Definition fence_list_add_tail (mdev : mgpu_device) (self : Z)
    (e : mgpu_fence_wait) : mgpu_device :=
  match fence_ctx mdev with
  | None => mdev
  | Some ctx =>
    set_fence_ctx mdev (Some (set_wait_list ctx (wait_list ctx ++ [(self, e)])))
  end.

Definition fence_list_del (mdev : mgpu_device) (self : Z) : mgpu_device :=
  match fence_ctx mdev with
  | None => mdev
  | Some ctx =>
    set_fence_ctx mdev
      (Some (set_wait_list ctx
               (filter (fun e => e.1 ≠ self) (wait_list ctx))))
  end.

(** mgpu_wait_fence.  [self] is the address of the waiter's entry, [sig]
    whether a signal is pending when it starts to wait. *)
Definition mgpu_wait_fence (hz : Z) (wakes : list (wakeup mgpu_device))
    (sig : bool) (self : Z) (mdev : mgpu_device) (args : mgpu_wait_fence_args)
  : option (Z * mgpu_device) :=
  match fence_ctx mdev with
  | None => Some (- ENODEV, mdev)
  | Some _ =>
    if mgpu_fence_signaled mdev (wf_fence_addr args) (wf_fence_value args)
    then Some (0, mdev)
    else
      let mdev := fence_list_add_tail mdev self
                    (MkFenceWait (wf_fence_value args) false) in
      let timeout := if wf_timeout_ms args =? 0 then MAX_SCHEDULE_TIMEOUT
                     else msecs_to_jiffies hz (wf_timeout_ms args) in
      match wait_event_interruptible_timeout
              (fun m => mgpu_fence_signaled m (wf_fence_addr args)
                                            (wf_fence_value args))
              wakes sig timeout mdev with
      | None => None
      | Some (ret, mdev) =>
        let mdev := fence_list_del mdev self in
        if ret =? 0 then Some (- ETIMEDOUT, mdev)
        else if ret <? 0 then Some (ret, mdev)
        else Some (0, mdev)
      end
  end.

(** The fence page, as the claims speak of it. *)
Definition in_fence_page (ctx : mgpu_fence_context) (addr : Z) : Prop :=
  fence_dma_addr ctx <= addr < fence_dma_addr ctx + PAGE_SIZE.

Definition fence_cell (ctx : mgpu_fence_context) (addr : Z) : Z :=
  cpu_addr ctx !!! Z.to_nat ((addr - fence_dma_addr ctx) / 4).

(** Wake-ups that bring neither a signal nor the fence value waited for. *)
Fixpoint stays_unsignaled (wakes : list (wakeup mgpu_device))
    (mdev : mgpu_device) (addr value : Z) : Prop :=
  match wakes with
  | [] => True
  | w :: ws =>
    signal_pending w = false /\
    mgpu_fence_signaled (others w mdev) addr value = false /\
    stays_unsignaled ws (others w mdev) addr value
  end.

(** The device context right after mgpu_fence_init, the fence page at bus
    address 0x10000000, and the same with the cell at offset 8 holding 5. *)
Definition fence_mdev : mgpu_device :=
  (mgpu_fence_init nop_env (fresh_mdev idle_device)).2.

Definition fence_ctx_cell5 : mgpu_fence_context :=
  MkFenceCtx (<[2%nat := 5]> (replicate 1024 0)) 0x10000000 0 [].

Definition fence_mdev_cell5 : mgpu_device :=
  set_fence_ctx fence_mdev (Some fence_ctx_cell5).

(** Two wake-ups of a fence waiter, a second and then a quarter of an hour
    later, neither with a signal nor with any change to the fence page. *)
Definition long_quiet_wait : list (wakeup mgpu_device) :=
  [MkWakeup 1000 false (fun m => m); MkWakeup 900000 false (fun m => m)].

(** ** Core helpers (mgpu_core.c, mgpu_irq.c) used by the reset work *)

Definition MGPU_CTRL_ENABLE : Z := 1.
Definition MGPU_CTRL_RESET : Z := 2.

Definition MGPU_IRQ_CMD_COMPLETE : Z := 1.
Definition MGPU_IRQ_ERROR : Z := 2.
Definition MGPU_IRQ_FENCE : Z := 4.
Definition MGPU_IRQ_QUEUE_EMPTY : Z := 8.
Definition MGPU_IRQ_PERF_COUNTER : Z := 32.

(** [usleep_range(min, max)]: at least [min] microseconds go by. *)
Definition usleep_range (mdev : mgpu_device) (min max : Z) : mgpu_device :=
  set_mmio mdev (mmio_sleep (mmio mdev) min).

Definition mgpu_core_test_alive (mdev : mgpu_device) : Z * mgpu_device :=
  let test_val := 0xDEADBEEF in
  let mdev := mgpu_write mdev MGPU_REG_SCRATCH test_val in
  let read_val := mgpu_read mdev MGPU_REG_SCRATCH in
  if negb (read_val =? test_val) then (- EIO, mdev)
  else
    let test_val := u32 (Z.lnot test_val) in
    let mdev := mgpu_write mdev MGPU_REG_SCRATCH test_val in
    let read_val := mgpu_read mdev MGPU_REG_SCRATCH in
    if negb (read_val =? test_val) then (- EIO, mdev) else (0, mdev).

(** [while (timeout--) { status = ...; if (status & MGPU_STATUS_IDLE) break;
    msleep(1); }], returning the value [timeout] is left with. *)
Fixpoint poll_idle_loop (timeout : nat) (mdev : mgpu_device) : Z * mgpu_device :=
  match timeout with
  | O => (-1, mdev)
  | S t =>
    let status := mgpu_read mdev MGPU_REG_STATUS in
    if negb (Z.land status MGPU_STATUS_IDLE =? 0) then (Z.of_nat t, mdev)
    else poll_idle_loop t (msleep mdev 1)
  end.

Definition mgpu_core_reset (mdev : mgpu_device) : Z * mgpu_device :=
  let mdev := mgpu_write mdev MGPU_REG_CONTROL MGPU_CTRL_RESET in
  let mdev := msleep mdev 10 in
  let mdev := mgpu_write mdev MGPU_REG_CONTROL 0 in
  let '(timeout, mdev) := poll_idle_loop 100 mdev in
  if timeout <=? 0 then (- ETIMEDOUT, mdev)
  else (0, mgpu_write mdev MGPU_REG_IRQ_ACK 0xFFFFFFFF).

(** mgpu_irq_enable, built without CONFIG_MGPU_DEBUG. *)
Definition mgpu_irq_enable (mdev : mgpu_device) : mgpu_device :=
  let mask := Z.lor (Z.lor (Z.lor MGPU_IRQ_CMD_COMPLETE MGPU_IRQ_ERROR)
                           MGPU_IRQ_FENCE) MGPU_IRQ_QUEUE_EMPTY in
  let mask := if profiling_enabled mdev then Z.lor mask MGPU_IRQ_PERF_COUNTER
              else mask in
  mgpu_write mdev MGPU_REG_IRQ_ENABLE mask.

Definition mgpu_irq_disable (mdev : mgpu_device) : mgpu_device :=
  let mdev := mgpu_write mdev MGPU_REG_IRQ_ENABLE 0 in
  mgpu_write mdev MGPU_REG_IRQ_ACK 0xFFFFFFFF.

(** mgpu_irq_init; the lock, tasklet and wait queues it sets up are not
    part of this model's device context. *)
Definition mgpu_irq_init (env : kenv) (mdev : mgpu_device) : Z * mgpu_device :=
  if negb (request_irq env =? 0) then (request_irq env, mdev)
  else (0, mgpu_irq_enable mdev).

(** mgpu_core_init; the version, capability and queue-count fields it
    fills in from the registers are not part of this model's device
    context. *)
Definition mgpu_core_init (env : kenv) (mdev : mgpu_device) : Z * mgpu_device :=
  let '(ret, mdev) := mgpu_core_reset mdev in
  if negb (ret =? 0) then (ret, mdev)
  else
    let '(ret, mdev) := mgpu_irq_init env mdev in
    if negb (ret =? 0) then (ret, mdev)
    else
      let mdev := mgpu_write mdev MGPU_REG_CONTROL MGPU_CTRL_ENABLE in
      let '(ret, mdev) := mgpu_core_test_alive mdev in
      if negb (ret =? 0) then (ret, mgpu_write mdev MGPU_REG_CONTROL 0)
      else (0, mdev).

Definition mgpu_core_is_idle (mdev : mgpu_device) : bool :=
  let status := mgpu_read mdev MGPU_REG_STATUS in
  negb (Z.land status MGPU_STATUS_IDLE =? 0)
  && (Z.land status MGPU_STATUS_BUSY =? 0).

(** mgpu_core_wait_idle: [polls] is how often [time_before(jiffies,
    timeout)] still holds when the loop tests it. *)
Fixpoint core_wait_idle_loop (polls : nat) (mdev : mgpu_device)
  : Z * mgpu_device :=
  match polls with
  | O => (- ETIMEDOUT, mdev)
  | S n =>
    if mgpu_core_is_idle mdev then (0, mdev)
    else if negb (Z.land (mgpu_read mdev MGPU_REG_STATUS) MGPU_STATUS_ERROR =? 0)
    then (- EIO, mdev)
    else core_wait_idle_loop n (usleep_range mdev 100 200)
  end.

Definition mgpu_core_wait_idle (env : kenv) (mdev : mgpu_device)
    (timeout_ms : Z) : Z * mgpu_device :=
  core_wait_idle_loop (idle_polls env) mdev.

(** mgpu_core_dump_state only reads registers and logs them. *)
Definition mgpu_core_dump_state (mdev : mgpu_device) : mgpu_device := mdev.

Definition set_ring_enabled (r : mgpu_ring) (b : bool) : mgpu_ring :=
  MkRing (vaddr r) (dma_addr r) (size r) (head r) (tail r) (queue_id r)
         (submitted_cmds r) (completed_cmds r) b (last_head r).

(** Modelled from the spec: mgpu_cmdq_stop is called by the reset work but
    defined nowhere in the sources.  Section 4.F has the reset work "stop
    accepting new submissions" and "disable new submissions on the ring" at
    this point: the ring, if there is one, is disabled. *)
Definition mgpu_cmdq_stop (mdev : mgpu_device) : mgpu_device :=
  match cmd_ring mdev with
  | None => mdev
  | Some ring => set_cmd_ring mdev (Some (set_ring_enabled ring false))
  end.

Definition mgpu_cmdq_resume (mdev : mgpu_device) : Z * mgpu_device :=
  match cmd_ring mdev with
  | None => (0, mdev)
  | Some ring =>
    let q := queue_id ring * 0x10 in
    let mdev := mgpu_write mdev (MGPU_REG_CMD_BASE + q)
                           (lower_32_bits (dma_addr ring)) in
    let mdev := mgpu_write mdev (MGPU_REG_CMD_SIZE + q) (size ring) in
    let mdev := mgpu_write mdev (MGPU_REG_CMD_HEAD + q) (last_head ring) in
    let mdev := mgpu_write mdev (MGPU_REG_CMD_TAIL + q) (tail ring) in
    (0, set_cmd_ring mdev (Some (set_ring_enabled ring true)))
  end.

(** ** Reset (mgpu_reset.c) *)

Definition mgpu_reset_hw (mdev : mgpu_device) : Z * mgpu_device :=
  let mdev := mgpu_write mdev MGPU_REG_CONTROL MGPU_CTRL_RESET in
  let mdev := msleep mdev 100 in
  let mdev := mgpu_write mdev MGPU_REG_CONTROL 0 in
  let '(timeout, mdev) := poll_idle_loop 1000 mdev in
  if timeout <=? 0 then (- ETIMEDOUT, mdev)
  else
    let mdev := mgpu_write mdev MGPU_REG_IRQ_ACK 0xFFFFFFFF in
    let '(ret, mdev) := mgpu_core_test_alive mdev in
    if negb (ret =? 0) then (- EIO, mdev) else (0, mdev).

(** The steps of mgpu_reset_work between setting and clearing the flag; a
    failing step jumps to the end. *)
Definition reset_work_steps (env : kenv) (mdev : mgpu_device) : mgpu_device :=
  let mdev := mgpu_cmdq_stop mdev in
  let '(_, mdev) := mgpu_core_wait_idle env mdev 1000 in
  let mdev := mgpu_core_dump_state mdev in
  let mdev := mgpu_irq_disable mdev in
  let '(ret, mdev) := mgpu_reset_hw mdev in
  if negb (ret =? 0) then mdev
  else
    let '(ret, mdev) := mgpu_core_init env mdev in
    if negb (ret =? 0) then mdev
    else
      let '(ret, mdev) := mgpu_cmdq_resume mdev in
      if negb (ret =? 0) then mdev
      else mgpu_irq_enable mdev.

Definition mgpu_reset_work (env : kenv) (mdev : mgpu_device) : mgpu_device :=
  let mdev := set_in_reset mdev 1 in
  let mdev := reset_work_steps env mdev in
  set_in_reset mdev 0.

Definition mgpu_reset_init (mdev : mgpu_device) : Z * mgpu_device :=
  (0, set_reset_count (set_in_reset (set_reset_work_pending mdev false) 0) 0).

(** The kernel's schedule_delayed_work with no delay: the work is queued
    unless it is queued already. *)
Definition schedule_delayed_work (mdev : mgpu_device) : mgpu_device :=
  if reset_work_pending mdev then mdev else set_reset_work_pending mdev true.

Definition mgpu_reset_schedule (mdev : mgpu_device) : mgpu_device :=
  if negb (in_reset mdev =? 0) then mdev
  else
    let mdev := set_reset_count mdev (s32 (reset_count mdev + 1)) in
    schedule_delayed_work mdev.

(** The worker thread: it takes queued work off the queue and runs it,
    until none is queued; the result counts the reset cycles it ran. *)
Fixpoint run_reset_worker (fuel : nat) (env : kenv) (mdev : mgpu_device)
  : nat * mgpu_device :=
  match fuel with
  | O => (O, mdev)
  | S f =>
    if reset_work_pending mdev then
      let mdev := mgpu_reset_work env (set_reset_work_pending mdev false) in
      let '(n, mdev) := run_reset_worker f env mdev in
      (S n, mdev)
    else (O, mdev)
  end.

(** mgpu_reset_wait: the timeout goes to the wait as it is, zero included;
    the [long] the wait returns is stored in [int ret]. *)
Definition mgpu_reset_wait (hz : Z) (wakes : list (wakeup mgpu_device))
    (sig : bool) (mdev : mgpu_device) (timeout_ms : Z)
  : option (Z * mgpu_device) :=
  match wait_event_interruptible_timeout (fun m => in_reset m =? 0) wakes sig
          (msecs_to_jiffies hz timeout_ms) mdev with
  | None => None
  | Some (ret, mdev) =>
    let ret := s32 ret in
    if ret =? 0 then Some (- ETIMEDOUT, mdev)
    else if ret <? 0 then Some (ret, mdev)
    else Some (0, mdev)
  end.

(** The reset bookkeeping of a device context: the flag, the counter, and
    whether the reset work is queued. *)
Definition reset_state (mdev : mgpu_device) : Z * Z * bool :=
  (in_reset mdev, reset_count mdev, reset_work_pending mdev).

(** A device that answers every reset: its scratch register echoes the
    last write, its status register reads idle. *)
Fixpoint last_write (t : list mmio_event) (offset : Z) : option Z :=
  match t with
  | [] => None
  | MmioWrite o v :: t' =>
    match last_write t' offset with
    | Some x => Some x
    | None => if o =? offset then Some v else None
    end
  | Sleep _ :: t' => last_write t' offset
  end.

Definition healthy_device : list mmio_event -> Z -> Z :=
  fun t offset =>
    if offset =? MGPU_REG_STATUS then MGPU_STATUS_IDLE
    else default 0 (last_write t offset).

(** The device context after mgpu_reset_init, in front of that device. *)
Definition reset_mdev : mgpu_device :=
  (mgpu_reset_init (fresh_mdev healthy_device)).2.

(** ** Health monitoring (mgpu_health.c) *)

Definition MGPU_HEARTBEAT_TIMEOUT_MS : Z := 5000.
Definition MGPU_ERROR_THRESHOLD : Z := 10.

(** struct mgpu_health_monitor, the statistics flattened into it. *)
Record mgpu_health_monitor : Type := MkMonitor {
  monitoring_enabled : bool;
  check_count : Z;
  error_count : Z;
  hang_count : Z;
  recovery_count : Z;
  heartbeat_misses : Z;
  last_check : Z;
  last_error : Z;
  last_hang : Z;
  consecutive_errors : Z;
  last_fence_value : Z;
  last_cmd_head : Z;
  last_activity : Z;
  heartbeat_counter : Z;
  last_heartbeat : Z;
}.

Definition set_check_count (m : mgpu_health_monitor) (v : Z)
  : mgpu_health_monitor :=
  MkMonitor (monitoring_enabled m) v (error_count m) (hang_count m)
          (recovery_count m) (heartbeat_misses m) (last_check m)
          (last_error m) (last_hang m) (consecutive_errors m)
          (last_fence_value m) (last_cmd_head m) (last_activity m)
          (heartbeat_counter m) (last_heartbeat m).

Definition set_error_count (m : mgpu_health_monitor) (v : Z)
  : mgpu_health_monitor :=
  MkMonitor (monitoring_enabled m) (check_count m) v (hang_count m)
          (recovery_count m) (heartbeat_misses m) (last_check m)
          (last_error m) (last_hang m) (consecutive_errors m)
          (last_fence_value m) (last_cmd_head m) (last_activity m)
          (heartbeat_counter m) (last_heartbeat m).

Definition set_hang_count (m : mgpu_health_monitor) (v : Z)
  : mgpu_health_monitor :=
  MkMonitor (monitoring_enabled m) (check_count m) (error_count m) v
          (recovery_count m) (heartbeat_misses m) (last_check m)
          (last_error m) (last_hang m) (consecutive_errors m)
          (last_fence_value m) (last_cmd_head m) (last_activity m)
          (heartbeat_counter m) (last_heartbeat m).

Definition set_recovery_count (m : mgpu_health_monitor) (v : Z)
  : mgpu_health_monitor :=
  MkMonitor (monitoring_enabled m) (check_count m) (error_count m)
          (hang_count m) v (heartbeat_misses m) (last_check m) (last_error m)
          (last_hang m) (consecutive_errors m) (last_fence_value m)
          (last_cmd_head m) (last_activity m) (heartbeat_counter m)
          (last_heartbeat m).

Definition set_heartbeat_misses (m : mgpu_health_monitor) (v : Z)
  : mgpu_health_monitor :=
  MkMonitor (monitoring_enabled m) (check_count m) (error_count m)
          (hang_count m) (recovery_count m) v (last_check m) (last_error m)
          (last_hang m) (consecutive_errors m) (last_fence_value m)
          (last_cmd_head m) (last_activity m) (heartbeat_counter m)
          (last_heartbeat m).

Definition set_last_check (m : mgpu_health_monitor) (v : Z)
  : mgpu_health_monitor :=
  MkMonitor (monitoring_enabled m) (check_count m) (error_count m)
          (hang_count m) (recovery_count m) (heartbeat_misses m) v
          (last_error m) (last_hang m) (consecutive_errors m)
          (last_fence_value m) (last_cmd_head m) (last_activity m)
          (heartbeat_counter m) (last_heartbeat m).

Definition set_last_error (m : mgpu_health_monitor) (v : Z)
  : mgpu_health_monitor :=
  MkMonitor (monitoring_enabled m) (check_count m) (error_count m)
          (hang_count m) (recovery_count m) (heartbeat_misses m)
          (last_check m) v (last_hang m) (consecutive_errors m)
          (last_fence_value m) (last_cmd_head m) (last_activity m)
          (heartbeat_counter m) (last_heartbeat m).

Definition set_last_hang (m : mgpu_health_monitor) (v : Z)
  : mgpu_health_monitor :=
  MkMonitor (monitoring_enabled m) (check_count m) (error_count m)
          (hang_count m) (recovery_count m) (heartbeat_misses m)
          (last_check m) (last_error m) v (consecutive_errors m)
          (last_fence_value m) (last_cmd_head m) (last_activity m)
          (heartbeat_counter m) (last_heartbeat m).

Definition set_consecutive_errors (m : mgpu_health_monitor) (v : Z)
  : mgpu_health_monitor :=
  MkMonitor (monitoring_enabled m) (check_count m) (error_count m)
          (hang_count m) (recovery_count m) (heartbeat_misses m)
          (last_check m) (last_error m) (last_hang m) v (last_fence_value m)
          (last_cmd_head m) (last_activity m) (heartbeat_counter m)
          (last_heartbeat m).

Definition set_last_fence_value (m : mgpu_health_monitor) (v : Z)
  : mgpu_health_monitor :=
  MkMonitor (monitoring_enabled m) (check_count m) (error_count m)
          (hang_count m) (recovery_count m) (heartbeat_misses m)
          (last_check m) (last_error m) (last_hang m) (consecutive_errors m)
          v (last_cmd_head m) (last_activity m) (heartbeat_counter m)
          (last_heartbeat m).

Definition set_last_cmd_head (m : mgpu_health_monitor) (v : Z)
  : mgpu_health_monitor :=
  MkMonitor (monitoring_enabled m) (check_count m) (error_count m)
          (hang_count m) (recovery_count m) (heartbeat_misses m)
          (last_check m) (last_error m) (last_hang m) (consecutive_errors m)
          (last_fence_value m) v (last_activity m) (heartbeat_counter m)
          (last_heartbeat m).

Definition set_last_activity (m : mgpu_health_monitor) (v : Z)
  : mgpu_health_monitor :=
  MkMonitor (monitoring_enabled m) (check_count m) (error_count m)
          (hang_count m) (recovery_count m) (heartbeat_misses m)
          (last_check m) (last_error m) (last_hang m) (consecutive_errors m)
          (last_fence_value m) (last_cmd_head m) v (heartbeat_counter m)
          (last_heartbeat m).

Definition set_heartbeat_counter (m : mgpu_health_monitor) (v : Z)
  : mgpu_health_monitor :=
  MkMonitor (monitoring_enabled m) (check_count m) (error_count m)
          (hang_count m) (recovery_count m) (heartbeat_misses m)
          (last_check m) (last_error m) (last_hang m) (consecutive_errors m)
          (last_fence_value m) (last_cmd_head m) (last_activity m) v
          (last_heartbeat m).

Definition set_last_heartbeat (m : mgpu_health_monitor) (v : Z)
  : mgpu_health_monitor :=
  MkMonitor (monitoring_enabled m) (check_count m) (error_count m)
          (hang_count m) (recovery_count m) (heartbeat_misses m)
          (last_check m) (last_error m) (last_hang m) (consecutive_errors m)
          (last_fence_value m) (last_cmd_head m) (last_activity m)
          (heartbeat_counter m) v.

(** mgpu_error_table: error code and whether the error is recoverable
    (the names and descriptions only go to the log). *)
Definition mgpu_error_table : list (Z * bool) :=
  [(0x00, false); (0x01, true); (0x02, true); (0x03, true); (0x04, true);
   (0x05, true)].

Fixpoint error_table_find (table : list (Z * bool)) (code : Z)
  : option (Z * bool) :=
  match table with
  | [] => None
  | e :: rest => if e.1 =? code then Some e else error_table_find rest code
  end.

Definition mgpu_get_error_info (error_code : Z) : Z * bool :=
  default (0x00, false) (error_table_find mgpu_error_table error_code).

(** [time_after(a, b)] on [unsigned long]. *)
Definition time_after (a b : Z) : bool := s64 (b - a) <? 0.

(** [jiffies] and [ktime] are what the kernel's clocks read during the
    check. *)
Definition mgpu_health_check_heartbeat (jiffies : Z)
    (monitor : mgpu_health_monitor) (mdev : mgpu_device)
  : bool * mgpu_health_monitor * mgpu_device :=
  let monitor := set_heartbeat_counter monitor
                   (u32 (heartbeat_counter monitor + 1)) in
  let mdev := mgpu_write mdev MGPU_REG_SCRATCH (heartbeat_counter monitor) in
  let scratch := mgpu_read mdev MGPU_REG_SCRATCH in
  let '(alive, monitor) :=
    if negb (scratch =? heartbeat_counter monitor)
    then (false, set_heartbeat_misses monitor
                   (u64 (heartbeat_misses monitor + 1)))
    else (true, monitor) in
  (alive, set_last_heartbeat monitor jiffies, mdev).

Definition mgpu_health_check_hang (hz jiffies ktime : Z)
    (monitor : mgpu_health_monitor) (mdev : mgpu_device)
  : bool * mgpu_health_monitor :=
  let status := mgpu_read mdev MGPU_REG_STATUS in
  if Z.land status MGPU_STATUS_BUSY =? 0 then (false, monitor)
  else
    let deadline m :=
      u64 (last_activity m + msecs_to_jiffies hz MGPU_HEARTBEAT_TIMEOUT_MS) in
    let cmd_head := mgpu_read mdev MGPU_REG_CMD_HEAD in
    let '(hung, monitor) :=
      if cmd_head =? last_cmd_head monitor
      then (time_after jiffies (deadline monitor), monitor)
      else (false, set_last_activity (set_last_cmd_head monitor cmd_head)
                                     jiffies) in
    let fence_value := mgpu_read mdev MGPU_REG_FENCE_VALUE in
    let '(hung, monitor) :=
      if fence_value =? last_fence_value monitor
      then (hung || time_after jiffies (deadline monitor), monitor)
      else (hung, set_last_activity (set_last_fence_value monitor fence_value)
                                    jiffies) in
    if hung
    then (true, set_last_hang (set_hang_count monitor
                                 (u64 (hang_count monitor + 1))) ktime)
    else (false, monitor).

Definition mgpu_health_check_errors (ktime : Z) (monitor : mgpu_health_monitor)
    (mdev : mgpu_device) : Z * mgpu_health_monitor * mgpu_device :=
  let status := mgpu_read mdev MGPU_REG_STATUS in
  let '(error_count, monitor, mdev) :=
    if negb (Z.land status MGPU_STATUS_ERROR =? 0) then
      let error_code := Z.land (Z.shiftr status 16) 0xFF in
      let info := mgpu_get_error_info error_code in
      let monitor := set_error_count monitor (u64 (error_count monitor + 1)) in
      let monitor := set_last_error monitor ktime in
      let monitor := set_consecutive_errors monitor
                       (u32 (consecutive_errors monitor + 1)) in
      let mdev :=
        if info.2
        then mgpu_write mdev MGPU_REG_STATUS
                        (Z.land status (Z.lnot MGPU_STATUS_ERROR))
        else mdev in
      (1, monitor, mdev)
    else (0, set_consecutive_errors monitor 0, mdev) in
  let error_count :=
    if negb (Z.land status MGPU_STATUS_HALTED =? 0) then error_count + 1
    else error_count in
  (error_count, monitor, mdev).

Definition mgpu_health_check (hz jiffies ktime : Z)
    (monitor : mgpu_health_monitor) (mdev : mgpu_device)
  : mgpu_health_monitor * mgpu_device :=
  let monitor := set_check_count monitor (u64 (check_count monitor + 1)) in
  let monitor := set_last_check monitor ktime in
  let '(alive, monitor, mdev) :=
    mgpu_health_check_heartbeat jiffies monitor mdev in
  let needs_reset := negb alive in
  let '(error_count, monitor, mdev) :=
    mgpu_health_check_errors ktime monitor mdev in
  let needs_reset :=
    if 0 <? error_count
    then (if MGPU_ERROR_THRESHOLD <=? consecutive_errors monitor then true
          else needs_reset)
    else needs_reset in
  let '(hung, monitor) := mgpu_health_check_hang hz jiffies ktime monitor mdev in
  let needs_reset := if hung then true else needs_reset in
  if needs_reset
  then (set_recovery_count monitor (u64 (recovery_count monitor + 1)),
        mgpu_reset_schedule mdev)
  else (monitor, mdev).

(** The monitor as mgpu_health_init leaves it (kzalloc'ed, monitoring on). *)
Definition fresh_monitor : mgpu_health_monitor :=
  MkMonitor true 0 0 0 0 0 0 0 0 0 0 0 0 0 0.

(** The device context after mgpu_reset_init in front of a device whose
    registers all read zero: the scratch register does not echo, the
    status shows neither busy nor error. *)
Definition silent_mdev : mgpu_device :=
  (mgpu_reset_init (fresh_mdev idle_device)).2.

(** ** Command validation (cmd_validators and mgpu_validate_commands) *)

(** struct mgpu_cmd_validator; [validate] is the opcode's own check, given
    the device, the command buffer and the offset of the record. *)
Record mgpu_cmd_validator : Type := MkValidator {
  v_opcode : Z;
  min_size : Z;
  max_size : Z;
  privileged : bool;
  validate : option (mgpu_device -> list Z -> Z -> Z -> Z);
}.

(** The dword [i] places after the header of the record at [ptr]. *)
Definition cmd_field (cmds : list Z) (ptr : Z) (i : Z) : Z :=
  cmds !!! Z.to_nat (ptr + i).

Definition mgpu_validate_draw_cmd (mdev : mgpu_device) (cmds : list Z)
    (ptr sz : Z) : Z :=
  let vertex_count := cmd_field cmds ptr 1 in
  let instance_count := cmd_field cmds ptr 2 in
  if (vertex_count =? 0) || (vertex_count >? 65536) then - EINVAL
  else if instance_count =? 0 then - EINVAL
  else if mgpu_read mdev MGPU_REG_VERTEX_BASE =? 0 then - EINVAL
  else 0.

Definition mgpu_validate_dma_cmd (mdev : mgpu_device) (cmds : list Z)
    (ptr sz : Z) : Z :=
  let src_addr := cmd_field cmds ptr 1 in
  let dst_addr := cmd_field cmds ptr 2 in
  let dma_size := cmd_field cmds ptr 3 in
  if (dma_size =? 0) || (dma_size >? 16 * 1024 * 1024) then - EINVAL
  else if negb (Z.land src_addr 3 =? 0) || negb (Z.land dst_addr 3 =? 0)
          || negb (Z.land dma_size 3 =? 0) then - EINVAL
  else 0.

Definition mgpu_validate_fence_cmd (mdev : mgpu_device) (cmds : list Z)
    (ptr sz : Z) : Z :=
  let addr := cmd_field cmds ptr 1 in
  if negb (Z.land addr 3 =? 0) then - EINVAL else 0.

Definition cmd_validators : list mgpu_cmd_validator :=
  [ MkValidator MGPU_CMD_NOP 1 1 false None;
    MkValidator MGPU_CMD_DRAW 5 8 false (Some mgpu_validate_draw_cmd);
    MkValidator MGPU_CMD_COMPUTE 4 8 false None;
    MkValidator MGPU_CMD_DMA 4 5 false (Some mgpu_validate_dma_cmd);
    MkValidator MGPU_CMD_FENCE 3 3 false (Some mgpu_validate_fence_cmd);
    MkValidator MGPU_CMD_WAIT 2 3 false None;
    MkValidator MGPU_CMD_REG_WRITE 3 3 true None;
    MkValidator MGPU_CMD_REG_READ 2 3 true None ].

(** The search for the validator of an opcode: the first table entry that
    carries it. *)
Fixpoint find_validator (table : list mgpu_cmd_validator) (opcode : Z)
  : option mgpu_cmd_validator :=
  match table with
  | [] => None
  | v :: rest => if v_opcode v =? opcode then Some v
                 else find_validator rest opcode
  end.

(** [hdr->opcode = MGPU_CMD_NOP]: the low byte of the header replaced. *)
Definition set_hdr_opcode (h opcode : Z) : Z :=
  Z.lor (Z.land h (Z.lnot 0xFF)) (Z.land opcode 0xFF).

(** The loop of mgpu_validate_commands over the kernel copy [cmds], [ptr]
    and [end_] counted in dwords from its start.  Every record consumes at
    least one dword, so as many rounds as there are dwords are enough;
    [None] would mean that they were not. *)
Fixpoint validate_loop (fuel : nat) (mdev : mgpu_device) (cmds : list Z)
    (ptr end_ : Z) : option (Z * list Z) :=
  if ptr <? end_ then
    match fuel with
    | O => None
    | S f =>
      let hdr := cmds !!! Z.to_nat ptr in
      match find_validator cmd_validators (hdr_opcode hdr) with
      | None => Some (- EINVAL, cmds)
      | Some validator =>
        let cmd_size := hdr_size hdr in
        if (cmd_size <? min_size validator) || (cmd_size >? max_size validator)
        then Some (- EINVAL, cmds)
        else if ptr + cmd_size >? end_ then Some (- EINVAL, cmds)
        else
          let ret := match validate validator with
                     | Some check => check mdev cmds ptr cmd_size
                     | None => 0
                     end in
          if negb (ret =? 0) then Some (ret, cmds)
          else
            let cmds :=
              if privileged validator
              then <[Z.to_nat ptr := set_hdr_opcode hdr MGPU_CMD_NOP]> cmds
              else cmds in
            validate_loop f mdev cmds (ptr + cmd_size) end_
      end
    end
  else Some (0, cmds).

Definition mgpu_validate_commands (mdev : mgpu_device) (cmds : list Z)
    (size_bytes : Z) : option (Z * list Z) :=
  validate_loop (Z.to_nat (size_bytes / 4)) mdev cmds 0 (size_bytes / 4).

(** A stream cut into records by the sizes the headers declare, from
    offset [ptr] to [end_]: every record has an opcode of the table, a
    declared size within that opcode's bounds, and fits into what is left
    of the payload. *)
Inductive well_sized (cmds : list Z) (end_ : Z) : Z -> Prop :=
| ws_end ptr : end_ <= ptr -> well_sized cmds end_ ptr
| ws_record ptr v :
    0 <= ptr < end_ ->
    find_validator cmd_validators (hdr_opcode (cmds !!! Z.to_nat ptr)) = Some v ->
    min_size v <= hdr_size (cmds !!! Z.to_nat ptr) <= max_size v ->
    ptr + hdr_size (cmds !!! Z.to_nat ptr) <= end_ ->
    well_sized cmds end_ (ptr + hdr_size (cmds !!! Z.to_nat ptr)) ->
    well_sized cmds end_ ptr.

(** The size bounds of the table, opcode by opcode. *)
Definition size_bounds : list (Z * Z * Z) :=
  map (fun v => (v_opcode v, min_size v, max_size v)) cmd_validators.

(** A stream of one REG_READ record that declares two dwords. *)
Definition short_reg_read : list Z := [mk_header MGPU_CMD_REG_READ 2 0; 0x10].

(** The record at offset [q] is one of the records of the stream read from
    offset [p] on. *)
Inductive record_at (cmds : list Z) (end_ : Z) : Z -> Z -> Prop :=
| ra_here p : p < end_ -> record_at cmds end_ p p
| ra_next p q :
    p < end_ ->
    record_at cmds end_ (p + hdr_size (cmds !!! Z.to_nat p)) q ->
    record_at cmds end_ p q.

(** What the validator requires of the size a record declares. *)
Definition record_size_ok (cmds : list Z) (end_ q : Z) : Prop :=
  exists v,
    find_validator cmd_validators (hdr_opcode (cmds !!! Z.to_nat q)) = Some v /\
    min_size v <= hdr_size (cmds !!! Z.to_nat q) <= max_size v /\
    q + hdr_size (cmds !!! Z.to_nat q) <= end_.

(** A NOP followed by a REG_READ record that declares two dwords. *)
Definition nop_then_reg_read : list Z :=
  [mk_header MGPU_CMD_NOP 1 0; mk_header MGPU_CMD_REG_READ 2 0; 0x10].

(** ** Ring life cycle (mgpu_cmdq.c): creation, suspend and resume *)

(** The invariant of the cached ring: none yet, or a well-formed one. *)
Definition ring_ok (mdev : mgpu_device) : Prop :=
  match cmd_ring mdev with
  | None => True
  | Some r => ring_wf r
  end.

Definition set_last_head (r : mgpu_ring) (h : Z) : mgpu_ring :=
  MkRing (vaddr r) (dma_addr r) (size r) (head r) (tail r) (queue_id r)
         (submitted_cmds r) (completed_cmds r) (enabled r) h.

(** The drain loop of mgpu_cmdq_suspend:
    [while (time_before(jiffies, timeout)) { head = ...; tail = ...;
    if (head == tail) break; msleep(10); }].  [polls] is how often the
    deadline test still holds; [head] and [tail] are what the two locals
    hold when the loop is entered. *)
Fixpoint cmdq_suspend_loop (polls : nat) (mdev : mgpu_device) (qid : Z)
    (head tail : Z) : Z * Z * mgpu_device :=
  match polls with
  | O => (head, tail, mdev)
  | S n =>
    let head := mgpu_read mdev (MGPU_REG_CMD_HEAD + qid * 0x10) in
    let tail := mgpu_read mdev (MGPU_REG_CMD_TAIL + qid * 0x10) in
    if head =? tail then (head, tail, mdev)
    else cmdq_suspend_loop n (msleep mdev 10) qid head tail
  end.

(** mgpu_cmdq_suspend.  The locals [head] and [tail] are not initialised:
    [head0] and [tail0] are what they hold should the deadline have passed
    before the first poll. *)
Definition mgpu_cmdq_suspend (polls : nat) (head0 tail0 : Z) (mdev : mgpu_device)
  : Z * mgpu_device :=
  match cmd_ring mdev with
  | None => (0, mdev)
  | Some ring =>
    let ring := set_ring_enabled ring false in
    let mdev := set_cmd_ring mdev (Some ring) in
    let '(head, _, mdev) := cmdq_suspend_loop polls mdev (queue_id ring)
                              head0 tail0 in
    (0, set_cmd_ring mdev (Some (set_last_head ring head)))
  end.

(** ** Scheduler: what mgpu_queue_submit_job hands to the ring *)

(** The struct mgpu_submit that mgpu_queue_submit_job builds for a job. *)
Definition job_submit (queue : mgpu_queue) (job : mgpu_job) : mgpu_submit :=
  MkSubmit (job_commands job) (job_cmd_size job) (q_queue_id queue)
           (if job_fence_addr job =? 0 then 0 else MGPU_SUBMIT_FLAGS_FENCE)
           (job_fence_addr job) (job_fence_value job).

(** Some job of the buckets is ready. *)
Definition some_ready (js : gmap job_ptr mgpu_job)
    (buckets : list (list job_ptr)) : Prop :=
  exists prio bucket p j,
    (prio < MGPU_NUM_PRIORITIES)%nat /\ buckets !! prio = Some bucket /\
    p ∈ bucket /\ js !! p = Some j /\ mgpu_job_is_ready j = true.

(** A kernel that has no memory left for kmalloc. *)
Definition no_kmalloc_env : kenv :=
  MkEnv true false (fun _ => Some 0x10000000) (fun _ => None) 0 100.

(** The nop job once its completion has been signalled with result 0. *)
Definition completed_job : mgpu_job :=
  MkJob 2 MGPU_JOB_TYPE_DRAW MGPU_PRIORITY_NORMAL MGPU_JOB_COMPLETED
        0x7f000000 4 0 0 0 0 0 0 10000 1 0.

(** ** Fence engine: emission and interrupt processing *)

Definition mgpu_fence_emit (mdev : mgpu_device) (fence_addr fence_value : Z) : Z :=
  match fence_ctx mdev with
  | None => - ENODEV
  | Some ctx =>
    if (fence_addr <? fence_dma_addr ctx)
       || (u64 (fence_dma_addr ctx + PAGE_SIZE) <=? fence_addr)
    then - EINVAL
    else 0
  end.

(** The walk of mgpu_fence_process over the wait list.  The fence value
    register is advanced by the GPU on its own, also between two reads of
    one pass: [hw i] is what the read made for entry [i] of the list
    returns (it is made for the entries not flagged yet).  [wake] is the
    local of that name. *)
Fixpoint fence_process_loop (hw : nat -> Z)
    (l : list (Z * mgpu_fence_wait)) (wake : bool)
  : list (Z * mgpu_fence_wait) * bool :=
  match l with
  | [] => ([], wake)
  | (a, w) :: rest =>
    let hw' := fun i => hw (S i) in
    if negb (fw_signaled w) then
      let hw_value := u32 (hw O) in
      if fw_value w <=? hw_value then
        let '(rest', wake') := fence_process_loop hw' rest true in
        ((a, MkFenceWait (fw_value w) true) :: rest', wake')
      else
        let '(rest', wake') := fence_process_loop hw' rest wake in
        ((a, w) :: rest', wake')
    else
      let '(rest', wake') := fence_process_loop hw' rest wake in
      ((a, w) :: rest', wake')
  end.

(** mgpu_fence_process; the result says whether wake_up_all was called. *)
Definition mgpu_fence_process (hw : nat -> Z) (mdev : mgpu_device)
  : bool * mgpu_device :=
  match fence_ctx mdev with
  | None => (false, mdev)
  | Some ctx =>
    let '(l, wake) := fence_process_loop hw (wait_list ctx) false in
    (wake, set_fence_ctx mdev (Some (set_wait_list ctx l)))
  end.

(** A fence context with two waiters for the value 7, neither flagged. *)
Definition two_waiters_mdev : mgpu_device :=
  set_fence_ctx fence_mdev
    (Some (MkFenceCtx (replicate 1024 0) 0x10000000 0
                      [(0x7ffe0000, MkFenceWait 7 false);
                       (0x7ffd0000, MkFenceWait 7 false)])).


(** ** Self-test (mgpu_health.c) *)

Definition selftest_patterns : list Z :=
  [0xDEADBEEF; 0xCAFEBABE; 0x12345678; 0x87654321].

(** The register test of mgpu_run_selftest: [ret] is the local of that
    name, which a failing pattern sets and nothing clears. *)
Fixpoint selftest_loop (mdev : mgpu_device) (patterns : list Z) (ret : Z)
  : Z * mgpu_device :=
  match patterns with
  | [] => (ret, mdev)
  | p :: rest =>
    let mdev := mgpu_write mdev MGPU_REG_SCRATCH p in
    let readback := mgpu_read mdev MGPU_REG_SCRATCH in
    selftest_loop mdev rest (if negb (readback =? p) then - EIO else ret)
  end.

Definition mgpu_run_selftest (mdev : mgpu_device) : Z * mgpu_device :=
  let '(ret, mdev) := selftest_loop mdev selftest_patterns 0 in
  let readback := mgpu_read mdev MGPU_REG_VERSION in
  let ret := if (readback =? 0) || (readback =? 0xFFFFFFFF) then - EIO else ret in
  (ret, mdev).

(** The device context after the scratch register has been written with
    each of [patterns] in turn. *)
Definition after_scratch_writes (mdev : mgpu_device) (patterns : list Z)
  : mgpu_device :=
  foldl (fun m p => mgpu_write m MGPU_REG_SCRATCH p) mdev patterns.

(** A device whose status register always shows an error of code [code]
    and nothing else, and whose other registers echo the last write. *)
Definition failing_device (code : Z) : list mmio_event -> Z -> Z :=
  fun t offset =>
    if offset =? MGPU_REG_STATUS
    then Z.lor MGPU_STATUS_ERROR (Z.shiftl code 16)
    else default 0 (last_write t offset).

(** ** The idle polls of the reset paths *)

(** The device context after [i] sleeps of one millisecond. *)
Fixpoint after_sleeps (i : nat) (mdev : mgpu_device) : mgpu_device :=
  match i with
  | O => mdev
  | S i' => after_sleeps i' (msleep mdev 1)
  end.

(** The status register shows idle. *)
Definition shows_idle (mdev : mgpu_device) : bool :=
  negb (Z.land (mgpu_read mdev MGPU_REG_STATUS) MGPU_STATUS_IDLE =? 0).

(** The device context when the idle poll of mgpu_core_reset, and of
    mgpu_reset_hw, starts: reset asserted, held, and released. *)
Definition core_reset_released (mdev : mgpu_device) : mgpu_device :=
  mgpu_write (msleep (mgpu_write mdev MGPU_REG_CONTROL MGPU_CTRL_RESET) 10)
             MGPU_REG_CONTROL 0.

Definition reset_hw_released (mdev : mgpu_device) : mgpu_device :=
  mgpu_write (msleep (mgpu_write mdev MGPU_REG_CONTROL MGPU_CTRL_RESET) 100)
             MGPU_REG_CONTROL 0.

(** A device whose status shows idle once the host has slept [k]
    milliseconds in all, and whose other registers echo the last write. *)
Fixpoint slept_usecs (t : list mmio_event) : Z :=
  match t with
  | [] => 0
  | Sleep us :: t' => us + slept_usecs t'
  | MmioWrite _ _ :: t' => slept_usecs t'
  end.

Definition idle_after (k : Z) : list mmio_event -> Z -> Z :=
  fun t offset =>
    if offset =? MGPU_REG_STATUS
    then (if k * 1000 <=? slept_usecs t then MGPU_STATUS_IDLE else MGPU_STATUS_BUSY)
    else default 0 (last_write t offset).

(** ** Validated submission (mgpu_submit_validated) *)

(** Whether the table marks an opcode privileged. *)
Definition is_privileged (opcode : Z) : bool :=
  match find_validator cmd_validators opcode with
  | Some v => privileged v
  | None => false
  end.

(** A DRAW record of five dwords followed by a REG_WRITE record. *)
Definition draw_then_reg_write : list Z :=
  [mk_header MGPU_CMD_DRAW 5 0; 3; 1; 0; 0;
   mk_header MGPU_CMD_REG_WRITE 3 0; 0x10; 0xFF].

(** A device whose vertex base register reads non-zero. *)
Definition vertex_device : list mmio_event -> Z -> Z :=
  fun _ offset => if offset =? MGPU_REG_VERTEX_BASE then 0x1000 else 0.

(** mgpu_submit_validated.  [cmd_copy] is the address kmalloc hands out for
    the kernel copy, [submit_count] the counter of the file context ([None]
    for a NULL context).  After validation [args->commands] is set to that
    address and mgpu_submit_commands is called, which copies from it with
    copy_from_user once more: what that second copy yields is the kernel's
    answer for that address. *)
Definition mgpu_submit_validated (env : kenv) (cmd_copy : Z)
    (mdev : mgpu_device) (args : mgpu_submit) (submit_count : option Z)
  : option (Z * mgpu_device * option Z) :=
  if (sub_commands args =? 0) || (sub_cmd_size args =? 0)
  then Some (- EINVAL, mdev, submit_count)
  else if sub_cmd_size args >? MGPU_RING_SIZE_MAX
  then Some (- EINVAL, mdev, submit_count)
  else if negb (Z.land (sub_cmd_size args) 3 =? 0)
  then Some (- EINVAL, mdev, submit_count)
  else if negb (kmalloc_ok env) then Some (- ENOMEM, mdev, submit_count)
  else
    match copy_from_user env (sub_commands args) (sub_cmd_size args) with
    | None => Some (- EFAULT, mdev, submit_count)
    | Some cmd_buf =>
      match mgpu_validate_commands mdev cmd_buf (sub_cmd_size args) with
      | None => None
      | Some (ret, _) =>
        if negb (ret =? 0) then Some (ret, mdev, submit_count)
        else
          let args := MkSubmit cmd_copy (sub_cmd_size args) (sub_queue_id args)
                               (sub_flags args) (sub_fence_addr args)
                               (sub_fence_value args) in
          let '(ret, mdev) := mgpu_submit_commands env mdev args in
          Some (ret, mdev,
                if ret =? 0 then (fun c => u64 (c + 1)) <$> submit_count
                else submit_count)
      end
    end.

(** ** Shader manager (mgpu_shader.c) *)

Definition ENOSPC : Z := 28.

Definition MGPU_REG_SHADER_PC : Z := 0x00A0.
Definition MGPU_REG_SHADER_ADDR : Z := 0x00A4.
Definition MGPU_REG_SHADER_DATA : Z := 0x00A8.
Definition MGPU_REG_SHADER_CTRL : Z := 0x00AC.
Definition MGPU_REG_INSTR_MEM_SIZE : Z := 0x1000.

Definition MGPU_SHADER_VERTEX : Z := 0.
Definition MGPU_SHADER_FRAGMENT : Z := 1.
Definition MGPU_SHADER_COMPUTE : Z := 2.

(** struct mgpu_shader_slot; [slot_code] is the kernel copy of the binary,
    [None] for a NULL pointer. *)
Record mgpu_shader_slot : Type := MkShaderSlot {
  slot_code : option (list Z);
  slot_size : Z;
  slot_type : Z;
  slot_loaded : bool;
}.

(** struct mgpu_shader_mgr: its sixteen slots.  [mdev->shader_mgr] is an
    [option] of it, threaded beside the device context. *)
Definition mgpu_shader_mgr : Type := list mgpu_shader_slot.

Definition empty_slot : mgpu_shader_slot := MkShaderSlot None 0 0 false.

(** mgpu_shader_init: the manager comes from kzalloc. *)
Definition mgpu_shader_init (env : kenv) : Z * option mgpu_shader_mgr :=
  if negb (kzalloc_ok env) then (- ENOMEM, None)
  else (0, Some (replicate 16 empty_slot)).

Definition shader_slot (mgr : mgpu_shader_mgr) (slot : Z) : mgpu_shader_slot :=
  default empty_slot (mgr !! Z.to_nat slot).

(** mgpu_shader_validate; the magic number is looked at for a warning only. *)
Definition mgpu_shader_validate (code : list Z) (sz type : Z) : Z :=
  if (sz <? 8) || (sz >? MGPU_REG_INSTR_MEM_SIZE) then - EINVAL
  else if negb (Z.land sz 3 =? 0) then - EINVAL
  else if type >? MGPU_SHADER_COMPUTE then - EINVAL
  else 0.

(** The copy loop of mgpu_shader_write_to_hw, [i] the index of the next
    dword. *)
Fixpoint shader_write_loop (mdev : mgpu_device) (instr_offset i : Z)
    (code : list Z) : mgpu_device :=
  match code with
  | [] => mdev
  | d :: rest =>
    let mdev := mgpu_write mdev MGPU_REG_SHADER_ADDR (instr_offset + i) in
    let mdev := mgpu_write mdev MGPU_REG_SHADER_DATA d in
    shader_write_loop mdev instr_offset (i + 1) rest
  end.

Definition mgpu_shader_write_to_hw (mdev : mgpu_device) (slot : Z)
    (code : list Z) (sz : Z) : Z * mgpu_device :=
  let instr_offset := u32 (slot * 256) in
  if u64 (u32 (instr_offset * 4) + sz) >? MGPU_REG_INSTR_MEM_SIZE
  then (- ENOSPC, mdev)
  else
    let dwords := u32 (sz / 4) in
    let mdev := shader_write_loop mdev instr_offset 0
                  (take (Z.to_nat dwords) code) in
    (0, mgpu_write mdev MGPU_REG_SHADER_CTRL
                   (Z.lor (Z.shiftl slot 16) (Z.land dwords 0xFFFF))).

(** struct mgpu_load_shader (uapi). *)
Record mgpu_load_shader_args : Type := MkLoadShader {
  ls_data : Z;
  ls_size : Z;
  ls_type : Z;
  ls_slot : Z;
}.

Definition mgpu_load_shader (env : kenv) (mgr : option mgpu_shader_mgr)
    (mdev : mgpu_device) (args : mgpu_load_shader_args)
  : Z * option mgpu_shader_mgr * mgpu_device :=
  match mgr with
  | None => (- ENODEV, mgr, mdev)
  | Some slots =>
    if 16 <=? ls_slot args then (- EINVAL, mgr, mdev)
    else if (ls_size args =? 0) || (ls_size args >? MGPU_REG_INSTR_MEM_SIZE)
    then (- EINVAL, mgr, mdev)
    else if negb (kmalloc_ok env) then (- ENOMEM, mgr, mdev)
    else
      match copy_from_user env (ls_data args) (ls_size args) with
      | None => (- EFAULT, mgr, mdev)
      | Some code =>
        let ret := mgpu_shader_validate code (ls_size args) (ls_type args) in
        if negb (ret =? 0) then (ret, mgr, mdev)
        else
          let '(ret, mdev) :=
            mgpu_shader_write_to_hw mdev (ls_slot args) code (ls_size args) in
          if negb (ret =? 0)
          then (ret,
                Some (<[Z.to_nat (ls_slot args) :=
                          MkShaderSlot None (ls_size args) (ls_type args) false]>
                        slots),
                mdev)
          else (0,
                Some (<[Z.to_nat (ls_slot args) :=
                          MkShaderSlot (Some code) (ls_size args) (ls_type args)
                                       true]> slots),
                mdev)
      end
  end.

Definition mgpu_shader_bind (mgr : option mgpu_shader_mgr) (mdev : mgpu_device)
    (slot type : Z) : Z * mgpu_device :=
  match mgr with
  | None => (- ENODEV, mdev)
  | Some slots =>
    if 16 <=? slot then (- EINVAL, mdev)
    else
      let shader := shader_slot slots slot in
      if negb (slot_loaded shader) then (- ENOENT, mdev)
      else if negb (slot_type shader =? type) then (- EINVAL, mdev)
      else
        let pc_offset := u32 (slot * 256) in
        let mdev :=
          if type =? MGPU_SHADER_VERTEX
          then mgpu_write mdev MGPU_REG_SHADER_PC pc_offset
          else if type =? MGPU_SHADER_FRAGMENT
          then mgpu_write mdev (MGPU_REG_SHADER_PC + 4) pc_offset
          else if type =? MGPU_SHADER_COMPUTE
          then mgpu_write mdev (MGPU_REG_SHADER_PC + 8) pc_offset
          else mdev in
        (0, mdev)
  end.

(** mgpu_shader_get_info, with both out-pointers given: the return value,
    and what is stored through them. *)
Definition mgpu_shader_get_info (mgr : option mgpu_shader_mgr) (slot : Z)
  : Z * option (Z * Z) :=
  match mgr with
  | None => (- ENODEV, None)
  | Some slots =>
    if 16 <=? slot then (- EINVAL, None)
    else
      let shader := shader_slot slots slot in
      if negb (slot_loaded shader) then (- ENOENT, None)
      else (0, Some (slot_size shader, slot_type shader))
  end.

(** A shader manager fresh from mgpu_shader_init, user memory holding 512
    dwords, and requests for one and for two kilobytes in slot 3. *)
Definition fresh_shader_mgr : option mgpu_shader_mgr :=
  (mgpu_shader_init nop_env).2.

Definition shader_env : kenv := good_env 0x7f000000 (replicate 512 0x5547504D).

Definition shader_1k_slot3 : mgpu_load_shader_args :=
  MkLoadShader 0x7f000000 1024 MGPU_SHADER_FRAGMENT 3.

Definition shader_2k_slot3 : mgpu_load_shader_args :=
  MkLoadShader 0x7f000000 2048 MGPU_SHADER_FRAGMENT 3.

(** ** Further devices and requests used as examples *)

(** A submission whose user pointer is not mapped. *)
Definition unmapped_submit : mgpu_submit := MkSubmit 0x1000 4 0 0 0 0.


(** The monitor after nine passes in a row that saw the error bit. *)
Definition nine_errors_monitor : mgpu_health_monitor :=
  MkMonitor true 9 9 0 0 0 0 0 0 9 0 0 0 0 0.

(** The manager with a fragment shader of one kilobyte loaded in slot 3. *)
Definition loaded_slots : mgpu_shader_mgr :=
  <[3%nat := MkShaderSlot (Some (replicate 256 0x5547504D)) 1024
                          MGPU_SHADER_FRAGMENT true]>
    (replicate 16 empty_slot).

Definition shader_8_slot4 : mgpu_load_shader_args :=
  MkLoadShader 0x7f000000 8 MGPU_SHADER_VERTEX 4.

(** What the validator leaves of [draw_then_reg_write]: the header of the
    REG_WRITE record reads as a NOP of three dwords. *)
Definition neutralised_stream : list Z :=
  <[5%nat := mk_header MGPU_CMD_NOP 3 0]> draw_then_reg_write.

(** * Properties *)

(** ** Arithmetic of the machine integers *)

(** Closed comparisons between integer constants. *)
Ltac zconst :=
  vm_compute;
  first [ reflexivity | discriminate
        | split; first [reflexivity | discriminate] ].

Lemma u32_small z : 0 <= z < 2 ^ 32 -> u32 z = z.
Proof. intros H. unfold u32. apply Z.mod_small. exact H. Qed.

Lemma u32_range z : 0 <= u32 z < 2 ^ 32.
Proof. unfold u32. apply Z.mod_pos_bound. lia. Qed.

Lemma mmio_writes_app t1 t2 :
  mmio_writes (t1 ++ t2) = mmio_writes t1 ++ mmio_writes t2.
Proof.
  induction t1 as [|e t1 IH]; simpl; [reflexivity|].
  destruct e; simpl; rewrite IH; reflexivity.
Qed.

(** ** The command ring *)

Lemma ring_wf_size_dw r :
  ring_wf r -> exists k, 10 <= k <= 16 /\ ring_size_dw r = 2 ^ k.
Proof.
  intros [[k [Hk Hs]] _]. exists (k - 2). split; [lia|].
  unfold ring_size_dw. rewrite Hs.
  replace k with ((k - 2) + 2) at 1 by lia.
  rewrite Z.pow_add_r by lia. change (2 ^ 2) with 4.
  apply Z.div_mul. lia.
Qed.

Lemma pow2_bounds k : 10 <= k <= 16 -> 1024 <= 2 ^ k <= 65536.
Proof.
  intros H. split.
  - change 1024 with (2 ^ 10). apply Z.pow_le_mono_r; lia.
  - change 65536 with (2 ^ 16). apply Z.pow_le_mono_r; lia.
Qed.

(** One step of the tail: the mask is the remainder by the ring size. *)
Lemma tail_step k tl :
  10 <= k <= 16 -> 0 <= tl < 2 ^ k ->
  Z.land (u32 (tl + 1)) (u32 (2 ^ k - 1)) = (tl + 1) mod 2 ^ k.
Proof.
  intros Hk Ht. pose proof (pow2_bounds k Hk) as Hb.
  rewrite !u32_small by lia.
  replace (2 ^ k - 1) with (Z.ones k) by (rewrite Z.ones_equiv; lia).
  apply Z.land_ones. lia.
Qed.

Lemma ring_write_loop_spec k data : forall mem tl,
  10 <= k <= 16 -> 0 <= tl < 2 ^ k ->
  length mem = Z.to_nat (2 ^ k) ->
  Z.of_nat (length data) <= 2 ^ k ->
  let '(mem', tl') := ring_write_loop mem tl (2 ^ k) data in
  tl' = (tl + Z.of_nat (length data)) mod 2 ^ k /\
  length mem' = length mem /\
  (forall i, (i < length data)%nat ->
     mem' !! Z.to_nat ((tl + Z.of_nat i) mod 2 ^ k) = data !! i) /\
  (forall j, (forall i, (i < length data)%nat ->
                 j <> Z.to_nat ((tl + Z.of_nat i) mod 2 ^ k)) ->
     mem' !! j = mem !! j).
Proof.
  induction data as [|d rest IH]; intros mem tl Hk Ht Hlen Hfit.
  - simpl. repeat split.
    + rewrite Z.add_0_r, Z.mod_small; lia.
    + intros i Hi. simpl in Hi. lia.
  - pose proof (pow2_bounds k Hk) as Hb.
    cbn [ring_write_loop]. rewrite tail_step by assumption.
    assert (Ht' : 0 <= (tl + 1) mod 2 ^ k < 2 ^ k) by (apply Z.mod_pos_bound; lia).
    simpl length in Hfit.
    specialize (IH (<[Z.to_nat tl := d]> mem) ((tl + 1) mod 2 ^ k) Hk Ht').
    rewrite length_insert in IH. specialize (IH Hlen ltac:(lia)).
    destruct (ring_write_loop _ _ _ rest) as [mem' tl'].
    destruct IH as (Htl & Hl & Hin & Hout).
    assert (Hshift : forall i, ((tl + 1) mod 2 ^ k + Z.of_nat i) mod 2 ^ k
                               = (tl + Z.of_nat (S i)) mod 2 ^ k).
    { intros i. rewrite Zplus_mod_idemp_l. f_equal. lia. }
    repeat split.
    + rewrite Htl, Zplus_mod_idemp_l. f_equal. simpl length. lia.
    + exact Hl.
    + intros i Hi. destruct i as [|i].
      * simpl. rewrite Z.add_0_r, Z.mod_small by lia.
        rewrite Hout.
        -- apply list_lookup_insert_eq. lia.
        -- intros i Hi'. rewrite Hshift.
           intros Heq. apply Z2Nat.inj in Heq; [| lia | apply Z.mod_pos_bound; lia].
           assert (Hs : 0 < Z.of_nat (S i) < 2 ^ k) by (simpl length in Hi; lia).
           assert (Hm : (tl + Z.of_nat (S i)) mod 2 ^ k = tl) by lia.
           destruct (Z_lt_ge_dec (tl + Z.of_nat (S i)) (2 ^ k)) as [Hlt|Hge].
           ++ rewrite Z.mod_small in Hm; lia.
           ++ replace (tl + Z.of_nat (S i)) with ((tl + Z.of_nat (S i) - 2 ^ k) + 1 * 2 ^ k) in Hm by lia.
              rewrite Z_mod_plus_full, Z.mod_small in Hm; lia.
      * simpl in Hi. rewrite <- Hshift. simpl. apply Hin. lia.
    + intros j Hj. rewrite Hout.
      * apply list_lookup_insert_ne. specialize (Hj 0%nat ltac:(simpl; lia)).
        rewrite Z.add_0_r, Z.mod_small in Hj by lia. congruence.
      * intros i Hi. rewrite Hshift. apply Hj. simpl. lia.
Qed.

(** The dword version keeps the reserved-slot convention: with head and
    tail inside the ring no subtraction wraps, and the result is the number
    of free dwords, at most one less than the ring holds. *)
Lemma mgpu_ring_space_dw_reserved_slot mdev ring :
  ring_wf ring ->
  let head := mgpu_read mdev (MGPU_REG_CMD_HEAD + queue_id ring * 0x10) in
  head < ring_size_dw ring ->
  mgpu_ring_space_dw mdev ring =
    (if head <=? tail ring
     then ring_size_dw ring - (tail ring - head) - 1
     else head - tail ring - 1) /\
  0 <= mgpu_ring_space_dw mdev ring <= ring_size_dw ring - 1.
Proof.
  intros Hwf head Hh.
  destruct (ring_wf_size_dw ring Hwf) as [k [Hk Hsz]].
  pose proof (pow2_bounds k Hk) as Hb.
  destruct Hwf as (_ & _ & Ht). fold (ring_size_dw ring) in Ht.
  assert (H0 : 0 <= head) by (unfold head, mgpu_read, mmio_read; apply u32_range).
  unfold mgpu_ring_space_dw. fold head. fold (ring_size_dw ring).
  destruct (head <=? tail ring) eqn:E.
  - apply Z.leb_le in E. rewrite (u32_small (tail ring - head)) by lia.
    rewrite u32_small by lia. lia.
  - apply Z.leb_gt in E. rewrite u32_small by lia. lia.
Qed.

(** The byte version overshoots by three quarters of the ring whenever the
    head is not ahead of the tail. *)
Lemma mgpu_ring_space_overshoot mdev ring :
  ring_wf ring ->
  mgpu_read mdev (MGPU_REG_CMD_HEAD + queue_id ring * 0x10) <= tail ring ->
  mgpu_ring_space mdev ring =
    mgpu_ring_space_dw mdev ring + 3 * ring_size_dw ring.
Proof.
  intros Hwf Hh.
  destruct (ring_wf_size_dw ring Hwf) as [k [Hk Hsz]].
  pose proof (pow2_bounds k Hk) as Hb.
  destruct Hwf as ([k' [Hk' Hs]] & _ & Ht). fold (ring_size_dw ring) in Ht.
  assert (H4 : size ring = 4 * ring_size_dw ring).
  { unfold ring_size_dw. rewrite Hs.
    replace k' with ((k' - 2) + 2) by lia.
    rewrite Z.pow_add_r by lia. change (2 ^ 2) with 4.
    rewrite Z.div_mul by lia. lia. }
  set (head := mgpu_read mdev (MGPU_REG_CMD_HEAD + queue_id ring * 0x10)) in *.
  assert (H0 : 0 <= head) by (unfold head, mgpu_read, mmio_read; apply u32_range).
  unfold mgpu_ring_space, mgpu_ring_space_dw. fold head. fold (ring_size_dw ring).
  apply Z.leb_le in Hh. rewrite Hh. apply Z.leb_le in Hh.
  rewrite (u32_small (tail ring - head)) by lia.
  rewrite !u32_small by lia. lia.
Qed.

(** C1.  The claim: space_dw() counts free dwords, 1023 for an
    empty 4096-byte ring and 0 once 1023 one-dword commands are in it.  The
    mgpu_ring_space that mgpu_ring_wait_space calls reports 4095 for the
    empty ring and 3072 for the full one, so a 1024th command is accepted
    and brings the tail back onto the head; the dword version further down
    the file reports 1023 and 0 on the same rings. *)
Theorem mgpu_ring_space_counts_bytes :
  (size <$> cmd_ring fresh_ring_mdev) = Some 4096 /\
  (tail <$> cmd_ring fresh_ring_mdev) = Some 0 /\
  (mgpu_ring_space fresh_ring_mdev <$> cmd_ring fresh_ring_mdev) = Some 4095 /\
  (mgpu_ring_space_dw fresh_ring_mdev <$> cmd_ring fresh_ring_mdev) = Some 1023 /\
  (m ← submit_nops 1023 fresh_ring_mdev; tail <$> cmd_ring m) = Some 1023 /\
  (m ← submit_nops 1023 fresh_ring_mdev; mgpu_ring_space m <$> cmd_ring m)
    = Some 3072 /\
  (m ← submit_nops 1023 fresh_ring_mdev; mgpu_ring_space_dw m <$> cmd_ring m)
    = Some 0 /\
  (m ← submit_nops 1024 fresh_ring_mdev; tail <$> cmd_ring m) = Some 0.
Proof.
  split; [vm_compute; reflexivity|].
  split; [vm_compute; reflexivity|].
  split; [vm_compute; reflexivity|].
  split; [vm_compute; reflexivity|].
  split; [vm_compute; reflexivity|].
  split; [vm_compute; reflexivity|].
  split; vm_compute; reflexivity.
Qed.

Lemma copy_from_user_length env from nbytes cmds :
  copy_from_user env from nbytes = Some cmds ->
  length cmds = Z.to_nat (nbytes / 4).
Proof.
  unfold copy_from_user. intros H.
  destruct (mapM _ (seq 0 (Z.to_nat (nbytes / 4)))) as [dwords|] eqn:Hd;
    [|discriminate].
  cbn in H. destruct (mapM _ _) in H; [|discriminate].
  cbn in H. injection H as <-.
  apply length_mapM in Hd. rewrite length_seq in Hd. congruence.
Qed.

(** A copy faults on any unmapped byte, those past the last whole dword
    included: a submission of six bytes where four are mapped, or of two
    bytes where none is, fails with -EFAULT and leaves the device alone. *)
Lemma mgpu_submit_commands_partial_dword_faults :
  mgpu_submit_commands nop_env fresh_ring_mdev (MkSubmit 0x7f000000 6 0 0 0 0)
    = (- EFAULT, fresh_ring_mdev) /\
  mgpu_submit_commands nop_env fresh_ring_mdev (MkSubmit 0x1000 2 0 0 0 0)
    = (- EFAULT, fresh_ring_mdev).
Proof. split; vm_compute; reflexivity. Qed.

Lemma mgpu_ring_write_spec ring data :
  ring_wf ring ->
  Z.of_nat (length data) <= ring_size_dw ring ->
  let r' := mgpu_ring_write ring data (Z.of_nat (length data)) in
  ring_wf r' /\ same_ring ring r' /\
  submitted_cmds r' = submitted_cmds ring /\
  tail r' = (tail ring + Z.of_nat (length data)) mod ring_size_dw ring /\
  (forall i, (i < length data)%nat ->
     vaddr r' !! Z.to_nat ((tail ring + Z.of_nat i) mod ring_size_dw ring)
     = data !! i) /\
  (forall j, (forall i, (i < length data)%nat ->
                j <> Z.to_nat ((tail ring + Z.of_nat i) mod ring_size_dw ring)) ->
     vaddr r' !! j = vaddr ring !! j).
Proof.
  intros Hwf Hfit.
  destruct (ring_wf_size_dw ring Hwf) as [k [Hk Hsz]].
  pose proof (pow2_bounds k Hk) as Hb.
  pose proof Hwf as (Hpow & Hlen & Ht). fold (ring_size_dw ring) in Ht, Hlen.
  unfold mgpu_ring_write. fold (ring_size_dw ring).
  rewrite Nat2Z.id, take_ge by lia.
  rewrite Hsz in *. rewrite (u32_small (2 ^ k)) by lia.
  pose proof (ring_write_loop_spec k data (vaddr ring) (tail ring) Hk Ht Hlen Hfit) as H.
  destruct (ring_write_loop _ _ _ data) as [mem tl].
  destruct H as (Htl & Hl & Hin & Hout). cbn.
  split; [|split; [|split; [|split; [|split]]]]; try assumption; try reflexivity.
  - unfold ring_wf; cbn. split; [exact Hpow|]. split.
    + fold (ring_size_dw ring). rewrite Hsz. congruence.
    + fold (ring_size_dw ring). rewrite Hsz, Htl. apply Z.mod_pos_bound. lia.
  - unfold same_ring; cbn. auto.
Qed.

Lemma only_slept_refl mdev : only_slept mdev mdev.
Proof. unfold only_slept. auto 10. Qed.

Lemma only_slept_trans a b c : only_slept a b -> only_slept b c -> only_slept a c.
Proof.
  unfold only_slept. intros (?&?&?&?&?&?&?&?) (?&?&?&?&?&?&?&?).
  repeat split; congruence.
Qed.

Lemma msleep_only_slept mdev ms : only_slept mdev (msleep mdev ms).
Proof.
  unfold only_slept, msleep, set_mmio, mmio_sleep; cbn.
  rewrite mmio_writes_app; cbn. rewrite app_nil_r. auto 10.
Qed.

Lemma ring_wait_space_loop_slept n : forall mdev ring needed,
  only_slept mdev (ring_wait_space_loop n mdev ring needed).2.
Proof.
  induction n as [|n IH]; intros mdev ring needed; cbn [ring_wait_space_loop];
    destruct (mgpu_ring_space mdev ring <? needed); cbn;
    try apply only_slept_refl.
  eapply only_slept_trans; [apply msleep_only_slept | apply IH].
Qed.

Lemma sync_poll_loop_slept n : forall mdev qid,
  only_slept mdev (sync_poll_loop n mdev qid).2.
Proof.
  induction n as [|n IH]; intros mdev qid; cbn [sync_poll_loop];
    destruct (_ =? _); cbn; try apply only_slept_refl.
  - apply msleep_only_slept.
  - eapply only_slept_trans; [apply msleep_only_slept | apply IH].
Qed.

Lemma submit_sync_wait_slept mdev ring args :
  only_slept mdev (submit_sync_wait mdev ring args).2.
Proof.
  unfold submit_sync_wait. destruct (_ =? 0); [apply only_slept_refl|].
  pose proof (sync_poll_loop_slept 1000 mdev (queue_id ring)) as H.
  destruct (sync_poll_loop 1000 mdev (queue_id ring)) as [t m]. cbn in H.
  destruct (t <=? 0); exact H.
Qed.

Lemma mgpu_ring_write_same ring data n : same_ring ring (mgpu_ring_write ring data n).
Proof.
  unfold mgpu_ring_write. destruct (ring_write_loop _ _ _ _). 
  unfold same_ring; cbn. auto.
Qed.

Lemma same_ring_refl r : same_ring r r.
Proof. unfold same_ring; auto. Qed.

Lemma same_ring_trans a b c : same_ring a b -> same_ring b c -> same_ring a c.
Proof. unfold same_ring. intros (?&?&?) (?&?&?). repeat split; congruence. Qed.

Lemma ring_pos_inj N t a b :
  0 < N -> 0 <= a < N -> 0 <= b < N ->
  (t + a) mod N = (t + b) mod N -> a = b.
Proof.
  intros HN Ha Hb H.
  assert (Hd : (a - b) mod N = 0).
  { replace (a - b) with ((t + a) - (t + b)) by lia.
    rewrite Zminus_mod, H, Z.sub_diag. apply Z.mod_0_l. lia. }
  apply Z.mod_divide in Hd; [|lia]. destruct Hd as [q Hq].
  assert (q = 0) by nia. lia.
Qed.

Lemma submit_commands_cached env mdev args ring ret mdev' :
  cmd_ring mdev = Some ring ->
  mgpu_submit_commands env mdev args = (ret, mdev') ->
  exists ring',
    cmd_ring mdev' = Some ring' /\ same_ring ring ring' /\
    (mmio_writes (trace (mmio mdev')) = mmio_writes (trace (mmio mdev)) \/
     mmio_writes (trace (mmio mdev')) =
       mmio_writes (trace (mmio mdev)) ++
       [(u32 (MGPU_REG_CMD_TAIL + queue_id ring * 0x10), u32 (tail ring'));
        (u32 (MGPU_REG_DOORBELL (queue_id ring)), 1)]) /\
    (ret = 0 -> ring_wf ring -> 0 <= sub_cmd_size args ->
     sub_cmd_size args / 4
       + (if Z.land (sub_flags args) MGPU_SUBMIT_FLAGS_FENCE =? 0 then 0 else 3)
       <= ring_size_dw ring ->
     exists cmds,
       copy_from_user env (sub_commands args) (sub_cmd_size args) = Some cmds /\
       let w := submitted_dwords args cmds in
       tail ring' = (tail ring + Z.of_nat (length w)) mod ring_size_dw ring /\
       (forall i, (i < length w)%nat ->
          vaddr ring' !! Z.to_nat ((tail ring + Z.of_nat i) mod ring_size_dw ring)
          = w !! i) /\
       mmio_writes (trace (mmio mdev')) =
         mmio_writes (trace (mmio mdev)) ++
         [(u32 (MGPU_REG_CMD_TAIL + queue_id ring * 0x10), tail ring');
          (u32 (MGPU_REG_DOORBELL (queue_id ring)), 1)]).
Proof.
  intros Hring Hsub. unfold mgpu_submit_commands in Hsub.
  destruct (_ || _) in Hsub.
  { inversion Hsub; subst. exists ring. split; [assumption|].
    split; [apply same_ring_refl|]. split; [left; reflexivity|]. discriminate. }
  destruct (MGPU_MAX_QUEUES <=? _) in Hsub.
  { inversion Hsub; subst. exists ring. split; [assumption|].
    split; [apply same_ring_refl|]. split; [left; reflexivity|]. discriminate. }
  rewrite Hring in Hsub.
  destruct (negb (kmalloc_ok env)) in Hsub.
  { inversion Hsub; subst. exists ring. split; [assumption|].
    split; [apply same_ring_refl|]. split; [left; reflexivity|]. discriminate. }
  destruct (copy_from_user env _ _) as [cmds|] eqn:Hcopy in Hsub.
  2:{ inversion Hsub; subst. exists ring. split; [assumption|].
    split; [apply same_ring_refl|]. split; [left; reflexivity|]. discriminate. }
  unfold mgpu_ring_wait_space in Hsub.
  pose proof (ring_wait_space_loop_slept 1000 mdev ring (sub_cmd_size args / 4)) as Hs1.
  destruct (ring_wait_space_loop 1000 mdev ring _) as [ret1 mdev1]. cbn in Hs1.
  destruct (ret1 =? 0) eqn:Hret1; cbn [negb] in Hsub.
  2:{ inversion Hsub; subst. exists ring. destruct Hs1 as (_&Hw1&Hc&_).
      split; [congruence|]. split; [apply same_ring_refl|].
      split; [left; exact Hw1|].
      intros ->. discriminate. }
  set (ring1 := mgpu_ring_write ring cmds (sub_cmd_size args / 4)) in *.
  pose proof (mgpu_ring_write_same ring cmds (sub_cmd_size args / 4)) as Hsame1.
  fold ring1 in Hsame1.
  destruct (Z.land (sub_flags args) MGPU_SUBMIT_FLAGS_FENCE =? 0) eqn:Hfence.
  - (* no fence record *)
    cbn [negb Z.eqb] in Hsub. unfold mgpu_ring_kick in Hsub.
    match type of Hsub with submit_sync_wait ?m ?r ?a = _ =>
      pose proof (submit_sync_wait_slept m r a) as Hs2; rewrite Hsub in Hs2 end.
    cbn in Hs2. destruct Hs2 as (_ & Hw & Hc & _).
    cbn in Hw, Hc. rewrite !mmio_writes_app in Hw. cbn in Hw.
    exists (set_submitted_cmds ring1 (u64 (submitted_cmds ring1 + 1))).
    split; [exact Hc|]. split; [exact Hsame1|].
    split.
    { right. rewrite Hw. destruct Hs1 as (_ & Hw1 & _). rewrite Hw1.
      destruct Hsame1 as (Hq & _). rewrite Hq, <- app_assoc. reflexivity. }
    intros _ Hwf Hcs Hfit.
    exists cmds. split; [exact Hcopy|].
    unfold submitted_dwords. rewrite Hfence. cbn zeta.
    pose proof (copy_from_user_length _ _ _ _ Hcopy) as Hlen.
    assert (Hn : sub_cmd_size args / 4 = Z.of_nat (length cmds)).
    { rewrite Hlen, Z2Nat.id; [reflexivity|]. apply Z.div_pos; lia. }
    pose proof (mgpu_ring_write_spec ring cmds Hwf ltac:(lia)) as Hspec.
    rewrite <- Hn in Hspec. fold ring1 in Hspec. cbn zeta in Hspec. rewrite Hn in Hspec.
    destruct Hspec as (Hwf1 & _ & _ & Htl & Hin & _).
    cbn. split; [exact Htl|]. split; [exact Hin|].
    rewrite Hw. destruct Hs1 as (_ & Hw1 & _). rewrite Hw1.
    pose proof Hsame1 as (Hq & _ & Hsize). rewrite Hq.
    rewrite <- app_assoc. cbn. repeat f_equal.
    destruct Hwf1 as (_ & _ & Ht1).
    destruct (ring_wf_size_dw ring Hwf) as [k [Hk Hsz]].
    pose proof (pow2_bounds k Hk).
    unfold ring_size_dw in Hsz. rewrite Hsize, Hsz in Ht1.
    apply u32_small. lia.
  - (* with the fence record *)
    pose proof (ring_wait_space_loop_slept 1000 (set_cmd_ring mdev1 (Some ring1)) ring1 3) as Hs2.
    destruct (ring_wait_space_loop 1000 (set_cmd_ring mdev1 (Some ring1)) ring1 3) as [ret2 mdev2].
    cbn in Hs2.
    destruct (ret2 =? 0) eqn:Hret2; cbn [negb] in Hsub.
    2:{ cbn [negb] in Hsub. rewrite Hret2 in Hsub. cbn [negb] in Hsub.
        inversion Hsub; subst. exists ring1. destruct Hs2 as (_&Hw2&Hc&_).
        split; [exact Hc|]. split; [exact Hsame1|].
        split; [left; rewrite Hw2; apply Hs1|].
        intros ->. discriminate. }
    cbn [negb Z.eqb] in Hsub.
    set (ring2 := mgpu_ring_write ring1 (fence_cmd args) 3) in *.
    pose proof (mgpu_ring_write_same ring1 (fence_cmd args) 3) as Hsame2.
    fold ring2 in Hsame2.
    unfold mgpu_ring_kick in Hsub.
    match type of Hsub with submit_sync_wait ?m ?r ?a = _ =>
      pose proof (submit_sync_wait_slept m r a) as Hs3; rewrite Hsub in Hs3 end.
    cbn in Hs3. destruct Hs3 as (_ & Hw & Hc & _).
    cbn in Hw, Hc. rewrite !mmio_writes_app in Hw. cbn in Hw.
    exists (set_submitted_cmds ring2 (u64 (submitted_cmds ring2 + 1))).
    split; [exact Hc|]. split; [eapply same_ring_trans; eassumption|].
    split.
    { right. rewrite Hw. destruct Hs2 as (_ & Hw2 & _). rewrite Hw2. cbn.
      destruct Hs1 as (_ & Hw1 & _). rewrite Hw1.
      destruct (same_ring_trans _ _ _ Hsame1 Hsame2) as (Hq & _).
      rewrite Hq, <- app_assoc. reflexivity. }
    intros _ Hwf Hcs Hfit.
    exists cmds. split; [exact Hcopy|].
    unfold submitted_dwords. rewrite Hfence. cbn zeta.
    pose proof (copy_from_user_length _ _ _ _ Hcopy) as Hlen.
    assert (Hn : sub_cmd_size args / 4 = Z.of_nat (length cmds)).
    { rewrite Hlen, Z2Nat.id; [reflexivity|]. apply Z.div_pos; lia. }
    destruct (ring_wf_size_dw ring Hwf) as [k [Hk Hsz]].
    pose proof (pow2_bounds k Hk) as Hb.
    pose proof (mgpu_ring_write_spec ring cmds Hwf ltac:(lia)) as Hspec.
    rewrite <- Hn in Hspec. fold ring1 in Hspec. cbn zeta in Hspec. rewrite Hn in Hspec.
    destruct Hspec as (Hwf1 & _ & _ & Htl1 & Hin1 & _).
    assert (Hsz1 : ring_size_dw ring1 = ring_size_dw ring).
    { unfold ring_size_dw. f_equal. apply Hsame1. }
    pose proof (mgpu_ring_write_spec ring1 (fence_cmd args) Hwf1) as Hspec2.
    change (Z.of_nat (length (fence_cmd args))) with 3 in Hspec2.
    fold ring2 in Hspec2. rewrite Hsz1 in Hspec2.
    specialize (Hspec2 ltac:(lia)). cbn zeta in Hspec2.
    destruct Hspec2 as (Hwf2 & _ & _ & Htl2 & Hin2 & Hout2).
    rewrite Htl1 in Htl2, Hin2, Hout2.
    assert (Hpos : forall j, ((tail ring + Z.of_nat (length cmds)) mod ring_size_dw ring + j) mod ring_size_dw ring
                     = (tail ring + (Z.of_nat (length cmds) + j)) mod ring_size_dw ring).
    { intros j. rewrite Zplus_mod_idemp_l. f_equal. lia. }
    cbn. rewrite length_app. change (length (fence_cmd args)) with 3%nat.
    split.
    { rewrite Htl2, Hpos. f_equal. lia. }
    split.
    { intros i Hi. destruct (Nat.lt_ge_cases i (length cmds)) as [Hlt|Hge].
      - rewrite lookup_app_l by assumption. rewrite <- Hin1 by assumption.
        apply Hout2. intros j Hj. change (length (fence_cmd args)) with 3%nat in Hj.
        rewrite Hpos. intros Heq.
        apply Z2Nat.inj in Heq; try (apply Z.mod_pos_bound; lia).
        apply ring_pos_inj in Heq; lia.
      - rewrite lookup_app_r by assumption.
        rewrite <- (Hin2 (i - length cmds)%nat) by (change (length (fence_cmd args)) with 3%nat; lia).
        rewrite Hpos. do 3 f_equal. lia. }
    rewrite Hw. destruct Hs2 as (_ & Hw2 & _). rewrite Hw2. cbn.
    destruct Hs1 as (_ & Hw1 & _). rewrite Hw1.
    pose proof (same_ring_trans _ _ _ Hsame1 Hsame2) as (Hq & _ & Hsize).
    rewrite Hq. rewrite <- app_assoc. cbn. repeat f_equal.
    destruct Hwf2 as (_ & _ & Ht2).
    unfold ring_size_dw in Hsz. rewrite Hsize, Hsz in Ht2.
    apply u32_small. lia.
Qed.

Lemma mgpu_ring_create_spec env mdev sz qid ring mdev' :
  mgpu_ring_create env mdev sz qid = (Some ring, mdev') ->
  queue_id ring = qid /\ tail ring = 0 /\
  cmd_ring mdev' = cmd_ring mdev /\
  (sz = MGPU_RING_SIZE_MIN -> size ring = 4096 /\ ring_wf ring).
Proof.
  unfold mgpu_ring_create. intros H.
  destruct (_ || _); [discriminate|].
  destruct (negb (kzalloc_ok env)); [discriminate|].
  destruct (dma_alloc_coherent env _) as [dma|]; [|discriminate].
  inversion H; subst; clear H. cbn.
  split; [reflexivity|]. split; [reflexivity|]. split; [reflexivity|].
  intros ->. cbn. split; [reflexivity|].
  unfold ring_wf; cbn. split; [exists 12; split; [lia|reflexivity]|].
  split; [reflexivity|]. vm_compute. split; [discriminate|reflexivity].
Qed.

Lemma mgpu_cmdq_init_queue0 env mdev mdev' :
  mgpu_cmdq_init env mdev = (0, mdev') ->
  exists ring, cmd_ring mdev' = Some ring /\ queue_id ring = 0 /\ ring_wf ring.
Proof.
  unfold mgpu_cmdq_init. intros H.
  destruct (mgpu_ring_create env mdev MGPU_RING_SIZE_MIN 0) as [[ring|] m] eqn:E;
    [|inversion H].
  inversion H; subst. exists ring.
  destruct (mgpu_ring_create_spec _ _ _ _ _ _ E) as (Hq & _ & _ & Hwf).
  split; [reflexivity|]. split; [exact Hq|]. apply Hwf. reflexivity.
Qed.

(** With no ring yet, a submission that gets a ring proceeds exactly as a
    submission that found that ring in the cache. *)
Lemma submit_commands_lazy env mdev args ring mdev1 :
  cmd_ring mdev = None ->
  (sub_commands args =? 0) || (sub_cmd_size args =? 0) = false ->
  (MGPU_MAX_QUEUES <=? sub_queue_id args) = false ->
  mgpu_ring_create env mdev MGPU_RING_SIZE_MIN (sub_queue_id args)
    = (Some ring, mdev1) ->
  mgpu_submit_commands env mdev args
  = mgpu_submit_commands env (set_cmd_ring mdev1 (Some ring)) args.
Proof.
  intros Hnone Hv1 Hv2 Hcreate. unfold mgpu_submit_commands.
  rewrite Hv1, Hv2, Hnone, Hcreate. cbn [cmd_ring set_cmd_ring]. reflexivity.
Qed.

Lemma submit_commands_first env mdev args ret mdev' ring' :
  cmd_ring mdev = None ->
  mgpu_submit_commands env mdev args = (ret, mdev') ->
  cmd_ring mdev' = Some ring' ->
  queue_id ring' = sub_queue_id args.
Proof.
  intros Hnone Hsub Hring'.
  destruct ((sub_commands args =? 0) || (sub_cmd_size args =? 0)) eqn:Hv1.
  { unfold mgpu_submit_commands in Hsub. rewrite Hv1 in Hsub.
    inversion Hsub; subst. congruence. }
  destruct (MGPU_MAX_QUEUES <=? sub_queue_id args) eqn:Hv2.
  { unfold mgpu_submit_commands in Hsub. rewrite Hv1, Hv2 in Hsub.
    inversion Hsub; subst. congruence. }
  destruct (mgpu_ring_create env mdev MGPU_RING_SIZE_MIN (sub_queue_id args))
    as [[ring|] mdev1] eqn:Hcreate.
  - rewrite (submit_commands_lazy _ _ _ _ _ Hnone Hv1 Hv2 Hcreate) in Hsub.
    assert (Hc : cmd_ring (set_cmd_ring mdev1 (Some ring)) = Some ring)
      by reflexivity.
    destruct (submit_commands_cached _ _ _ ring _ _ Hc Hsub)
      as (r & Hr & (Hq & _) & _ & _).
    destruct (mgpu_ring_create_spec _ _ _ _ _ _ Hcreate) as (Hq0 & _).
    congruence.
  - unfold mgpu_submit_commands in Hsub.
    rewrite Hv1, Hv2, Hnone, Hcreate in Hsub.
    inversion Hsub; subst.
    unfold mgpu_ring_create in Hcreate.
    destruct (_ || _) in Hcreate; [inversion Hcreate; subst; congruence|].
    destruct (negb _) in Hcreate; [inversion Hcreate; subst; congruence|].
    destruct (dma_alloc_coherent _ _) in Hcreate; inversion Hcreate; subst; congruence.
Qed.

Lemma mgpu_ring_create_first env mdev qid dma :
  kzalloc_ok env = true ->
  dma_alloc_coherent env MGPU_RING_SIZE_MIN = Some dma ->
  exists mdev1,
    mgpu_ring_create env mdev MGPU_RING_SIZE_MIN qid
      = (Some (first_ring qid dma), mdev1) /\
    cmd_ring mdev1 = cmd_ring mdev /\
    mmio_writes (trace (mmio mdev1)) =
      mmio_writes (trace (mmio mdev)) ++
      [(u32 (MGPU_REG_CMD_BASE + qid * 0x10), u32 dma);
       (u32 (MGPU_REG_CMD_SIZE + qid * 0x10), MGPU_RING_SIZE_MIN);
       (u32 (MGPU_REG_CMD_HEAD + qid * 0x10), 0);
       (u32 (MGPU_REG_CMD_TAIL + qid * 0x10), 0)].
Proof.
  intros Hk Hd. unfold mgpu_ring_create.
  change ((MGPU_RING_SIZE_MIN <? MGPU_RING_SIZE_MIN)
          || (MGPU_RING_SIZE_MIN >? MGPU_RING_SIZE_MAX)) with false.
  change (is_power_of_2 MGPU_RING_SIZE_MIN) with true.
  cbv iota. rewrite Hk. cbn [negb]. rewrite Hd.
  eexists. split; [reflexivity|]. split; [reflexivity|].
  cbn [mgpu_write set_mmio mmio mmio_write trace].
  rewrite !mmio_writes_app. cbn [mmio_writes]. rewrite <- !app_assoc.
  assert (Hu : u32 (lower_32_bits dma) = u32 dma).
  { unfold lower_32_bits, u32. try rewrite Zmod_mod. try rewrite Z.land_ones by lia.
    try rewrite Zmod_mod. reflexivity. }
  rewrite Hu. reflexivity.
Qed.

(** C10.  Every submission goes through the one ring cached in
    [mdev->cmd_ring], whatever queue id it names.  mgpu_cmdq_init creates
    that ring for queue 0.  Without it a valid submission creates it for
    the queue id it carries: when the kernel hands out the memory,
    mgpu_ring_create sets up the ring of the smallest size for that queue
    (base, size, head and tail registers of that queue written), the ring is
    cached, and the submission goes on with it as with a ring it had found;
    when the kernel does not, the submission fails with -ENOMEM and nothing
    has changed.  Once the ring is there a submission naming any queue
    leaves the same ring in place and writes no register, or only the tail
    register and the doorbell of the ring's own queue; when it succeeds it
    did write them, and its dwords (payload, then the fence record if asked
    for) sit in that ring from the old tail on. *)
Theorem mgpu_submit_commands_single_ring env mdev args ret mdev' :
  mgpu_submit_commands env mdev args = (ret, mdev') ->
  (forall env0 m0 m0',
      mgpu_cmdq_init env0 m0 = (0, m0') -> (queue_id <$> cmd_ring m0') = Some 0) /\
  match cmd_ring mdev with
  | None =>
    (forall ring', cmd_ring mdev' = Some ring' ->
                   queue_id ring' = sub_queue_id args) /\
    (sub_commands args <> 0 -> sub_cmd_size args <> 0 ->
     sub_queue_id args < MGPU_MAX_QUEUES ->
     (kzalloc_ok env = false \/
      dma_alloc_coherent env MGPU_RING_SIZE_MIN = None ->
      ret = - ENOMEM /\ mdev' = mdev) /\
     (kzalloc_ok env = true ->
      forall dma, dma_alloc_coherent env MGPU_RING_SIZE_MIN = Some dma ->
      exists mdev1,
        mgpu_ring_create env mdev MGPU_RING_SIZE_MIN (sub_queue_id args)
          = (Some (first_ring (sub_queue_id args) dma), mdev1) /\
        mmio_writes (trace (mmio mdev1)) =
          mmio_writes (trace (mmio mdev)) ++
          [(u32 (MGPU_REG_CMD_BASE + sub_queue_id args * 0x10), u32 dma);
           (u32 (MGPU_REG_CMD_SIZE + sub_queue_id args * 0x10),
            MGPU_RING_SIZE_MIN);
           (u32 (MGPU_REG_CMD_HEAD + sub_queue_id args * 0x10), 0);
           (u32 (MGPU_REG_CMD_TAIL + sub_queue_id args * 0x10), 0)] /\
        through_ring env args ret
          (set_cmd_ring mdev1 (Some (first_ring (sub_queue_id args) dma)))
          (first_ring (sub_queue_id args) dma) mdev'))
  | Some ring => through_ring env args ret mdev ring mdev'
  end.
Proof.
  intros Hsub. split.
  - intros env0 m0 m0' Hinit.
    destruct (mgpu_cmdq_init_queue0 _ _ _ Hinit) as (ring & -> & Hq & _).
    cbn. rewrite Hq. reflexivity.
  - destruct (cmd_ring mdev) as [ring|] eqn:Hring.
    + eapply submit_commands_cached; eassumption.
    + split.
      { intros ring' Hring'. eapply submit_commands_first; eassumption. }
      intros Hc Hs Hq.
      assert (Hv1 : (sub_commands args =? 0) || (sub_cmd_size args =? 0) = false).
      { apply orb_false_iff. split; apply Z.eqb_neq; assumption. }
      assert (Hv2 : (MGPU_MAX_QUEUES <=? sub_queue_id args) = false)
        by (apply Z.leb_gt; exact Hq).
      split.
      * intros Hfail. unfold mgpu_submit_commands in Hsub.
        rewrite Hv1, Hv2, Hring in Hsub. unfold mgpu_ring_create in Hsub.
        change ((MGPU_RING_SIZE_MIN <? MGPU_RING_SIZE_MIN)
                || (MGPU_RING_SIZE_MIN >? MGPU_RING_SIZE_MAX)) with false in Hsub.
        change (is_power_of_2 MGPU_RING_SIZE_MIN) with true in Hsub.
        cbv iota in Hsub.
        destruct Hfail as [Hk | Hd].
        -- rewrite Hk in Hsub. cbn in Hsub. injection Hsub as <- <-. auto.
        -- destruct (negb (kzalloc_ok env));
             [cbn in Hsub; injection Hsub as <- <-; auto|].
           rewrite Hd in Hsub. cbn in Hsub. injection Hsub as <- <-. auto.
      * intros Hk dma Hd.
        destruct (mgpu_ring_create_first env mdev (sub_queue_id args) dma Hk Hd)
          as (mdev1 & Hcreate & _ & Hw).
        exists mdev1. split; [exact Hcreate|]. split; [exact Hw|].
        rewrite (submit_commands_lazy _ _ _ _ _ Hring Hv1 Hv2 Hcreate) in Hsub.
        eapply submit_commands_cached; [reflexivity | exact Hsub].
Qed.

(** A fence-carrying submission that names queue 5, on the ring of queue 0;
    and the same submission as the first one of a device without a ring,
    followed by one that names queue 0. *)
Lemma mgpu_submit_commands_single_ring_witness :
  cmd_ring fresh_ring_mdev = Some fresh_ring /\
  sub_queue_id q5_fence_submit = 5 /\
  (exists ring',
    cmd_ring (mgpu_submit_commands nop_env fresh_ring_mdev q5_fence_submit).2
      = Some ring' /\
    same_ring fresh_ring ring' /\
    exists cmds,
      copy_from_user nop_env (sub_commands q5_fence_submit)
                     (sub_cmd_size q5_fence_submit) = Some cmds /\
      let w := submitted_dwords q5_fence_submit cmds in
      tail ring' = (tail fresh_ring + Z.of_nat (length w)) mod ring_size_dw fresh_ring /\
      (forall i, (i < length w)%nat ->
         vaddr ring'
           !! Z.to_nat ((tail fresh_ring + Z.of_nat i) mod ring_size_dw fresh_ring)
         = w !! i) /\
      mmio_writes (trace (mmio (mgpu_submit_commands nop_env fresh_ring_mdev
                                                     q5_fence_submit).2)) =
        mmio_writes (trace (mmio fresh_ring_mdev)) ++
        [(u32 (MGPU_REG_CMD_TAIL + queue_id fresh_ring * 0x10), tail ring');
         (u32 (MGPU_REG_DOORBELL (queue_id fresh_ring)), 1)]) /\
  cmd_ring (fresh_mdev idle_device) = None /\
  exists ring5 ring5',
    cmd_ring first_q5_mdev = Some ring5 /\
    same_ring (first_ring 5 0x10000000) ring5 /\
    cmd_ring (mgpu_submit_commands nop_env first_q5_mdev nop_submit).2
      = Some ring5' /\
    same_ring ring5 ring5'.
Proof.
  assert (Hc : cmd_ring fresh_ring_mdev = Some fresh_ring)
    by (vm_compute; reflexivity).
  split; [exact Hc|]. split; [reflexivity|].
  split.
  { assert (Hr : mgpu_submit_commands nop_env fresh_ring_mdev q5_fence_submit
                 = (0, (mgpu_submit_commands nop_env fresh_ring_mdev
                                             q5_fence_submit).2))
      by (vm_compute; reflexivity).
    pose proof (mgpu_submit_commands_single_ring _ _ _ _ _ Hr) as [_ H].
    rewrite Hc in H. destruct H as (ring' & Hring' & Hsame & _ & Hok).
    exists ring'. split; [exact Hring'|]. split; [exact Hsame|].
    apply Hok.
    - reflexivity.
    - split; [exists 12; split; [lia | reflexivity]|].
      split; [vm_compute; reflexivity | vm_compute; split; [discriminate | reflexivity]].
    - vm_compute; discriminate.
    - vm_compute; discriminate. }
  split; [reflexivity|].
  pose proof (mgpu_submit_commands_single_ring nop_env (fresh_mdev idle_device)
                q5_fence_submit _ _ (surjective_pairing _)) as [_ H].
  change (cmd_ring (fresh_mdev idle_device)) with (@None mgpu_ring) in H.
  cbv iota in H. destruct H as [_ H].
  destruct H as [_ H].
  { vm_compute. discriminate. }
  { vm_compute. discriminate. }
  { vm_compute. reflexivity. }
  destruct (H eq_refl 0x10000000 eq_refl) as (mdev1 & _ & _ & ring5 & Hring5 & Hsame5 & _).
  fold first_q5_mdev in Hring5.
  pose proof (mgpu_submit_commands_single_ring nop_env first_q5_mdev
                nop_submit _ _ (surjective_pairing _)) as [_ H2].
  rewrite Hring5 in H2. destruct H2 as (ring5' & Hring5' & Hsame5' & _).
  exists ring5, ring5'. auto.
Defined.

(** ** The scheduler *)

Lemma first_ready_none js bucket : forall pos,
  (forall p j, p ∈ bucket -> js !! p = Some j -> mgpu_job_is_ready j = false) ->
  first_ready js bucket pos = None.
Proof.
  induction bucket as [|p rest IH]; intros pos H; [reflexivity|].
  cbn [first_ready]. destruct (js !! p) as [j|] eqn:E.
  - rewrite (H p j); [|left|exact E]. apply IH.
    intros q j' Hq. apply H. right. exact Hq.
  - apply IH. intros q j' Hq. apply H. right. exact Hq.
Qed.

Lemma scan_priorities_none js buckets n :
  nothing_ready js buckets -> scan_priorities js buckets n = None.
Proof.
  intros H. induction n as [|prio IH]; [reflexivity|].
  cbn [scan_priorities]. rewrite first_ready_none; [exact IH|].
  intros p j Hp Hj.
  destruct (buckets !! prio) as [b|] eqn:E.
  - rewrite (list_lookup_total_correct _ _ _ E) in Hp.
    eapply H; [|exact Hp|exact Hj]. eapply list_elem_of_lookup_2. exact E.
  - rewrite list_lookup_total_alt, E in Hp. cbn in Hp. inversion Hp.
Qed.

(** A pass over a queue in which no job is ready changes nothing. *)
Lemma mgpu_sched_process_queue_nothing_ready env now mdev sched qid queue :
  sched_queue sched qid = Some queue ->
  nothing_ready (jobs sched) (pending queue) ->
  mgpu_sched_process_queue env now mdev sched qid = (mdev, sched).
Proof.
  intros Hq Hn. unfold mgpu_sched_process_queue. rewrite Hq.
  destruct (_ || _); [reflexivity|].
  rewrite scan_priorities_none by exact Hn. reflexivity.
Qed.

(** Whatever mgpu_sched_submit_job enqueues is in state queued, and so not
    ready. *)
Lemma mgpu_sched_submit_job_not_ready sched job sched' :
  mgpu_sched_submit_job sched job = (0, sched') ->
  exists p j, job = Some p /\ jobs sched' !! p = Some j /\
              job_state j = MGPU_JOB_QUEUED /\ mgpu_job_is_ready j = false.
Proof.
  unfold mgpu_sched_submit_job. intros H.
  destruct job as [p|]; cbn in H; [|inversion H].
  destruct (jobs sched !! p) as [j|]; cbn in H; [|inversion H].
  destruct (_ || _); [inversion H|].
  destruct (sched_queue _ _); [|inversion H].
  inversion H; subst; clear H. cbn.
  eexists p, _. split; [reflexivity|]. split; [apply lookup_insert_eq|].
  split; [reflexivity|]. unfold mgpu_job_is_ready. cbn. apply andb_false_r.
Qed.

(** C2.  The claim: a job with no unsatisfied dependency that
    mgpu_sched_submit_job enqueued on a queue with room is selected, taken
    out of its bucket, marked running and sent to the ring by the next
    mgpu_sched_process_queue.  Here the job is enqueued (return value 0,
    alone in the normal bucket of queue 0, nothing running, 0 of 16 starts
    pending), but mgpu_sched_submit_job has moved it to queued while
    mgpu_job_is_ready asks for pending: the pass changes neither scheduler
    nor device. *)
Theorem mgpu_sched_submitted_job_not_selected :
  let r := mgpu_sched_submit_job sched_with_nop (Some 1%positive) in
  r.1 = 0 /\
  (dep_count <$> jobs r.2 !! 1%positive) = Some 0 /\
  (job_state <$> jobs r.2 !! 1%positive) = Some MGPU_JOB_QUEUED /\
  (pending <$> sched_queue r.2 0) = Some [[]; [1%positive]; []; []] /\
  (current_job <$> sched_queue r.2 0) = Some None /\
  (pending_starts <$> sched_queue r.2 0) = Some 0 /\
  (queue_depth <$> sched_queue r.2 0) = Some 16 /\
  mgpu_sched_process_queue nop_env 0 fresh_ring_mdev r.2 0
    = (fresh_ring_mdev, r.2).
Proof.
  cbv zeta.
  split; [vm_compute; reflexivity|].
  split; [vm_compute; reflexivity|].
  split; [vm_compute; reflexivity|].
  split; [vm_compute; reflexivity|].
  split; [vm_compute; reflexivity|].
  split; [vm_compute; reflexivity|].
  split; vm_compute; reflexivity.
Qed.

(** The selection itself works on a job that is still pending: placed in
    the bucket by hand, the job is taken out, marked running, made the
    current job and written to the ring, whose doorbell is rung. *)
Lemma mgpu_sched_process_queue_selects_pending :
  let r := mgpu_sched_process_queue nop_env 0 fresh_ring_mdev
                                    sched_pending_in_bucket 0 in
  (job_state <$> jobs r.2 !! 1%positive) = Some MGPU_JOB_RUNNING /\
  (pending <$> sched_queue r.2 0) = Some [[]; []; []; []] /\
  (current_job <$> sched_queue r.2 0) = Some (Some 1%positive) /\
  (pending_starts <$> sched_queue r.2 0) = Some 1 /\
  (tail <$> cmd_ring r.1) = Some 1 /\
  mmio_writes (trace (mmio r.1))
    = mmio_writes (trace (mmio fresh_ring_mdev)) ++ [(0x4C, 1); (0x2000, 1)].
Proof.
  cbv zeta.
  split; [vm_compute; reflexivity|].
  split; [vm_compute; reflexivity|].
  split; [vm_compute; reflexivity|].
  split; [vm_compute; reflexivity|].
  split; vm_compute; reflexivity.
Qed.

(** ** Waiting for a job *)

Lemma completion_sleep_quiet wakes : forall timeout job,
  completion_done job = 0 -> quiet wakes -> wakes <> [] ->
  0 <= timeout <= total_elapsed wakes ->
  completion_sleep wakes timeout job = Some (0, job).
Proof.
  induction wakes as [|w ws IH]; intros timeout job Hd Hq Hne Ht; [congruence|].
  inversion Hq as [|? ? [He Hid] Hq']; subst.
  cbn [completion_sleep]. rewrite Hid, Hd. cbn [Z.eqb andb].
  change (total_elapsed (w :: ws)) with (elapsed w + total_elapsed ws) in Ht.
  destruct (Z.max 0 (timeout - elapsed w) =? 0) eqn:E; cbn [negb].
  - apply Z.eqb_eq in E. rewrite E. reflexivity.
  - apply Z.eqb_neq in E. apply IH; try assumption.
    + intros ->. change (total_elapsed (St:=mgpu_job) []) with 0 in Ht. lia.
    + lia.
Qed.

(** A wait that times out: the job nobody completes, wake-ups that use up
    the budget.  The waiter gets -ETIMEDOUT and has marked the job. *)
Lemma mgpu_sched_wait_job_times_out hz wakes job timeout_ms :
  completion_done job = 0 -> quiet wakes -> wakes <> [] ->
  0 <= msecs_to_jiffies hz timeout_ms <= total_elapsed wakes ->
  mgpu_sched_wait_job hz wakes job timeout_ms
  = Some (- ETIMEDOUT, set_job_state job MGPU_JOB_TIMEOUT).
Proof.
  intros Hd Hq Hne Ht. unfold mgpu_sched_wait_job, wait_for_completion_timeout.
  rewrite Hd. cbn [Z.eqb].
  rewrite (completion_sleep_quiet wakes _ job Hd Hq Hne Ht).
  rewrite Hd. reflexivity.
Qed.

(** C3, as the code has it.  When the wait on the completion latch times
    out, mgpu_sched_wait_job returns -ETIMEDOUT and sets the job's state to
    timed_out, whatever it was; nothing else of the job changes. *)
Theorem mgpu_sched_wait_job_timeout_marks_job hz wakes job timeout_ms jw :
  wait_for_completion_timeout wakes (msecs_to_jiffies hz timeout_ms) job
    = Some (0, jw) ->
  mgpu_sched_wait_job hz wakes job timeout_ms
    = Some (- ETIMEDOUT, set_job_state jw MGPU_JOB_TIMEOUT) /\
  job_state (set_job_state jw MGPU_JOB_TIMEOUT) = MGPU_JOB_TIMEOUT /\
  set_job_state (set_job_state jw MGPU_JOB_TIMEOUT) (job_state jw) = jw.
Proof.
  intros H. unfold mgpu_sched_wait_job. rewrite H. cbn [Z.eqb].
  split; [reflexivity|]. split; [reflexivity|]. destruct jw; reflexivity.
Qed.

Lemma mgpu_sched_wait_job_timeout_marks_job_witness :
  wait_for_completion_timeout quiet_timeout (msecs_to_jiffies 1000 50) running_job
    = Some (0, running_job) /\
  mgpu_sched_wait_job 1000 quiet_timeout running_job 50
    = Some (- ETIMEDOUT, set_job_state running_job MGPU_JOB_TIMEOUT).
Proof.
  assert (H : wait_for_completion_timeout quiet_timeout
                (msecs_to_jiffies 1000 50) running_job = Some (0, running_job))
    by (vm_compute; reflexivity).
  split; [exact H|].
  exact (proj1 (mgpu_sched_wait_job_timeout_marks_job 1000 quiet_timeout
                  running_job 50 running_job H)).
Defined.

(** The claim as stated fails: a running job whose waiter gives up after
    50 ms is no longer running afterwards. *)
Lemma mgpu_sched_wait_job_changes_running_job :
  mgpu_sched_wait_job 1000 quiet_timeout running_job 50
    = Some (- ETIMEDOUT, set_job_state running_job MGPU_JOB_TIMEOUT) /\
  job_state running_job = MGPU_JOB_RUNNING /\
  job_state (set_job_state running_job MGPU_JOB_TIMEOUT) <> MGPU_JOB_RUNNING.
Proof.
  split; [vm_compute; reflexivity|]. split; [reflexivity|].
  cbn. discriminate.
Qed.

(** ** The fence engine *)

Lemma u32_s32 x : u32 (s32 x) = u32 x.
Proof.
  unfold u32, s32. rewrite Zminus_mod, Zmod_mod, <- Zminus_mod.
  f_equal. lia.
Qed.

Lemma s32_s32_add x y : s32 (s32 x + y) = s32 (x + y).
Proof.
  unfold s32. f_equal.
  replace ((x + 2 ^ 31) mod 2 ^ 32 - 2 ^ 31 + y + 2 ^ 31)
    with ((x + 2 ^ 31) mod 2 ^ 32 + y) by lia.
  rewrite Zplus_mod_idemp_l. f_equal. lia.
Qed.

Lemma s32_small x : - 2 ^ 31 <= x < 2 ^ 31 -> s32 x = x.
Proof. intros H. unfold s32. rewrite Z.mod_small; lia. Qed.

Lemma after_fence_next_seqno n : forall mdev ctx,
  fence_ctx mdev = Some ctx -> - 2 ^ 31 <= seqno ctx < 2 ^ 31 ->
  exists ctx', fence_ctx (after_fence_next n mdev) = Some ctx' /\
               seqno ctx' = s32 (seqno ctx + Z.of_nat n).
Proof.
  induction n as [|n IH]; intros mdev ctx Hctx Hr.
  - exists ctx. split; [exact Hctx|].
    rewrite Z.add_0_r, s32_small; [reflexivity|exact Hr].
  - destruct (IH mdev ctx Hctx Hr) as (ctx' & Hc' & Hs').
    cbn [after_fence_next]. unfold mgpu_fence_next. rewrite Hc'. cbn.
    eexists. split; [reflexivity|]. cbn.
    rewrite Hs', s32_s32_add. f_equal. lia.
Qed.

Lemma nth_fence_next_value k mdev ctx :
  fence_ctx mdev = Some ctx -> seqno ctx = 0 -> (1 <= k)%nat ->
  nth_fence_next k mdev = u32 (Z.of_nat k).
Proof.
  intros Hctx Hs Hk. unfold nth_fence_next.
  destruct (after_fence_next_seqno (pred k) mdev ctx Hctx ltac:(rewrite Hs; lia))
    as (ctx' & Hc' & Hs').
  unfold mgpu_fence_next. rewrite Hc'. cbn [fst].
  rewrite u32_s32, Hs', Hs. rewrite <- u32_s32, s32_s32_add, u32_s32.
  f_equal. lia.
Qed.

Lemma mgpu_fence_init_ctx env mdev mdev0 :
  mgpu_fence_init env mdev = (0, mdev0) ->
  exists ctx, fence_ctx mdev0 = Some ctx /\ seqno ctx = 0 /\
              length (cpu_addr ctx) = 1024%nat /\ wait_list ctx = [].
Proof.
  unfold mgpu_fence_init. intros H.
  destruct (negb (kzalloc_ok env)); [inversion H|].
  destruct (dma_alloc_coherent env PAGE_SIZE) as [dma|]; [|inversion H].
  inversion H; subst; clear H. eexists. split; [reflexivity|].
  split; [reflexivity|]. split; [vm_compute; reflexivity|reflexivity].
Qed.

(** C7, as the code has it.  After mgpu_fence_init call number [k] of
    mgpu_fence_next returns [k] modulo 2^32: as long as fewer than 2^32
    calls were made the value is not zero and exceeds the one before. *)
Theorem mgpu_fence_next_sequence env mdev mdev0 k :
  mgpu_fence_init env mdev = (0, mdev0) ->
  (1 <= k)%nat ->
  nth_fence_next k mdev0 = u32 (Z.of_nat k) /\
  (Z.of_nat k < 2 ^ 32 ->
     nth_fence_next k mdev0 <> 0 /\
     ((2 <= k)%nat -> nth_fence_next (pred k) mdev0 < nth_fence_next k mdev0)).
Proof.
  intros Hinit Hk.
  destruct (mgpu_fence_init_ctx _ _ _ Hinit) as (ctx & Hctx & Hs & _).
  rewrite (nth_fence_next_value k mdev0 ctx Hctx Hs Hk).
  split; [reflexivity|]. intros Hlt.
  rewrite u32_small by lia. split; [lia|]. intros H2.
  rewrite (nth_fence_next_value (pred k) mdev0 ctx Hctx Hs) by lia.
  rewrite u32_small by lia. lia.
Qed.

Lemma mgpu_fence_next_sequence_witness :
  mgpu_fence_init nop_env (fresh_mdev idle_device) = (0, fence_mdev) /\
  nth_fence_next 3 fence_mdev = u32 3 /\
  nth_fence_next 3 fence_mdev <> 0 /\
  nth_fence_next 2 fence_mdev < nth_fence_next 3 fence_mdev.
Proof.
  assert (Hinit : mgpu_fence_init nop_env (fresh_mdev idle_device)
                  = (0, fence_mdev)) by (vm_compute; reflexivity).
  split; [exact Hinit|].
  destruct (mgpu_fence_next_sequence nop_env (fresh_mdev idle_device)
              fence_mdev 3 Hinit ltac:(lia)) as [Hv Hrest].
  split; [exact Hv|].
  destruct (Hrest ltac:(lia)) as [Hnz Hinc].
  split; [exact Hnz|]. exact (Hinc ltac:(lia)).
Defined.

(** The claim as stated fails: call number 2^32 returns zero, which is
    also not greater than what the call before returned. *)
Lemma mgpu_fence_next_returns_zero :
  nth_fence_next (Z.to_nat (2 ^ 32)) fence_mdev = 0 /\
  nth_fence_next (pred (Z.to_nat (2 ^ 32))) fence_mdev = 2 ^ 32 - 1.
Proof.
  assert (Hctx : fence_ctx fence_mdev
                 = Some (MkFenceCtx (replicate 1024 0) 0x10000000 0 []))
    by (vm_compute; reflexivity).
  split.
  - rewrite (nth_fence_next_value _ _ _ Hctx eq_refl) by lia.
    rewrite Z2Nat.id by lia. reflexivity.
  - rewrite (nth_fence_next_value _ _ _ Hctx eq_refl) by lia.
    rewrite Nat2Z.inj_pred by lia. rewrite Z2Nat.id by lia. reflexivity.
Qed.

(** C6.  For a fence page that lies inside the 64-bit bus address space:
    at an address inside the page mgpu_fence_signaled is true exactly when
    the cell holding that address has reached the expected value; at any
    other address it is true. *)
Theorem mgpu_fence_signaled_spec mdev ctx addr expected :
  fence_ctx mdev = Some ctx ->
  0 <= fence_dma_addr ctx -> fence_dma_addr ctx + PAGE_SIZE < 2 ^ 64 ->
  0 <= addr < 2 ^ 64 ->
  (in_fence_page ctx addr ->
     (mgpu_fence_signaled mdev addr expected = true
      <-> fence_cell ctx addr >= expected)) /\
  (~ in_fence_page ctx addr -> mgpu_fence_signaled mdev addr expected = true).
Proof.
  intros Hctx Hd0 Hd1 Ha. unfold mgpu_fence_signaled, in_fence_page, fence_cell.
  rewrite Hctx. unfold u64. unfold PAGE_SIZE in *.
  rewrite (Z.mod_small (fence_dma_addr ctx + 4096)) by lia.
  split.
  - intros Hin.
    destruct (addr <? fence_dma_addr ctx) eqn:E1; [apply Z.ltb_lt in E1; lia|].
    destruct (fence_dma_addr ctx + 4096 <=? addr) eqn:E2; [apply Z.leb_le in E2; lia|].
    cbn [orb]. rewrite Z.mod_small by lia.
    rewrite Z.leb_le. lia.
  - intros Hout.
    destruct (addr <? fence_dma_addr ctx) eqn:E1; [reflexivity|].
    destruct (fence_dma_addr ctx + 4096 <=? addr) eqn:E2; [reflexivity|].
    apply Z.ltb_ge in E1. apply Z.leb_gt in E2. lia.
Qed.

Lemma mgpu_fence_signaled_spec_witness :
  in_fence_page fence_ctx_cell5 0x1000000A /\
  fence_cell fence_ctx_cell5 0x1000000A = 5 /\
  (mgpu_fence_signaled fence_mdev_cell5 0x1000000A 5 = true
   <-> fence_cell fence_ctx_cell5 0x1000000A >= 5) /\
  (mgpu_fence_signaled fence_mdev_cell5 0x1000000A 6 = true
   <-> fence_cell fence_ctx_cell5 0x1000000A >= 6) /\
  ~ in_fence_page fence_ctx_cell5 0x10001000 /\
  mgpu_fence_signaled fence_mdev_cell5 0x10001000 6 = true.
Proof.
  assert (Hin : in_fence_page fence_ctx_cell5 0x1000000A)
    by (unfold in_fence_page; zconst).
  assert (Hout : ~ in_fence_page fence_ctx_cell5 0x10001000)
    by (unfold in_fence_page; intros [_ H]; revert H; zconst).
  split; [exact Hin|]. split; [reflexivity|].
  split; [|split; [|split; [exact Hout|]]].
  - apply (mgpu_fence_signaled_spec fence_mdev_cell5 fence_ctx_cell5
             0x1000000A 5 eq_refl); [zconst | zconst | zconst | exact Hin].
  - apply (mgpu_fence_signaled_spec fence_mdev_cell5 fence_ctx_cell5
             0x1000000A 6 eq_refl); [zconst | zconst | zconst | exact Hin].
  - apply (mgpu_fence_signaled_spec fence_mdev_cell5 fence_ctx_cell5
             0x10001000 6 eq_refl); [zconst | zconst | zconst | exact Hout].
Defined.

(** ** Waiting for a fence *)

Lemma schedule_timeout_unbounded e :
  schedule_timeout MAX_SCHEDULE_TIMEOUT e = MAX_SCHEDULE_TIMEOUT.
Proof. reflexivity. Qed.

(** An unbounded wait never comes back with 0, the timeout. *)
Lemma wait_event_unbounded {St : Type} (condition : St -> bool) wakes :
  forall sig st ret st',
    wait_event_interruptible_timeout condition wakes sig
      MAX_SCHEDULE_TIMEOUT st = Some (ret, st') ->
    ret = MAX_SCHEDULE_TIMEOUT \/ ret = - ERESTARTSYS.
Proof.
  induction wakes as [|w ws IH]; intros sig st ret st' H;
    cbn [wait_event_interruptible_timeout] in H;
    change (MAX_SCHEDULE_TIMEOUT =? 0) with false in H; cbn iota in H.
  - destruct (condition st); [inversion H; subst; left; reflexivity|].
    destruct sig; [inversion H; subst; right; reflexivity|discriminate].
  - destruct (condition st); [inversion H; subst; left; reflexivity|].
    destruct sig; [inversion H; subst; right; reflexivity|].
    rewrite schedule_timeout_unbounded in H. eapply IH. exact H.
Qed.

(** And it does not come back at all while the condition stays false and
    no signal arrives. *)
Lemma wait_event_unbounded_blocks wakes : forall mdev addr value,
  mgpu_fence_signaled mdev addr value = false ->
  stays_unsignaled wakes mdev addr value ->
  wait_event_interruptible_timeout
    (fun m => mgpu_fence_signaled m addr value) wakes false
    MAX_SCHEDULE_TIMEOUT mdev = None.
Proof.
  induction wakes as [|w ws IH]; intros mdev addr value Hc Hs;
    cbn [wait_event_interruptible_timeout]; rewrite Hc;
    change (MAX_SCHEDULE_TIMEOUT =? 0) with false; cbn iota; [reflexivity|].
  destruct Hs as (Hsig & Hc' & Hs'). rewrite Hsig, schedule_timeout_unbounded.
  apply IH; assumption.
Qed.

Lemma fence_list_add_tail_signaled mdev self e addr value :
  mgpu_fence_signaled (fence_list_add_tail mdev self e) addr value
  = mgpu_fence_signaled mdev addr value.
Proof.
  unfold fence_list_add_tail, mgpu_fence_signaled.
  destruct (fence_ctx mdev) eqn:E; cbn; rewrite ?E; reflexivity.
Qed.

(** C8.  With a fence context in place: a fence that is already signaled
    makes mgpu_wait_fence return 0 at once, the device context (and with it
    the wait list) untouched.  Otherwise a timeout of zero stands for an
    unbounded wait: the call never reports a timeout, and it does not
    return as long as the fence stays unsignaled and no signal arrives,
    however much time goes by. *)
Theorem mgpu_wait_fence_fast_path_and_zero_timeout
    hz wakes sig self mdev ctx args :
  fence_ctx mdev = Some ctx ->
  (mgpu_fence_signaled mdev (wf_fence_addr args) (wf_fence_value args) = true ->
   mgpu_wait_fence hz wakes sig self mdev args = Some (0, mdev)) /\
  (mgpu_fence_signaled mdev (wf_fence_addr args) (wf_fence_value args) = false ->
   wf_timeout_ms args = 0 ->
   (forall ret mdev',
       mgpu_wait_fence hz wakes sig self mdev args = Some (ret, mdev') ->
       ret = 0 \/ ret = - ERESTARTSYS) /\
   (sig = false ->
    stays_unsignaled wakes
      (fence_list_add_tail mdev self (MkFenceWait (wf_fence_value args) false))
      (wf_fence_addr args) (wf_fence_value args) ->
    mgpu_wait_fence hz wakes sig self mdev args = None)).
Proof.
  intros Hctx. unfold mgpu_wait_fence. rewrite Hctx. split.
  - intros ->. reflexivity.
  - intros Hns Hz. rewrite Hns, Hz. cbn [Z.eqb]. split.
    + intros ret mdev' H.
      destruct (wait_event_interruptible_timeout _ wakes sig _ _)
        as [[r m]|] eqn:E; [|discriminate].
      apply wait_event_unbounded in E. destruct E as [-> | ->].
      * change (MAX_SCHEDULE_TIMEOUT =? 0) with false in H.
        change (MAX_SCHEDULE_TIMEOUT <? 0) with false in H.
        cbn iota in H. inversion H. left. reflexivity.
      * change (- ERESTARTSYS =? 0) with false in H.
        change (- ERESTARTSYS <? 0) with true in H.
        cbn iota in H. inversion H. right. reflexivity.
    + intros -> Hs. rewrite wait_event_unbounded_blocks; [reflexivity| |exact Hs].
      rewrite fence_list_add_tail_signaled. exact Hns.
Qed.

Lemma mgpu_wait_fence_fast_path_and_zero_timeout_witness :
  mgpu_wait_fence 1000 long_quiet_wait false 0x7ffe0000 fence_mdev_cell5
                  (MkWaitFence 0x10000008 5 0)
    = Some (0, fence_mdev_cell5) /\
  mgpu_wait_fence 1000 long_quiet_wait false 0x7ffe0000 fence_mdev_cell5
                  (MkWaitFence 0x10000008 6 0)
    = None.
Proof.
  split.
  - apply (mgpu_wait_fence_fast_path_and_zero_timeout 1000 long_quiet_wait
             false 0x7ffe0000 fence_mdev_cell5 fence_ctx_cell5
             (MkWaitFence 0x10000008 5 0) eq_refl).
    vm_compute; reflexivity.
  - apply (mgpu_wait_fence_fast_path_and_zero_timeout 1000 long_quiet_wait
             false 0x7ffe0000 fence_mdev_cell5 fence_ctx_cell5
             (MkWaitFence 0x10000008 6 0) eq_refl).
    + vm_compute; reflexivity.
    + reflexivity.
    + reflexivity.
    + cbn [stays_unsignaled long_quiet_wait].
      split; [reflexivity|]. split; [vm_compute; reflexivity|].
      split; [reflexivity|]. split; [vm_compute; reflexivity|exact I].
Defined.

(** By contrast a bounded wait on the same fence ends with -ETIMEDOUT, and
    the waiter's entry is off the wait list again. *)
Lemma mgpu_wait_fence_bounded_times_out :
  mgpu_wait_fence 1000 long_quiet_wait false 0x7ffe0000 fence_mdev_cell5
                  (MkWaitFence 0x10000008 6 50)
    = Some (- ETIMEDOUT, fence_mdev_cell5).
Proof. vm_compute. reflexivity. Qed.

(** Without a fence context mgpu_fence_signaled answers true, yet
    mgpu_wait_fence fails with -ENODEV. *)
Lemma mgpu_wait_fence_no_context hz wakes sig self mdev args :
  fence_ctx mdev = None ->
  mgpu_fence_signaled mdev (wf_fence_addr args) (wf_fence_value args) = true /\
  mgpu_wait_fence hz wakes sig self mdev args = Some (- ENODEV, mdev).
Proof.
  intros H. unfold mgpu_fence_signaled, mgpu_wait_fence. rewrite H.
  split; reflexivity.
Qed.

(** ** Reset *)

(** None of the steps of the reset work touches the reset bookkeeping. *)
Lemma reset_state_set_mmio mdev io : reset_state (set_mmio mdev io) = reset_state mdev.
Proof. reflexivity. Qed.

Lemma reset_state_set_cmd_ring mdev r :
  reset_state (set_cmd_ring mdev r) = reset_state mdev.
Proof. reflexivity. Qed.

Lemma reset_state_mgpu_write mdev o v :
  reset_state (mgpu_write mdev o v) = reset_state mdev.
Proof. reflexivity. Qed.

Lemma reset_state_msleep mdev ms : reset_state (msleep mdev ms) = reset_state mdev.
Proof. reflexivity. Qed.

Lemma reset_state_poll_idle_loop n : forall mdev,
  reset_state (poll_idle_loop n mdev).2 = reset_state mdev.
Proof.
  induction n as [|n IH]; intros mdev; cbn [poll_idle_loop]; [reflexivity|].
  destruct (negb _); [reflexivity|]. rewrite IH. reflexivity.
Qed.

Lemma reset_state_core_wait_idle_loop n : forall mdev,
  reset_state (core_wait_idle_loop n mdev).2 = reset_state mdev.
Proof.
  induction n as [|n IH]; intros mdev; cbn [core_wait_idle_loop]; [reflexivity|].
  destruct (mgpu_core_is_idle mdev); [reflexivity|].
  destruct (negb _); [reflexivity|]. rewrite IH. reflexivity.
Qed.

Lemma reset_state_test_alive mdev :
  reset_state (mgpu_core_test_alive mdev).2 = reset_state mdev.
Proof.
  unfold mgpu_core_test_alive.
  destruct (negb _); [reflexivity|]. destruct (negb _); reflexivity.
Qed.

Lemma reset_state_core_reset mdev :
  reset_state (mgpu_core_reset mdev).2 = reset_state mdev.
Proof.
  unfold mgpu_core_reset.
  match goal with |- context [poll_idle_loop ?n ?m] =>
    pose proof (reset_state_poll_idle_loop n m) as H;
    destruct (poll_idle_loop n m) as [t m'] end.
  cbn in H. destruct (t <=? 0); cbn; rewrite ?reset_state_mgpu_write; exact H.
Qed.

Lemma reset_state_irq_enable mdev :
  reset_state (mgpu_irq_enable mdev) = reset_state mdev.
Proof. reflexivity. Qed.

Lemma reset_state_core_init env mdev :
  reset_state (mgpu_core_init env mdev).2 = reset_state mdev.
Proof.
  unfold mgpu_core_init.
  pose proof (reset_state_core_reset mdev) as H1.
  destruct (mgpu_core_reset mdev) as [r1 m1]. cbn in H1.
  destruct (negb (r1 =? 0)); [exact H1|].
  unfold mgpu_irq_init.
  destruct (negb (request_irq env =? 0)) eqn:E; cbn iota beta; rewrite ?E;
    [exact H1|].
  cbn [negb Z.eqb]. rewrite <- (reset_state_irq_enable m1) in H1.
  match goal with |- context [mgpu_core_test_alive ?m] =>
    pose proof (reset_state_test_alive m) as H2;
    destruct (mgpu_core_test_alive m) as [r2 m2] end.
  cbn in H2. destruct (negb (r2 =? 0)); cbn;
    rewrite ?reset_state_mgpu_write, H2; exact H1.
Qed.

Lemma reset_state_reset_hw mdev :
  reset_state (mgpu_reset_hw mdev).2 = reset_state mdev.
Proof.
  unfold mgpu_reset_hw.
  match goal with |- context [poll_idle_loop ?n ?m] =>
    pose proof (reset_state_poll_idle_loop n m) as H;
    destruct (poll_idle_loop n m) as [t m'] end.
  cbn in H. destruct (t <=? 0); [exact H|].
  match goal with |- context [mgpu_core_test_alive ?m] =>
    pose proof (reset_state_test_alive m) as H2;
    destruct (mgpu_core_test_alive m) as [r2 m2] end.
  cbn in H2. destruct (negb (r2 =? 0)); cbn; rewrite H2; exact H.
Qed.

Lemma reset_state_cmdq_stop mdev :
  reset_state (mgpu_cmdq_stop mdev) = reset_state mdev.
Proof. unfold mgpu_cmdq_stop. destruct (cmd_ring mdev); reflexivity. Qed.

Lemma reset_state_cmdq_resume mdev :
  reset_state (mgpu_cmdq_resume mdev).2 = reset_state mdev.
Proof. unfold mgpu_cmdq_resume. destruct (cmd_ring mdev); reflexivity. Qed.

Lemma reset_state_reset_work_steps env mdev :
  reset_state (reset_work_steps env mdev) = reset_state mdev.
Proof.
  unfold reset_work_steps, mgpu_core_wait_idle, mgpu_core_dump_state.
  pose proof (reset_state_cmdq_stop mdev) as H0.
  set (m0 := mgpu_cmdq_stop mdev) in *.
  pose proof (reset_state_core_wait_idle_loop (idle_polls env) m0) as H1.
  destruct (core_wait_idle_loop (idle_polls env) m0) as [r1 m1]. cbn in H1.
  pose proof (reset_state_reset_hw (mgpu_irq_disable m1)) as H2.
  destruct (mgpu_reset_hw (mgpu_irq_disable m1)) as [r2 m2]. cbn in H2.
  assert (H2' : reset_state m2 = reset_state mdev) by (rewrite H2; change (reset_state (mgpu_irq_disable m1))
        with (reset_state m1); congruence).
  destruct (negb (r2 =? 0)); [exact H2'|].
  pose proof (reset_state_core_init env m2) as H3.
  destruct (mgpu_core_init env m2) as [r3 m3]. cbn in H3.
  destruct (negb (r3 =? 0)); [congruence|].
  pose proof (reset_state_cmdq_resume m3) as H4.
  destruct (mgpu_cmdq_resume m3) as [r4 m4]. cbn in H4.
  destruct (negb (r4 =? 0)); [congruence|].
  rewrite reset_state_irq_enable. congruence.
Qed.

(** A run of the reset work leaves the flag clear and the counter and the
    queue as it found them. *)
Lemma reset_state_reset_work env mdev :
  reset_state (mgpu_reset_work env mdev)
  = (0, reset_count mdev, reset_work_pending mdev).
Proof.
  unfold mgpu_reset_work.
  pose proof (reset_state_reset_work_steps env (set_in_reset mdev 1)) as H.
  unfold reset_state in *. cbn in *. inversion H. reflexivity.
Qed.

(** C9, as the code has it.  A schedule request that finds a reset in
    progress changes nothing at all.  Two requests in a row on an idle
    device with no reset queued converge to one reset cycle: the work is
    queued once, the worker runs it once and leaves the flag clear and
    nothing queued.  The counter goes up once for each request that found no
    reset in progress, and the worker leaves it alone. *)
Theorem mgpu_reset_schedule_idempotent env mdev :
  (in_reset mdev <> 0 -> mgpu_reset_schedule mdev = mdev) /\
  (in_reset mdev = 0 -> reset_work_pending mdev = false ->
   let m1 := mgpu_reset_schedule mdev in
   let m2 := mgpu_reset_schedule m1 in
   reset_state m1 = (0, s32 (reset_count mdev + 1), true) /\
   reset_state m2 = (0, s32 (s32 (reset_count mdev + 1) + 1), true) /\
   forall fuel,
     exists m3, run_reset_worker (S fuel) env m2 = (1%nat, m3) /\
                reset_state m3 = (0, reset_count m2, false)).
Proof.
  split.
  - intros H. unfold mgpu_reset_schedule.
    apply Z.eqb_neq in H. rewrite H. reflexivity.
  - intros Hr Hp. cbv zeta.
    assert (H1 : reset_state (mgpu_reset_schedule mdev)
                 = (0, s32 (reset_count mdev + 1), true)).
    { unfold mgpu_reset_schedule, schedule_delayed_work. rewrite Hr. cbn.
      rewrite Hp. unfold reset_state. cbn. rewrite Hr. reflexivity. }
    set (m1 := mgpu_reset_schedule mdev) in *.
    assert (H2 : reset_state (mgpu_reset_schedule m1)
                 = (0, s32 (s32 (reset_count mdev + 1) + 1), true)).
    { unfold reset_state in H1. inversion H1 as [[Hi Hc Hq]].
      unfold mgpu_reset_schedule, schedule_delayed_work. rewrite Hi. cbn.
      rewrite Hq. unfold reset_state. cbn. rewrite Hi, Hc, Hq. reflexivity. }
    set (m2 := mgpu_reset_schedule m1) in *.
    split; [exact H1|]. split; [exact H2|].
    intros fuel.
    assert (Hq : reset_work_pending m2 = true) by exact (f_equal snd H2).
    cbn [run_reset_worker]. rewrite Hq.
    set (m3 := mgpu_reset_work env (set_reset_work_pending m2 false)).
    pose proof (reset_state_reset_work env (set_reset_work_pending m2 false)) as H3.
    fold m3 in H3. cbn in H3.
    assert (Hq3 : reset_work_pending m3 = false)
      by (unfold reset_state in H3; inversion H3; reflexivity).
    exists m3. split.
    + destruct fuel; cbn [run_reset_worker]; [reflexivity|].
      rewrite Hq3. reflexivity.
    + exact H3.
Qed.

Lemma mgpu_reset_schedule_idempotent_witness :
  mgpu_reset_schedule (set_in_reset reset_mdev 1) = set_in_reset reset_mdev 1 /\
  reset_state (mgpu_reset_schedule reset_mdev) = (0, s32 (0 + 1), true) /\
  exists m3,
    run_reset_worker 1 nop_env (mgpu_reset_schedule (mgpu_reset_schedule reset_mdev))
      = (1%nat, m3) /\
    reset_state m3
      = (0, reset_count (mgpu_reset_schedule (mgpu_reset_schedule reset_mdev)),
         false).
Proof.
  split.
  - apply (mgpu_reset_schedule_idempotent nop_env (set_in_reset reset_mdev 1)).
    cbn. discriminate.
  - destruct (proj2 (mgpu_reset_schedule_idempotent nop_env reset_mdev)
                eq_refl eq_refl) as (H1 & _ & H3).
    split; [exact H1|]. exact (H3 0%nat).
Defined.

(** The claim as stated fails: two requests in a row, one reset cycle, and
    the counter has gone from 0 to 2. *)
Lemma mgpu_reset_schedule_twice_counts_twice :
  reset_state reset_mdev = (0, 0, false) /\
  reset_state (mgpu_reset_schedule (mgpu_reset_schedule reset_mdev))
    = (0, 2, true) /\
  (let r := run_reset_worker 5 nop_env
              (mgpu_reset_schedule (mgpu_reset_schedule reset_mdev)) in
   r.1 = 1%nat /\ reset_state r.2 = (0, 2, false) /\
   reset_count r.2 <> reset_count reset_mdev + 1).
Proof.
  split; [vm_compute; reflexivity|].
  split; [vm_compute; reflexivity|].
  cbv zeta. split; [vm_compute; reflexivity|].
  split; [vm_compute; reflexivity|]. vm_compute. discriminate.
Qed.

(** For the other waits a timeout of zero is an immediate poll:
    mgpu_reset_wait returns -ETIMEDOUT at once while a reset is running. *)
Lemma mgpu_reset_wait_zero_timeout_polls hz wakes sig mdev :
  0 < hz <= 1000 -> in_reset mdev <> 0 ->
  mgpu_reset_wait hz wakes sig mdev 0 = Some (- ETIMEDOUT, mdev).
Proof.
  intros Hhz Hr. unfold mgpu_reset_wait.
  assert (Hj : msecs_to_jiffies hz 0 = 0).
  { unfold msecs_to_jiffies. change (u32 0) with 0.
    change (2 ^ 31 <=? 0) with false. cbv zeta iota.
    assert (1 <= 1000 / hz) by (apply Z.div_le_lower_bound; lia).
    apply Z.div_small. lia. }
  rewrite Hj. apply Z.eqb_neq in Hr.
  destruct wakes; cbn [wait_event_interruptible_timeout]; rewrite Hr; reflexivity.
Qed.

(** A timeout of 2^31 ms or more is converted to MAX_JIFFY_OFFSET; with no
    reset in progress the wait hands it back at once, and [int ret] keeps
    its low 32 bits, which read as -2. *)
Lemma mgpu_reset_wait_long_timeout hz wakes sig mdev timeout_ms :
  2 ^ 31 <= timeout_ms < 2 ^ 32 -> in_reset mdev = 0 ->
  mgpu_reset_wait hz wakes sig mdev timeout_ms = Some (-2, mdev).
Proof.
  intros Ht Hr. unfold mgpu_reset_wait, msecs_to_jiffies. cbv zeta.
  rewrite (u32_small timeout_ms) by lia.
  destruct (2 ^ 31 <=? timeout_ms) eqn:E; [|apply Z.leb_gt in E; lia].
  destruct wakes; cbn [wait_event_interruptible_timeout]; rewrite Hr;
    reflexivity.
Qed.

(** ** Health monitoring *)

Lemma heartbeat_mismatch jiffies monitor mdev :
  let beat := u32 (heartbeat_counter monitor + 1) in
  mgpu_read (mgpu_write mdev MGPU_REG_SCRATCH beat) MGPU_REG_SCRATCH <> beat ->
  exists monitor',
    mgpu_health_check_heartbeat jiffies monitor mdev
      = (false, monitor', mgpu_write mdev MGPU_REG_SCRATCH beat) /\
    heartbeat_misses monitor' = u64 (heartbeat_misses monitor + 1) /\
    recovery_count monitor' = recovery_count monitor.
Proof.
  intros beat H. unfold mgpu_health_check_heartbeat. cbn [heartbeat_counter set_heartbeat_counter].
  fold beat. apply Z.eqb_neq in H. rewrite H. cbn [negb].
  eexists. split; [reflexivity|]. split; reflexivity.
Qed.

Lemma health_check_errors_frame ktime monitor mdev :
  let r := mgpu_health_check_errors ktime monitor mdev in
  reset_state r.2 = reset_state mdev /\
  heartbeat_misses r.1.2 = heartbeat_misses monitor /\
  recovery_count r.1.2 = recovery_count monitor.
Proof.
  unfold mgpu_health_check_errors.
  destruct (negb (Z.land _ MGPU_STATUS_ERROR =? 0)).
  - destruct (mgpu_get_error_info _).2; cbn; repeat split.
  - cbn. repeat split.
Qed.

Lemma health_check_hang_frame hz jiffies ktime monitor mdev :
  let r := mgpu_health_check_hang hz jiffies ktime monitor mdev in
  heartbeat_misses r.2 = heartbeat_misses monitor /\
  recovery_count r.2 = recovery_count monitor.
Proof.
  unfold mgpu_health_check_hang.
  destruct (Z.land _ MGPU_STATUS_BUSY =? 0); [split; reflexivity|].
  repeat match goal with
         | |- context [if ?c then _ else _] => destruct c; cbn iota beta
         end;
    split; reflexivity.
Qed.

(** C4, as the code has it.  A heartbeat mismatch increments the miss
    counter and, in the same pass of mgpu_health_check, makes it schedule a
    reset, however few misses there were before: the recovery count goes up
    and mgpu_reset_schedule is called, which with no reset in progress
    counts the request and queues the reset work. *)
Theorem mgpu_health_check_resets_on_first_miss hz jiffies ktime monitor mdev :
  let beat := u32 (heartbeat_counter monitor + 1) in
  mgpu_read (mgpu_write mdev MGPU_REG_SCRATCH beat) MGPU_REG_SCRATCH <> beat ->
  let r := mgpu_health_check hz jiffies ktime monitor mdev in
  heartbeat_misses r.1 = u64 (heartbeat_misses monitor + 1) /\
  recovery_count r.1 = u64 (recovery_count monitor + 1) /\
  (in_reset mdev = 0 ->
   reset_count r.2 = s32 (reset_count mdev + 1) /\
   reset_work_pending r.2 = true).
Proof.
  intros beat Hmiss r. subst r. unfold mgpu_health_check.
  set (m0 := set_last_check _ ktime).
  destruct (heartbeat_mismatch jiffies m0 mdev Hmiss) as (m1 & Hhb & Hm1 & Hr1).
  rewrite Hhb. cbn [negb].
  pose proof (health_check_errors_frame ktime m1
                (mgpu_write mdev MGPU_REG_SCRATCH beat)) as (Hf & Hm2 & Hr2).
  destruct (mgpu_health_check_errors ktime m1 _) as [[ec m2] mdev2].
  cbn [fst snd] in Hf, Hm2, Hr2.
  pose proof (health_check_hang_frame hz jiffies ktime m2 mdev2) as (Hm3 & Hr3).
  destruct (mgpu_health_check_hang hz jiffies ktime m2 mdev2) as [hung m3].
  cbn [fst snd] in Hm3, Hr3.
  assert (Hneeds : (if hung then true
                    else if 0 <? ec
                         then if MGPU_ERROR_THRESHOLD <=? consecutive_errors m2
                              then true else true
                         else true) = true).
  { destruct hung; [reflexivity|]. destruct (0 <? ec); [|reflexivity].
    destruct (_ <=? _); reflexivity. }
  rewrite Hneeds. cbn [fst snd set_recovery_count heartbeat_misses recovery_count].
  split; [rewrite Hm3, Hm2, Hm1; reflexivity|].
  split; [rewrite Hr3, Hr2, Hr1; reflexivity|].
  intros Hidle.
  assert (Hrs : reset_state mdev2 = reset_state mdev) by exact Hf.
  unfold reset_state in Hrs. inversion Hrs as [[Hi Hc Hq]].
  unfold mgpu_reset_schedule, schedule_delayed_work.
  rewrite Hi, Hidle. cbn [Z.eqb negb].
  cbn [reset_work_pending set_reset_count].
  destruct (reset_work_pending mdev2) eqn:E; cbn; rewrite ?E, ?Hc; split; reflexivity.
Qed.

Lemma mgpu_health_check_resets_on_first_miss_witness :
  let r := mgpu_health_check 1000 0 0 fresh_monitor silent_mdev in
  heartbeat_misses r.1 = u64 (heartbeat_misses fresh_monitor + 1) /\
  recovery_count r.1 = u64 (recovery_count fresh_monitor + 1) /\
  reset_count r.2 = s32 (reset_count silent_mdev + 1) /\
  reset_work_pending r.2 = true.
Proof.
  destruct (mgpu_health_check_resets_on_first_miss 1000 0 0 fresh_monitor
              silent_mdev ltac:(vm_compute; discriminate))
    as (Hm & Hr & Hs).
  cbv zeta. split; [exact Hm|]. split; [exact Hr|]. exact (Hs eq_refl).
Defined.

(** The claim as stated fails: the very first mismatch of a monitor that
    has missed no heartbeat yet gets the reset work queued. *)
Lemma mgpu_health_check_first_miss_schedules_reset :
  heartbeat_misses fresh_monitor = 0 /\
  reset_state silent_mdev = (0, 0, false) /\
  (let r := mgpu_health_check 1000 0 0 fresh_monitor silent_mdev in
   heartbeat_misses r.1 = 1 /\ reset_state r.2 = (0, 1, true)).
Proof.
  split; [reflexivity|]. split; [reflexivity|].
  cbv zeta. split; vm_compute; reflexivity.
Qed.

(** With a scratch register that echoes and a status that shows neither
    error nor activity the check schedules nothing. *)
Lemma mgpu_health_check_healthy :
  let r := mgpu_health_check 1000 0 0 fresh_monitor reset_mdev in
  heartbeat_misses r.1 = 0 /\ reset_state r.2 = (0, 0, false).
Proof. cbv zeta. split; vm_compute; reflexivity. Qed.

(** ** Command validation *)

Lemma find_validator_In table opcode v :
  find_validator table opcode = Some v -> In v table.
Proof.
  induction table as [|w rest IH]; cbn [find_validator]; [discriminate|].
  destruct (v_opcode w =? opcode).
  - intros [= ->]. left. reflexivity.
  - intros H. right. apply IH. exact H.
Qed.

(** Every record of the table is at least one dword long. *)
Lemma cmd_validators_min_size opcode v :
  find_validator cmd_validators opcode = Some v -> 1 <= min_size v.
Proof.
  intros H. apply find_validator_In in H. unfold cmd_validators in H.
  cbn [In] in H.
  repeat (destruct H as [<- | H]; [cbn; lia|]). destruct H.
Qed.

(** The loop returns whenever it is given a round per dword left, and what
    it returns is 0 or -EINVAL. *)
Lemma validate_loop_total fuel mdev : forall cmds ptr end_,
  end_ - ptr <= Z.of_nat fuel ->
  exists ret cmds',
    validate_loop fuel mdev cmds ptr end_ = Some (ret, cmds') /\
    (ret = 0 \/ ret = - EINVAL).
Proof.
  induction fuel as [|f IH]; intros cmds ptr end_ Hf; cbn [validate_loop].
  - destruct (ptr <? end_) eqn:E; [apply Z.ltb_lt in E; lia|].
    eexists _, _. split; [reflexivity|]. left; reflexivity.
  - destruct (ptr <? end_) eqn:E.
    2:{ eexists _, _. split; [reflexivity|]. left; reflexivity. }
    destruct (find_validator cmd_validators _) as [v|] eqn:Hv.
    2:{ eexists _, _. split; [reflexivity|]. right; reflexivity. }
    destruct (_ || _) eqn:Hb.
    { eexists _, _. split; [reflexivity|]. right; reflexivity. }
    destruct (_ >? end_) eqn:Hfit.
    { eexists _, _. split; [reflexivity|]. right; reflexivity. }
    apply orb_false_iff in Hb. destruct Hb as [Hmin _].
    apply Z.ltb_ge in Hmin.
    pose proof (cmd_validators_min_size _ _ Hv) as H1.
    match goal with |- context [negb (?r =? 0)] =>
      destruct (negb (r =? 0)) eqn:Hr end.
    + eexists _, _. split; [reflexivity|].
      apply find_validator_In in Hv. unfold cmd_validators in Hv. cbn [In] in Hv.
      repeat (destruct Hv as [<- | Hv];
              [cbn [validate] in *;
               first [ discriminate Hr
                     | unfold mgpu_validate_draw_cmd, mgpu_validate_dma_cmd,
                              mgpu_validate_fence_cmd in *;
                       repeat match goal with
                              | |- context [if ?c then _ else _] => destruct c
                              end;
                       first [right; reflexivity | discriminate Hr] ]|]).
      destruct Hv.
    + apply IH. lia.
Qed.

(** A stream the loop accepts is cut into well-sized records, where the
    buffer still holds the stream from [ptr] on (earlier headers may have
    been rewritten). *)
Lemma validate_loop_well_sized fuel mdev orig : forall cmds ptr end_ cmds',
  0 <= ptr ->
  (forall i, ptr <= i -> cmds !!! Z.to_nat i = orig !!! Z.to_nat i) ->
  validate_loop fuel mdev cmds ptr end_ = Some (0, cmds') ->
  well_sized orig end_ ptr.
Proof.
  induction fuel as [|f IH]; intros cmds ptr end_ cmds' Hp Hsame H;
    cbn [validate_loop] in H.
  - destruct (ptr <? end_) eqn:E; [discriminate|].
    apply ws_end. apply Z.ltb_ge in E. exact E.
  - destruct (ptr <? end_) eqn:E.
    2:{ apply ws_end. apply Z.ltb_ge in E. exact E. }
    apply Z.ltb_lt in E.
    rewrite (Hsame ptr ltac:(lia)) in H.
    destruct (find_validator cmd_validators _) as [v|] eqn:Hv; [|discriminate].
    destruct (_ || _) eqn:Hb; [discriminate|].
    destruct (_ >? end_) eqn:Hfit; [discriminate|].
    apply orb_false_iff in Hb. destruct Hb as [Hmin Hmax].
    apply Z.ltb_ge in Hmin. rewrite Z.gtb_ltb in Hmax, Hfit.
    apply Z.ltb_ge in Hmax. apply Z.ltb_ge in Hfit.
    pose proof (cmd_validators_min_size _ _ Hv) as H1.
    match type of H with context [negb (?r =? 0)] =>
      destruct (r =? 0) eqn:Hr end; cbn [negb] in H.
    2:{ inversion H as [[Hr0 Hc]]. rewrite Hr0 in Hr. discriminate. }
    eapply ws_record; try eassumption; try lia.
    eapply IH; [|  |exact H]; [lia|].
    intros i Hi. destruct (privileged v); [|apply Hsame; lia].
    rewrite list_lookup_total_insert_ne; [apply Hsame; lia|].
    intros Heq. apply Z2Nat.inj in Heq; lia.
Qed.

Lemma well_sized_record_at cmds end_ p q :
  well_sized cmds end_ p -> record_at cmds end_ p q ->
  record_size_ok cmds end_ q.
Proof.
  intros Hw Hr. induction Hr as [p Hp | p q Hp Hr IH].
  - inversion Hw as [? Hend | ? v Hlt Hv Hb Hfit Hrest]; subst; [lia|].
    exists v. auto.
  - inversion Hw as [? Hend | ? v Hlt Hv Hb Hfit Hrest]; subst; [lia|].
    apply IH. exact Hrest.
Qed.

Lemma reg_read_bounds v :
  find_validator cmd_validators MGPU_CMD_REG_READ = Some v ->
  min_size v = 2 /\ max_size v = 3.
Proof. cbn. intros [= <-]. split; reflexivity. Qed.

(** C5, as the code has it. mgpu_validate_commands always returns, with 0 or
    with -EINVAL; when it returns 0 every record of the stream has a
    declared size within the bounds its opcode has in cmd_validators and
    within the payload that is left.  Those bounds are the ones of the table
    in section 4.G, except that a REG_READ record may declare 2 or 3 dwords. *)
Theorem mgpu_validate_commands_sizes mdev cmds size_bytes :
  (exists ret cmds',
      mgpu_validate_commands mdev cmds size_bytes = Some (ret, cmds') /\
      (ret = 0 \/ ret = - EINVAL) /\
      (ret = 0 ->
       forall q, record_at cmds (size_bytes / 4) 0 q ->
         record_size_ok cmds (size_bytes / 4) q /\
         (hdr_opcode (cmds !!! Z.to_nat q) = MGPU_CMD_REG_READ ->
          hdr_size (cmds !!! Z.to_nat q) = 2 \/
          hdr_size (cmds !!! Z.to_nat q) = 3))) /\
  size_bounds =
    [ (MGPU_CMD_NOP, 1, 1); (MGPU_CMD_DRAW, 5, 8); (MGPU_CMD_COMPUTE, 4, 8);
      (MGPU_CMD_DMA, 4, 5); (MGPU_CMD_FENCE, 3, 3); (MGPU_CMD_WAIT, 2, 3);
      (MGPU_CMD_REG_WRITE, 3, 3); (MGPU_CMD_REG_READ, 2, 3) ].
Proof.
  split; [|reflexivity]. unfold mgpu_validate_commands.
  destruct (validate_loop_total (Z.to_nat (size_bytes / 4)) mdev cmds 0
              (size_bytes / 4) ltac:(lia)) as (ret & cmds' & Hrun & Hret).
  exists ret, cmds'. split; [exact Hrun|]. split; [exact Hret|].
  intros -> q Hq.
  assert (Hw : well_sized cmds (size_bytes / 4) 0)
    by (eapply validate_loop_well_sized; [| |exact Hrun]; [lia|reflexivity]).
  pose proof (well_sized_record_at _ _ _ _ Hw Hq) as Hok.
  split; [exact Hok|].
  intros Hop. destruct Hok as (v & Hv & Hb & _). rewrite Hop in Hv.
  destruct (reg_read_bounds v Hv) as [Hmin Hmax]. lia.
Qed.

Lemma mgpu_validate_commands_sizes_witness :
  (fst <$> mgpu_validate_commands silent_mdev nop_then_reg_read 12) = Some 0 /\
  record_at nop_then_reg_read (12 / 4) 0 1 /\
  record_size_ok nop_then_reg_read (12 / 4) 1 /\
  (hdr_size (nop_then_reg_read !!! Z.to_nat 1) = 2 \/
   hdr_size (nop_then_reg_read !!! Z.to_nat 1) = 3).
Proof.
  assert (Hrun : (fst <$> mgpu_validate_commands silent_mdev nop_then_reg_read 12)
                 = Some 0) by (vm_compute; reflexivity).
  assert (Hat : record_at nop_then_reg_read (12 / 4) 0 1).
  { apply ra_next; [zconst|]. apply ra_here. zconst. }
  split; [exact Hrun|]. split; [exact Hat|].
  destruct (mgpu_validate_commands_sizes silent_mdev nop_then_reg_read 12)
    as [(ret & cmds' & Hr & _ & Hok) _].
  rewrite Hr in Hrun. cbn in Hrun. injection Hrun as ->.
  destruct (Hok eq_refl 1 Hat) as [Hsz Hrr].
  split; [exact Hsz|]. apply Hrr. reflexivity.
Defined.

(** The claim as stated fails: a REG_READ record that declares two dwords
    is accepted. *)
Lemma mgpu_validate_commands_accepts_short_reg_read :
  hdr_opcode (short_reg_read !!! 0%nat) = MGPU_CMD_REG_READ /\
  hdr_size (short_reg_read !!! 0%nat) <> 3 /\
  (fst <$> mgpu_validate_commands silent_mdev short_reg_read 8) = Some 0.
Proof.
  split; [reflexivity|]. split; [vm_compute; discriminate|].
  vm_compute; reflexivity.
Qed.

(** A record whose declared size is below its opcode's minimum, above its
    maximum, or beyond the end of the payload gets the stream rejected. *)
Lemma mgpu_validate_commands_rejects :
  (fst <$> mgpu_validate_commands silent_mdev [mk_header MGPU_CMD_REG_READ 1 0] 4)
    = Some (- EINVAL) /\
  (fst <$> mgpu_validate_commands silent_mdev
             [mk_header MGPU_CMD_REG_READ 4 0; 0; 0; 0] 16)
    = Some (- EINVAL) /\
  (fst <$> mgpu_validate_commands silent_mdev [mk_header MGPU_CMD_REG_READ 3 0; 0] 8)
    = Some (- EINVAL).
Proof.
  split; [vm_compute; reflexivity|]. split; vm_compute; reflexivity.
Qed.

(** ** Ring life cycle *)

Lemma is_power_of_2_log2 n :
  0 < n -> is_power_of_2 n = true -> n = 2 ^ Z.log2 n.
Proof.
  intros Hn H. unfold is_power_of_2 in H.
  apply andb_true_iff in H as [_ H]. apply Z.eqb_eq in H.
  destruct (Z.log2_spec n Hn) as [Hlo Hhi].
  destruct (Z.eq_dec n (2 ^ Z.log2 n)) as [E|E]; [exact E|exfalso].
  assert (Hk : 0 <= Z.log2 n) by apply Z.log2_nonneg.
  assert (Hl : Z.log2 (n - 1) = Z.log2 n).
  { apply Z.log2_unique; [exact Hk|]. rewrite Z.pow_succ_r by exact Hk.
    rewrite Z.pow_succ_r in Hhi by exact Hk. lia. }
  assert (Hb1 : Z.testbit n (Z.log2 n) = true) by (apply Z.bit_log2; lia).
  assert (Hb2 : Z.testbit (n - 1) (Z.log2 n) = true).
  { rewrite <- Hl. apply Z.bit_log2. lia. }
  assert (Hb : Z.testbit (Z.land n (n - 1)) (Z.log2 n) = true).
  { rewrite Z.land_spec, Hb1, Hb2. reflexivity. }
  rewrite H in Hb. rewrite Z.bits_0 in Hb. discriminate.
Qed.

Lemma ring_size_rounding sz :
  MGPU_RING_SIZE_MIN <= sz <= MGPU_RING_SIZE_MAX ->
  let sz' := if is_power_of_2 sz then sz else roundup_pow_of_two sz in
  (exists k, 12 <= k <= 18 /\ sz' = 2 ^ k) /\ sz <= sz' < 2 * sz.
Proof.
  unfold MGPU_RING_SIZE_MIN, MGPU_RING_SIZE_MAX. intros Hsz. cbn zeta.
  destruct (is_power_of_2 sz) eqn:E.
  - split; [|lia]. exists (Z.log2 sz). split.
    + split.
      * change 12 with (Z.log2 (2 ^ 12)). apply Z.log2_le_mono. lia.
      * change 18 with (Z.log2 (2 ^ 18)). apply Z.log2_le_mono. lia.
    + apply is_power_of_2_log2; [lia | exact E].
  - unfold roundup_pow_of_two.
    destruct (Z.log2_up_spec sz ltac:(lia)) as [Hlo Hhi].
    assert (H12 : 12 <= Z.log2_up sz).
    { change 12 with (Z.log2_up (2 ^ 12)). apply Z.log2_up_le_mono. lia. }
    assert (H18 : Z.log2_up sz <= 18).
    { change 18 with (Z.log2_up (2 ^ 18)). apply Z.log2_up_le_mono. lia. }
    split; [exists (Z.log2_up sz); split; [lia | reflexivity]|].
    split; [exact Hhi|].
    replace (Z.log2_up sz) with (Z.succ (Z.pred (Z.log2_up sz))) by lia.
    rewrite Z.pow_succ_r by lia. lia.
Qed.

Lemma mmio_writes_mgpu_write mdev o v :
  mmio_writes (trace (mmio (mgpu_write mdev o v)))
  = mmio_writes (trace (mmio mdev)) ++ [(u32 o, u32 v)].
Proof. cbn. rewrite mmio_writes_app. reflexivity. Qed.

(** X1.  mgpu_ring_create either fails and leaves the device context as
    it was, or returns a ring of the queue asked for: the size asked for lay
    within the bounds, the ring's size is that size rounded up to a power of
    two (less than twice it), the tail is 0, the memory is zeroed and is the
    coherent allocation of that size, the ring cached in the device context
    is not replaced, and the registers written are the base, size, head and
    tail registers of that queue, in this order, and no other. *)
Theorem mgpu_ring_create_result env mdev sz qid :
  match mgpu_ring_create env mdev sz qid with
  | (None, mdev') => mdev' = mdev
  | (Some ring, mdev') =>
    MGPU_RING_SIZE_MIN <= sz <= MGPU_RING_SIZE_MAX /\
    ring_wf ring /\ sz <= size ring < 2 * sz /\
    queue_id ring = qid /\ tail ring = 0 /\
    Forall (fun d => d = 0) (vaddr ring) /\
    dma_alloc_coherent env (size ring) = Some (dma_addr ring) /\
    cmd_ring mdev' = cmd_ring mdev /\
    mmio_writes (trace (mmio mdev')) =
      mmio_writes (trace (mmio mdev)) ++
      [(u32 (MGPU_REG_CMD_BASE + qid * 0x10), u32 (dma_addr ring));
       (u32 (MGPU_REG_CMD_SIZE + qid * 0x10), size ring);
       (u32 (MGPU_REG_CMD_HEAD + qid * 0x10), 0);
       (u32 (MGPU_REG_CMD_TAIL + qid * 0x10), 0)]
  end.
Proof.
  unfold mgpu_ring_create.
  destruct ((sz <? MGPU_RING_SIZE_MIN) || (sz >? MGPU_RING_SIZE_MAX)) eqn:Hr;
    [reflexivity|].
  apply orb_false_iff in Hr as [H1 H2].
  apply Z.ltb_ge in H1. rewrite Z.gtb_ltb in H2. apply Z.ltb_ge in H2.
  destruct (ring_size_rounding sz (conj H1 H2)) as ([k [Hk Hs]] & Hb).
  set (sz' := if is_power_of_2 sz then sz else roundup_pow_of_two sz) in *.
  destruct (negb (kzalloc_ok env)); [reflexivity|].
  destruct (dma_alloc_coherent env sz') as [dma|] eqn:Hdma; [|reflexivity].
  assert (Hp : 4096 <= 2 ^ k <= 262144).
  { split.
    - change 4096 with (2 ^ 12). apply Z.pow_le_mono_r; lia.
    - change 262144 with (2 ^ 18). apply Z.pow_le_mono_r; lia. }
  split; [auto|]. split.
  { unfold ring_wf; cbn. split; [exists k; auto|]. split.
    - rewrite length_replicate. reflexivity.
    - split; [lia|]. rewrite Hs. apply Z.div_str_pos. lia. }
  cbn. split; [exact Hb|]. split; [reflexivity|]. split; [reflexivity|].
  split; [apply Forall_replicate; reflexivity|].
  split; [exact Hdma|]. split; [reflexivity|].
  rewrite !mmio_writes_app. cbn. rewrite <- !app_assoc. cbn.
  unfold lower_32_bits. rewrite (u32_small sz') by lia.
  assert (Hu : forall z, u32 (u32 z) = u32 z).
  { intros z. apply u32_small. apply u32_range. }
  rewrite Hu. reflexivity.
Qed.

Lemma ring_write_loop_bounds k data : forall mem tl,
  10 <= k <= 16 -> 0 <= tl < 2 ^ k ->
  let '(mem', tl') := ring_write_loop mem tl (2 ^ k) data in
  0 <= tl' < 2 ^ k /\ length mem' = length mem.
Proof.
  induction data as [|d rest IH]; intros mem tl Hk Ht.
  - simpl. auto.
  - cbn [ring_write_loop]. rewrite tail_step by assumption.
    pose proof (pow2_bounds k Hk) as Hb.
    assert (Ht' : 0 <= (tl + 1) mod 2 ^ k < 2 ^ k) by (apply Z.mod_pos_bound; lia).
    specialize (IH (<[Z.to_nat tl := d]> mem) ((tl + 1) mod 2 ^ k) Hk Ht').
    destruct (ring_write_loop _ _ _ rest) as [mem' tl'].
    rewrite length_insert in IH. exact IH.
Qed.

Lemma mgpu_ring_write_wf ring data n :
  ring_wf ring -> ring_wf (mgpu_ring_write ring data n).
Proof.
  intros Hwf.
  destruct (ring_wf_size_dw ring Hwf) as [k [Hk Hsz]].
  pose proof (pow2_bounds k Hk) as Hb.
  pose proof Hwf as (Hpow & Hlen & Ht). fold (ring_size_dw ring) in Ht, Hlen.
  unfold mgpu_ring_write. fold (ring_size_dw ring).
  rewrite Hsz in *. rewrite (u32_small (2 ^ k)) by lia.
  pose proof (ring_write_loop_bounds k (take (Z.to_nat n) data) (vaddr ring)
                (tail ring) Hk Ht) as H.
  destruct (ring_write_loop _ _ _ _) as [mem tl]. destruct H as [Htl Hl].
  unfold ring_wf; cbn. split; [exact Hpow|].
  fold (ring_size_dw ring). rewrite Hsz. split; [congruence | exact Htl].
Qed.

Lemma only_slept_ring a b : only_slept a b -> cmd_ring b = cmd_ring a.
Proof. intros (_ & _ & H & _). exact H. Qed.

Lemma only_slept_writes a b :
  only_slept a b -> mmio_writes (trace (mmio b)) = mmio_writes (trace (mmio a)).
Proof. intros (_ & H & _). exact H. Qed.

Lemma submit_commands_cached_wf env mdev args ring :
  cmd_ring mdev = Some ring -> ring_wf ring ->
  ring_ok (mgpu_submit_commands env mdev args).2.
Proof.
  intros Hring Hwf. unfold mgpu_submit_commands, ring_ok.
  destruct (_ || _); [cbn; rewrite Hring; exact Hwf|].
  destruct (MGPU_MAX_QUEUES <=? _); [cbn; rewrite Hring; exact Hwf|].
  rewrite Hring.
  destruct (negb (kmalloc_ok env)); [cbn; rewrite Hring; exact Hwf|].
  destruct (copy_from_user env _ _) as [cmds|]; [|cbn; rewrite Hring; exact Hwf].
  unfold mgpu_ring_wait_space.
  pose proof (ring_wait_space_loop_slept 1000 mdev ring (sub_cmd_size args / 4)) as Hs1.
  destruct (ring_wait_space_loop 1000 mdev ring _) as [ret1 mdev1]. cbn in Hs1.
  destruct (ret1 =? 0); cbn [negb].
  2:{ cbn. rewrite (only_slept_ring _ _ Hs1), Hring. exact Hwf. }
  set (ring1 := mgpu_ring_write ring cmds (sub_cmd_size args / 4)).
  assert (Hwf1 : ring_wf ring1) by (apply mgpu_ring_write_wf; exact Hwf).
  destruct (Z.land (sub_flags args) MGPU_SUBMIT_FLAGS_FENCE =? 0).
  - cbn [negb Z.eqb]. unfold mgpu_ring_kick.
    match goal with |- context [submit_sync_wait ?m ?r ?a] =>
      pose proof (submit_sync_wait_slept m r a) as Hs2;
      destruct (submit_sync_wait m r a) as [ret2 mdev2] end.
    cbn in Hs2 |- *. rewrite (only_slept_ring _ _ Hs2). cbn. exact Hwf1.
  - pose proof (ring_wait_space_loop_slept 1000 (set_cmd_ring mdev1 (Some ring1)) ring1 3) as Hs2.
    destruct (ring_wait_space_loop 1000 (set_cmd_ring mdev1 (Some ring1)) ring1 3) as [ret2 mdev2].
    cbn in Hs2.
    destruct (ret2 =? 0) eqn:Hret2; cbn [negb].
    2:{ rewrite Hret2. cbn. rewrite (only_slept_ring _ _ Hs2). cbn. exact Hwf1. }
    cbn [negb Z.eqb].
    set (ring2 := mgpu_ring_write ring1 (fence_cmd args) 3).
    assert (Hwf2 : ring_wf ring2) by (apply mgpu_ring_write_wf; exact Hwf1).
    unfold mgpu_ring_kick.
    match goal with |- context [submit_sync_wait ?m ?r ?a] =>
      pose proof (submit_sync_wait_slept m r a) as Hs3;
      destruct (submit_sync_wait m r a) as [ret3 mdev3] end.
    cbn in Hs3 |- *. rewrite (only_slept_ring _ _ Hs3). cbn. exact Hwf2.
Qed.

(** X2.  The cached ring stays well formed.  mgpu_cmdq_init leaves no ring
    or a well-formed one (a power-of-two size within the bounds, one memory
    entry per dword, the tail inside the ring), and mgpu_submit_commands
    keeps a device context in that condition, whatever it returns. *)
Theorem mgpu_submit_commands_keeps_ring_ok env mdev args :
  ring_ok (mgpu_cmdq_init env mdev).2 /\
  (ring_ok mdev -> ring_ok (mgpu_submit_commands env mdev args).2).
Proof.
  split.
  - unfold mgpu_cmdq_init, ring_ok.
    pose proof (mgpu_ring_create_result env mdev MGPU_RING_SIZE_MIN 0) as H.
    destruct (mgpu_ring_create env mdev MGPU_RING_SIZE_MIN 0) as [[ring|] m]; cbn;
      [apply H | exact I].
  - intros Hok. unfold ring_ok in Hok.
    destruct (cmd_ring mdev) as [ring|] eqn:Hring.
    + eapply submit_commands_cached_wf; eassumption.
    + destruct ((sub_commands args =? 0) || (sub_cmd_size args =? 0)) eqn:Hv1.
      { unfold mgpu_submit_commands, ring_ok. rewrite Hv1. cbn. rewrite Hring. exact I. }
      destruct (MGPU_MAX_QUEUES <=? sub_queue_id args) eqn:Hv2.
      { unfold mgpu_submit_commands, ring_ok. rewrite Hv1, Hv2. cbn. rewrite Hring. exact I. }
      pose proof (mgpu_ring_create_result env mdev MGPU_RING_SIZE_MIN (sub_queue_id args)) as H.
      destruct (mgpu_ring_create env mdev MGPU_RING_SIZE_MIN (sub_queue_id args))
        as [[ring|] mdev1] eqn:Hcreate.
      * rewrite (submit_commands_lazy _ _ _ _ _ Hring Hv1 Hv2 Hcreate).
        eapply submit_commands_cached_wf; [reflexivity | apply H].
      * unfold mgpu_submit_commands, ring_ok. rewrite Hv1, Hv2, Hring, Hcreate.
        cbn. subst mdev1. rewrite Hring. exact I.
Qed.

Lemma mgpu_submit_commands_keeps_ring_ok_witness :
  ring_ok fresh_ring_mdev /\
  ring_ok (mgpu_submit_commands nop_env fresh_ring_mdev q5_fence_submit).2.
Proof.
  assert (H : ring_ok fresh_ring_mdev).
  { unfold ring_ok. change (cmd_ring fresh_ring_mdev) with (Some fresh_ring).
    split; [exists 12; split; [lia | reflexivity]|].
    split; [vm_compute; reflexivity | vm_compute; split; [discriminate | reflexivity]]. }
  split; [exact H|].
  apply (mgpu_submit_commands_keeps_ring_ok nop_env fresh_ring_mdev q5_fence_submit).
  exact H.
Defined.

Lemma ring_wait_space_loop_ret n : forall mdev ring needed,
  (ring_wait_space_loop n mdev ring needed).1 = 0 \/
  (ring_wait_space_loop n mdev ring needed).1 = - ETIMEDOUT.
Proof.
  induction n as [|n IH]; intros mdev ring needed; cbn [ring_wait_space_loop];
    destruct (mgpu_ring_space mdev ring <? needed); cbn; auto.
Qed.

(** X3.  What a failed submission leaves behind.  On a device with a
    cached ring a submission without the SYNC flag that fails does so with
    -EINVAL, -ENOMEM, -EFAULT or -ETIMEDOUT and has written no register;
    unless it timed out waiting for ring space the device context is exactly
    as before; and without the FENCE flag the cached ring is as before in
    every case. *)
Theorem mgpu_submit_commands_failure env mdev args ring ret mdev' :
  cmd_ring mdev = Some ring ->
  mgpu_submit_commands env mdev args = (ret, mdev') ->
  ret <> 0 ->
  Z.land (sub_flags args) MGPU_SUBMIT_FLAGS_SYNC = 0 ->
  (ret = - EINVAL \/ ret = - ENOMEM \/ ret = - EFAULT \/ ret = - ETIMEDOUT) /\
  mmio_writes (trace (mmio mdev')) = mmio_writes (trace (mmio mdev)) /\
  (ret <> - ETIMEDOUT -> mdev' = mdev) /\
  (Z.land (sub_flags args) MGPU_SUBMIT_FLAGS_FENCE = 0 -> cmd_ring mdev' = Some ring).
Proof.
  intros Hring Hsub Hret Hsync. unfold mgpu_submit_commands in Hsub.
  destruct (_ || _) in Hsub.
  { inversion Hsub; subst. auto 10. }
  destruct (MGPU_MAX_QUEUES <=? _) in Hsub.
  { inversion Hsub; subst. auto 10. }
  rewrite Hring in Hsub.
  destruct (negb (kmalloc_ok env)) in Hsub.
  { inversion Hsub; subst. auto 10. }
  destruct (copy_from_user env _ _) as [cmds|] in Hsub.
  2:{ inversion Hsub; subst. auto 10. }
  unfold mgpu_ring_wait_space in Hsub.
  pose proof (ring_wait_space_loop_slept 1000 mdev ring (sub_cmd_size args / 4)) as Hs1.
  pose proof (ring_wait_space_loop_ret 1000 mdev ring (sub_cmd_size args / 4)) as Hr1.
  destruct (ring_wait_space_loop 1000 mdev ring _) as [ret1 mdev1]. cbn in Hs1, Hr1.
  destruct (ret1 =? 0) eqn:Hret1; cbn [negb] in Hsub.
  2:{ inversion Hsub; subst. apply Z.eqb_neq in Hret1.
      destruct Hr1 as [Hr1|Hr1]; [contradiction|].
      split; [auto|]. split; [apply only_slept_writes; exact Hs1|].
      split; [intros H; contradiction|].
      intros _. rewrite (only_slept_ring _ _ Hs1). exact Hring. }
  unfold submit_sync_wait in Hsub. rewrite Hsync in Hsub. cbn [Z.eqb] in Hsub.
  destruct (Z.land (sub_flags args) MGPU_SUBMIT_FLAGS_FENCE =? 0) eqn:Hfence.
  - cbn [negb Z.eqb] in Hsub. unfold mgpu_ring_kick in Hsub.
    inversion Hsub; subst. contradiction.
  - pose proof (ring_wait_space_loop_slept 1000
                  (set_cmd_ring mdev1
                     (Some (mgpu_ring_write ring cmds (sub_cmd_size args / 4))))
                  (mgpu_ring_write ring cmds (sub_cmd_size args / 4)) 3) as Hs2.
    pose proof (ring_wait_space_loop_ret 1000
                  (set_cmd_ring mdev1
                     (Some (mgpu_ring_write ring cmds (sub_cmd_size args / 4))))
                  (mgpu_ring_write ring cmds (sub_cmd_size args / 4)) 3) as Hr2.
    destruct (ring_wait_space_loop 1000 _ _ 3) as [ret2 mdev2].
    cbn in Hs2, Hr2.
    destruct (ret2 =? 0) eqn:Hret2; cbn [negb] in Hsub.
    + cbn [negb Z.eqb] in Hsub. unfold mgpu_ring_kick in Hsub.
      inversion Hsub; subst. contradiction.
    + rewrite Hret2 in Hsub. cbn [negb] in Hsub. inversion Hsub; subst.
      apply Z.eqb_neq in Hret2. destruct Hr2 as [Hr2|Hr2]; [contradiction|].
      split; [auto|]. split.
      { rewrite (only_slept_writes _ _ Hs2). cbn. apply only_slept_writes. exact Hs1. }
      split; [intros H; contradiction|].
      intros H. apply Z.eqb_neq in Hfence. contradiction.
Qed.

Lemma mgpu_submit_commands_failure_witness :
  cmd_ring fresh_ring_mdev = Some fresh_ring /\
  (mgpu_submit_commands nop_env fresh_ring_mdev unmapped_submit).1 = - EFAULT /\
  (mgpu_submit_commands nop_env fresh_ring_mdev unmapped_submit).2 = fresh_ring_mdev.
Proof.
  assert (Hc : cmd_ring fresh_ring_mdev = Some fresh_ring) by (vm_compute; reflexivity).
  assert (Hr : (mgpu_submit_commands nop_env fresh_ring_mdev unmapped_submit).1
               = - EFAULT) by (vm_compute; reflexivity).
  split; [exact Hc|]. split; [exact Hr|].
  apply (mgpu_submit_commands_failure nop_env fresh_ring_mdev unmapped_submit
           fresh_ring _ _ Hc (surjective_pairing _)).
  - rewrite Hr. vm_compute. discriminate.
  - reflexivity.
  - rewrite Hr. vm_compute. discriminate.
Defined.

Lemma cmdq_suspend_loop_spec polls : forall mdev qid h0 t0,
  (0 < polls)%nat ->
  let '(head, tail, mdev') := cmdq_suspend_loop polls mdev qid h0 t0 in
  only_slept mdev mdev' /\
  exists m, only_slept mdev m /\ only_slept m mdev' /\
    head = mgpu_read m (MGPU_REG_CMD_HEAD + qid * 0x10) /\
    tail = mgpu_read m (MGPU_REG_CMD_TAIL + qid * 0x10) /\
    (head = tail -> mdev' = m).
Proof.
  induction polls as [|n IH]; intros mdev qid h0 t0 Hp; [lia|].
  cbn [cmdq_suspend_loop].
  destruct (mgpu_read mdev (MGPU_REG_CMD_HEAD + qid * 16)
            =? mgpu_read mdev (MGPU_REG_CMD_TAIL + qid * 16)) eqn:E.
  - split; [apply only_slept_refl|]. exists mdev.
    split; [apply only_slept_refl|]. split; [apply only_slept_refl|]. auto.
  - destruct n as [|n].
    + cbn [cmdq_suspend_loop]. split; [apply msleep_only_slept|].
      exists mdev. split; [apply only_slept_refl|].
      split; [apply msleep_only_slept|]. split; [reflexivity|].
      split; [reflexivity|]. intros H. apply Z.eqb_neq in E. contradiction.
    + specialize (IH (msleep mdev 10) qid
                     (mgpu_read mdev (MGPU_REG_CMD_HEAD + qid * 16))
                     (mgpu_read mdev (MGPU_REG_CMD_TAIL + qid * 16)) ltac:(lia)).
      destruct (cmdq_suspend_loop (S n) _ _ _ _) as [[head tail] mdev'].
      destruct IH as (Hs & m & Hm1 & Hm2 & Hh & Ht & Heq).
      split; [eapply only_slept_trans; [apply msleep_only_slept | exact Hs]|].
      exists m. split; [eapply only_slept_trans; [apply msleep_only_slept | exact Hm1]|].
      auto.
Qed.

(** X4.  Suspend and resume of the command queue.  On a device with a
    cached ring, mgpu_cmdq_suspend whose drain loop polls at least once
    returns 0, disables the ring, writes no register and saves in last_head
    the head register as it read it last (having only slept in between; when
    head and tail agree there it stops at once).  mgpu_cmdq_resume then
    returns 0, enables the ring, keeps its memory and tail, and writes the
    ring's bus address, its size, the saved head and the tail to the base,
    size, head and tail registers of the ring's queue, in this order. *)
Theorem mgpu_cmdq_suspend_resume polls head0 tail0 mdev ring :
  cmd_ring mdev = Some ring -> (0 < polls)%nat ->
  exists mdev1 ring1 m,
    mgpu_cmdq_suspend polls head0 tail0 mdev = (0, mdev1) /\
    cmd_ring mdev1 = Some ring1 /\
    enabled ring1 = false /\
    mmio_writes (trace (mmio mdev1)) = mmio_writes (trace (mmio mdev)) /\
    only_slept mdev m /\
    last_head ring1 = mgpu_read m (MGPU_REG_CMD_HEAD + queue_id ring * 0x10) /\
    (last_head ring1 = mgpu_read m (MGPU_REG_CMD_TAIL + queue_id ring * 0x10)
       -> mmio mdev1 = mmio m) /\
    exists mdev2 ring2,
      mgpu_cmdq_resume mdev1 = (0, mdev2) /\
      cmd_ring mdev2 = Some ring2 /\
      enabled ring2 = true /\
      vaddr ring2 = vaddr ring /\ tail ring2 = tail ring /\
      same_ring ring ring2 /\
      mmio_writes (trace (mmio mdev2)) =
        mmio_writes (trace (mmio mdev)) ++
        [(u32 (MGPU_REG_CMD_BASE + queue_id ring * 0x10), u32 (dma_addr ring));
         (u32 (MGPU_REG_CMD_SIZE + queue_id ring * 0x10), u32 (size ring));
         (u32 (MGPU_REG_CMD_HEAD + queue_id ring * 0x10), last_head ring1);
         (u32 (MGPU_REG_CMD_TAIL + queue_id ring * 0x10), u32 (tail ring))].
Proof.
  intros Hring Hp. unfold mgpu_cmdq_suspend. rewrite Hring.
  pose proof (cmdq_suspend_loop_spec polls
                (set_cmd_ring mdev (Some (set_ring_enabled ring false)))
                (queue_id (set_ring_enabled ring false)) head0 tail0 Hp) as H.
  destruct (cmdq_suspend_loop polls _ _ head0 tail0) as [[head tail] mdev'].
  destruct H as (Hs & m & Hm1 & Hm2 & Hh & Ht & Heq).
  exists (set_cmd_ring mdev' (Some (set_last_head (set_ring_enabled ring false) head))),
         (set_last_head (set_ring_enabled ring false) head),
         (set_mmio mdev (mmio m)).
  split; [reflexivity|]. split; [reflexivity|]. split; [reflexivity|].
  split; [cbn; apply (only_slept_writes _ _ Hs)|].
  split.
  { destruct Hm1 as (Hd & Hw & _). unfold only_slept; cbn. auto 10. }
  split; [exact Hh|].
  split.
  { cbn [last_head set_last_head]. intros He. cbn.
    rewrite Heq; [reflexivity|]. rewrite Ht. exact He. }
  unfold mgpu_cmdq_resume. cbn [cmd_ring set_cmd_ring].
  eexists _, _. split; [reflexivity|]. cbn [cmd_ring set_cmd_ring].
  split; [reflexivity|]. split; [reflexivity|]. split; [reflexivity|].
  split; [reflexivity|]. split; [unfold same_ring; cbn; auto|].
  cbn. rewrite !mmio_writes_app. cbn. rewrite <- !app_assoc. cbn.
  pose proof (only_slept_writes _ _ Hs) as Hw. cbn in Hw. rewrite Hw.
  unfold lower_32_bits.
  assert (Hu : forall z, u32 (u32 z) = u32 z).
  { intros z. apply u32_small. apply u32_range. }
  rewrite Hu. rewrite (u32_small head); [reflexivity|].
  rewrite Hh. unfold mgpu_read, mmio_read. apply u32_range.
Qed.

Lemma mgpu_cmdq_suspend_resume_witness :
  cmd_ring fresh_ring_mdev = Some fresh_ring /\
  exists mdev1,
    mgpu_cmdq_suspend 1 0 0 fresh_ring_mdev = (0, mdev1) /\
    (mgpu_cmdq_resume mdev1).1 = 0.
Proof.
  assert (Hc : cmd_ring fresh_ring_mdev = Some fresh_ring) by (vm_compute; reflexivity).
  split; [exact Hc|].
  destruct (mgpu_cmdq_suspend_resume 1 0 0 fresh_ring_mdev fresh_ring Hc)
    as (mdev1 & ring1 & m & Hs & _ & _ & _ & _ & _ & _ & mdev2 & ring2 & Hres & _);
    [lia|].
  exists mdev1. split; [exact Hs|]. rewrite Hres. reflexivity.
Defined.

(** ** Selection and routing in the scheduler *)

Lemma first_ready_some js bucket : forall pos0 pos p j,
  first_ready js bucket pos0 = Some (pos, p, j) ->
  (pos0 <= pos)%nat /\
  bucket !! (pos - pos0)%nat = Some p /\ js !! p = Some j /\
  mgpu_job_is_ready j = true /\
  forall i q j', (i < pos - pos0)%nat -> bucket !! i = Some q ->
                 js !! q = Some j' -> mgpu_job_is_ready j' = false.
Proof.
  induction bucket as [|q rest IH]; intros pos0 pos p j H; [discriminate|].
  cbn [first_ready] in H.
  destruct (js !! q) as [jq|] eqn:Eq.
  - destruct (mgpu_job_is_ready jq) eqn:Er.
    + inversion H; subst. split; [lia|]. rewrite Nat.sub_diag.
      split; [reflexivity|]. split; [exact Eq|]. split; [exact Er|].
      intros i q' j' Hi. lia.
    + apply IH in H as (Hle & Hl & Hj & Hr & Hbefore).
      split; [lia|].
      replace (pos - pos0)%nat with (S (pos - S pos0))%nat by lia.
      split; [exact Hl|]. split; [exact Hj|]. split; [exact Hr|].
      intros i q' j' Hi Hq' Hj'. destruct i as [|i].
      * cbn in Hq'. inversion Hq'; subst. congruence.
      * cbn in Hq'. eapply Hbefore; [|exact Hq'|exact Hj']. lia.
  - apply IH in H as (Hle & Hl & Hj & Hr & Hbefore).
    split; [lia|].
    replace (pos - pos0)%nat with (S (pos - S pos0))%nat by lia.
    split; [exact Hl|]. split; [exact Hj|]. split; [exact Hr|].
    intros i q' j' Hi Hq' Hj'. destruct i as [|i].
    * cbn in Hq'. inversion Hq'; subst. congruence.
    * cbn in Hq'. eapply Hbefore; [|exact Hq'|exact Hj']. lia.
Qed.

Lemma first_ready_none_inv js bucket : forall pos,
  first_ready js bucket pos = None ->
  forall p j, p ∈ bucket -> js !! p = Some j -> mgpu_job_is_ready j = false.
Proof.
  induction bucket as [|q rest IH]; intros pos H p j Hp Hj.
  - inversion Hp.
  - cbn [first_ready] in H. apply elem_of_cons in Hp as [->|Hp].
    + rewrite Hj in H. destruct (mgpu_job_is_ready j); [discriminate | reflexivity].
    + destruct (js !! q) as [jq|].
      * destruct (mgpu_job_is_ready jq); [discriminate|].
        eapply IH; eassumption.
      * eapply IH; eassumption.
Qed.

Lemma scan_priorities_some js buckets n : forall prio pos p j,
  scan_priorities js buckets n = Some (prio, pos, p, j) ->
  (prio < n)%nat /\
  (buckets !!! prio) !! pos = Some p /\ js !! p = Some j /\
  mgpu_job_is_ready j = true /\
  (forall i q j', (i < pos)%nat -> (buckets !!! prio) !! i = Some q ->
                  js !! q = Some j' -> mgpu_job_is_ready j' = false) /\
  (forall prio' q j', (prio < prio' < n)%nat -> q ∈ buckets !!! prio' ->
                      js !! q = Some j' -> mgpu_job_is_ready j' = false).
Proof.
  induction n as [|n IH]; intros prio pos p j H; [discriminate|].
  cbn [scan_priorities] in H.
  destruct (first_ready js (buckets !!! n) 0) as [[[pos1 p1] j1]|] eqn:E.
  - inversion H; subst. apply first_ready_some in E as (_ & Hl & Hj & Hr & Hb).
    rewrite Nat.sub_0_r in Hl, Hb.
    split; [lia|]. split; [exact Hl|]. split; [exact Hj|]. split; [exact Hr|].
    split; [exact Hb|]. intros prio' q j' Hp. lia.
  - apply IH in H as (Hlt & Hl & Hj & Hr & Hb & Hhi).
    split; [lia|]. split; [exact Hl|]. split; [exact Hj|]. split; [exact Hr|].
    split; [exact Hb|]. intros prio' q j' Hp Hq Hj'.
    destruct (Nat.eq_dec prio' n) as [->|Hne].
    + eapply first_ready_none_inv; eassumption.
    + eapply Hhi; [|exact Hq|exact Hj']. lia.
Qed.

Lemma scan_priorities_none_inv js buckets n :
  scan_priorities js buckets n = None ->
  forall prio bucket p j, (prio < n)%nat -> buckets !! prio = Some bucket ->
    p ∈ bucket -> js !! p = Some j -> mgpu_job_is_ready j = false.
Proof.
  induction n as [|n IH]; intros H prio bucket p j Hp Hb Hin Hj; [lia|].
  cbn [scan_priorities] in H.
  destruct (first_ready js (buckets !!! n) 0) as [[[pos1 p1] j1]|] eqn:E;
    [discriminate|].
  destruct (Nat.eq_dec prio n) as [->|Hne].
  - eapply first_ready_none_inv; [exact E| |exact Hj].
    rewrite (list_lookup_total_correct _ _ _ Hb). exact Hin.
  - eapply IH; [exact H| |exact Hb|exact Hin|exact Hj]. lia.
Qed.

Lemma sched_queue_set_queue sched qid q queue :
  sched_queue sched qid = Some q ->
  sched_queue (set_queue sched qid queue) qid = Some queue.
Proof.
  unfold sched_queue, set_queue. cbn. intros H.
  destruct (queues sched !! Z.to_nat qid) as [o|] eqn:E; [|discriminate].
  rewrite list_lookup_insert_eq; [reflexivity|].
  eapply lookup_lt_Some. exact E.
Qed.

Lemma sched_queue_set_job sched p j qid :
  sched_queue (set_job sched p j) qid = sched_queue sched qid.
Proof. reflexivity. Qed.

(** The idle test of mgpu_sched_process_queue. *)
Lemma queue_has_room queue :
  current_job queue = None -> pending_starts queue < queue_depth queue ->
  bool_decide (is_Some (current_job queue))
  || (queue_depth queue <=? pending_starts queue) = false.
Proof.
  intros Hc Hd. rewrite Hc. rewrite bool_decide_eq_false_2 by (intros [x Hx]; discriminate).
  cbn. apply Z.leb_gt. exact Hd.
Qed.

(** X5.  Selection order of mgpu_sched_process_queue.  When a queue with
    no current job and with room has a current job after the pass, that job
    was ready, no job ahead of it in its bucket was ready, no job of a
    bucket of higher priority was ready, the job has left its bucket (which
    is otherwise unchanged), and its state is running. *)
Theorem mgpu_sched_process_queue_order env now mdev sched qid queue p :
  sched_queue sched qid = Some queue ->
  current_job queue = None ->
  pending_starts queue < queue_depth queue ->
  (sched_queue (mgpu_sched_process_queue env now mdev sched qid).2 qid
     ≫= current_job) = Some p ->
  exists prio pos job,
    (prio < MGPU_NUM_PRIORITIES)%nat /\
    (pending queue !!! prio) !! pos = Some p /\
    jobs sched !! p = Some job /\
    mgpu_job_is_ready job = true /\
    (forall i q j, (i < pos)%nat -> (pending queue !!! prio) !! i = Some q ->
                   jobs sched !! q = Some j -> mgpu_job_is_ready j = false) /\
    (forall prio' q j, (prio < prio' < MGPU_NUM_PRIORITIES)%nat ->
                       q ∈ pending queue !!! prio' ->
                       jobs sched !! q = Some j -> mgpu_job_is_ready j = false) /\
    (pending <$> sched_queue (mgpu_sched_process_queue env now mdev sched qid).2 qid)
      = Some (alter (delete pos) prio (pending queue)) /\
    (job_state <$> jobs (mgpu_sched_process_queue env now mdev sched qid).2 !! p)
      = Some MGPU_JOB_RUNNING.
Proof.
  intros Hq Hc Hd Hcur. unfold mgpu_sched_process_queue in *. rewrite Hq in *.
  rewrite (queue_has_room queue Hc Hd) in *.
  destruct (scan_priorities (jobs sched) (pending queue) MGPU_NUM_PRIORITIES)
    as [[[[prio pos] p1] job]|] eqn:Hscan.
  2:{ cbn in Hcur. rewrite Hq in Hcur. cbn in Hcur. congruence. }
  apply scan_priorities_some in Hscan as (Hlt & Hl & Hj & Hr & Hb & Hhi).
  unfold mgpu_queue_submit_job in *. cbn [queue_depth pending_starts set_pending] in *.
  apply Z.leb_gt in Hd. rewrite Hd in *.
  destruct (mgpu_submit_commands env mdev _) as [ret mdev1].
  destruct (ret =? 0) eqn:Hret; cbn [negb] in *.
  - cbn [Z.eqb snd] in *.
    rewrite sched_queue_set_job in *.
    rewrite (sched_queue_set_queue _ _ _ _ Hq) in *. cbn in Hcur.
    inversion Hcur; subst p1.
    exists prio, pos, job. split; [exact Hlt|]. split; [exact Hl|].
    split; [exact Hj|]. split; [exact Hr|]. split; [exact Hb|].
    split; [exact Hhi|]. split; [reflexivity|].
    cbn. rewrite lookup_insert_eq. reflexivity.
  - rewrite Hret in *. cbn [snd] in *.
    rewrite sched_queue_set_job in *.
    rewrite (sched_queue_set_queue _ _ _ _ Hq) in *. cbn in Hcur. discriminate.
Qed.

Lemma mgpu_sched_process_queue_order_witness :
  sched_queue sched_pending_in_bucket 0
    = Some (set_pending (mgpu_queue_create 0) [[]; [1%positive]; []; []]) /\
  (job_state <$>
     jobs (mgpu_sched_process_queue nop_env 0 fresh_ring_mdev
             sched_pending_in_bucket 0).2 !! 1%positive)
    = Some MGPU_JOB_RUNNING.
Proof.
  assert (Hq : sched_queue sched_pending_in_bucket 0
               = Some (set_pending (mgpu_queue_create 0) [[]; [1%positive]; []; []]))
    by reflexivity.
  split; [exact Hq|].
  destruct (mgpu_sched_process_queue_order nop_env 0 fresh_ring_mdev
              sched_pending_in_bucket 0 _ 1%positive Hq)
    as (prio & pos & job & _ & _ & _ & _ & _ & _ & _ & Hstate).
  - reflexivity.
  - vm_compute. reflexivity.
  - vm_compute. reflexivity.
  - exact Hstate.
Defined.

(** X6.  A refused start.  When a queue with no current job and with room
    holds a ready job and still has no current job after the pass of
    mgpu_sched_process_queue, the ring refused the job selected: that job
    is put back at the head of its bucket, ahead of the jobs that were in
    front of it, its state is aborted, so it is not ready any more, its
    completion has not been signalled, and the queue's counters of starts
    and of submitted jobs are unchanged. *)
Theorem mgpu_sched_process_queue_refused env now mdev sched qid queue :
  sched_queue sched qid = Some queue ->
  current_job queue = None ->
  pending_starts queue < queue_depth queue ->
  some_ready (jobs sched) (pending queue) ->
  (sched_queue (mgpu_sched_process_queue env now mdev sched qid).2 qid
     ≫= current_job) = None ->
  exists prio pos p job queue' job',
    (pending queue !!! prio) !! pos = Some p /\
    jobs sched !! p = Some job /\ mgpu_job_is_ready job = true /\
    (mgpu_submit_commands env mdev (job_submit queue job)).1 <> 0 /\
    sched_queue (mgpu_sched_process_queue env now mdev sched qid).2 qid
      = Some queue' /\
    pending queue' = alter (fun b => p :: delete pos b) prio (pending queue) /\
    pending_starts queue' = pending_starts queue /\
    jobs_submitted queue' = jobs_submitted queue /\
    jobs (mgpu_sched_process_queue env now mdev sched qid).2 !! p = Some job' /\
    job_state job' = MGPU_JOB_ABORTED /\
    completion_done job' = completion_done job /\
    mgpu_job_is_ready job' = false.
Proof.
  intros Hq Hc Hd Hready Hcur. unfold mgpu_sched_process_queue in *. rewrite Hq in *.
  rewrite (queue_has_room queue Hc Hd) in *.
  destruct (scan_priorities (jobs sched) (pending queue) MGPU_NUM_PRIORITIES)
    as [[[[prio pos] p] job]|] eqn:Hscan.
  2:{ destruct Hready as (prio & bucket & p & j & Hp & Hb & Hin & Hj & Hr).
      rewrite (scan_priorities_none_inv _ _ _ Hscan prio bucket p j Hp Hb Hin Hj) in Hr.
      discriminate. }
  apply scan_priorities_some in Hscan as (Hlt & Hl & Hj & Hr & Hb & Hhi).
  unfold mgpu_queue_submit_job in *. cbn [queue_depth pending_starts set_pending] in *.
  apply Z.leb_gt in Hd. rewrite Hd in *.
  change (MkSubmit _ _ _ _ _ _) with (job_submit queue job) in *.
  destruct (mgpu_submit_commands env mdev (job_submit queue job))
    as [ret mdev1] eqn:Hsub.
  destruct (ret =? 0) eqn:Hret; cbn [negb] in *.
  - cbn [Z.eqb snd] in *.
    rewrite sched_queue_set_job in *.
    rewrite (sched_queue_set_queue _ _ _ _ Hq) in *. cbn in Hcur. discriminate.
  - rewrite Hret in *. cbn [snd] in *.
    rewrite sched_queue_set_job in *.
    rewrite (sched_queue_set_queue _ _ _ _ Hq) in *.
    eexists prio, pos, p, job, _, _.
    split; [exact Hl|]. split; [exact Hj|]. split; [exact Hr|].
    split; [rewrite Hsub; cbn; apply Z.eqb_neq; exact Hret|].
    split; [reflexivity|].
    split; [cbn; rewrite list_alter_alter_eq; reflexivity|].
    split; [reflexivity|]. split; [reflexivity|].
    split; [cbn; apply lookup_insert_eq|].
    split; [reflexivity|]. split; [reflexivity|].
    unfold mgpu_job_is_ready. cbn. apply andb_false_r.
Qed.

Lemma mgpu_sched_process_queue_refused_witness :
  some_ready (jobs sched_pending_in_bucket) [[]; [1%positive]; []; []] /\
  exists job',
    jobs (mgpu_sched_process_queue no_kmalloc_env 0 fresh_ring_mdev
            sched_pending_in_bucket 0).2 !! 1%positive = Some job' /\
    job_state job' = MGPU_JOB_ABORTED.
Proof.
  assert (Hq : sched_queue sched_pending_in_bucket 0
               = Some (set_pending (mgpu_queue_create 0) [[]; [1%positive]; []; []]))
    by reflexivity.
  assert (Hr : some_ready (jobs sched_pending_in_bucket) [[]; [1%positive]; []; []]).
  { exists 1%nat, [1%positive], 1%positive, nop_job.
    split; [unfold MGPU_NUM_PRIORITIES; lia|].
    split; [reflexivity|]. split; [apply list_elem_of_here|].
    split; [vm_compute; reflexivity | reflexivity]. }
  split; [exact Hr|].
  destruct (mgpu_sched_process_queue_refused no_kmalloc_env 0 fresh_ring_mdev
              sched_pending_in_bucket 0 _ Hq)
    as (prio & pos & p & job & queue' & job' & Hpos & _ & _ & _ & _ & _ & _ & _
        & Hj & Hs & _).
  - reflexivity.
  - vm_compute. reflexivity.
  - exact Hr.
  - vm_compute. reflexivity.
  - assert (p = 1%positive) as ->.
    { cbn [pending set_pending mgpu_queue_create] in Hpos.
      destruct prio as [|[|[|[|prio]]]]; cbn in Hpos.
      - discriminate.
      - destruct pos; cbn in Hpos; [congruence | discriminate].
      - discriminate.
      - discriminate.
      - discriminate. }
    exists job'. split; [exact Hj | exact Hs].
Defined.

(** X7.  Routing of mgpu_sched_submit_job.  For a job of the scheduler the
    function returns 0 or -EINVAL; a job without commands or of size zero is
    refused with -EINVAL and the scheduler is unchanged; and when 0 is
    returned the job is queued, its queue id names one of the scheduler's
    queues (the id it came with when that was in range), it sits at the tail
    of the bucket of its priority in that queue, the queue's current job is
    untouched, and the job counter went up by one. *)
Theorem mgpu_sched_submit_job_routing sched p j ret sched' :
  jobs sched !! p = Some j ->
  0 < num_queues sched -> 0 <= job_queue_id j ->
  mgpu_sched_submit_job sched (Some p) = (ret, sched') ->
  (ret = 0 \/ ret = - EINVAL) /\
  (job_commands j = 0 \/ job_cmd_size j = 0 -> ret = - EINVAL /\ sched' = sched) /\
  (ret = 0 ->
   exists j' queue queue',
     jobs sched' !! p = Some j' /\
     job_state j' = MGPU_JOB_QUEUED /\
     0 <= job_queue_id j' < num_queues sched /\
     (job_queue_id j < num_queues sched -> job_queue_id j' = job_queue_id j) /\
     sched_queue sched (job_queue_id j') = Some queue /\
     sched_queue sched' (job_queue_id j') = Some queue' /\
     pending queue' =
       alter (fun b => b ++ [p]) (priority_index (job_priority j)) (pending queue) /\
     current_job queue' = current_job queue /\
     total_jobs sched' = u64 (total_jobs sched + 1)).
Proof.
  intros Hj Hn Hq H. unfold mgpu_sched_submit_job in H. cbn in H.
  rewrite Hj in H. cbn in H.
  destruct ((job_commands j =? 0) || (job_cmd_size j =? 0)) eqn:Hv.
  { inversion H; subst. split; [auto|]. split; [auto|]. discriminate. }
  apply orb_false_iff in Hv as [Hv1 Hv2].
  apply Z.eqb_neq in Hv1, Hv2.
  set (j1 := if num_queues sched <=? job_queue_id j then _ else j) in H.
  assert (Hr : 0 <= job_queue_id j1 < num_queues sched /\
               (job_queue_id j < num_queues sched -> job_queue_id j1 = job_queue_id j) /\
               job_priority j1 = job_priority j).
  { subst j1. destruct (num_queues sched <=? job_queue_id j) eqn:E.
    - apply Z.leb_le in E. cbn. split; [|split; [lia | reflexivity]].
      destruct (job_type j); try lia.
      + destruct (1 <? num_queues sched) eqn:E1; [apply Z.ltb_lt in E1|]; lia.
      + destruct (2 <? num_queues sched) eqn:E2; [apply Z.ltb_lt in E2|]; lia.
    - apply Z.leb_gt in E. split; [lia|]. split; reflexivity. }
  destruct Hr as (Hr1 & Hr2 & Hr3).
  rewrite sched_queue_set_job in H.
  destruct (sched_queue sched (job_queue_id j1)) as [queue|] eqn:Hqueue.
  2:{ inversion H; subst. split; [auto|]. split; [|discriminate].
      intros [?|?]; contradiction. }
  inversion H; subst ret sched'; clear H.
  split; [auto|]. split; [intros [?|?]; contradiction|].
  intros _. eexists _, queue, _.
  split; [cbn; apply lookup_insert_eq|]. split; [reflexivity|].
  cbn [job_queue_id set_job_state].
  split; [exact Hr1|]. split; [exact Hr2|]. split; [exact Hqueue|].
  split.
  { cbn. apply (sched_queue_set_queue (set_job sched p j1) _ queue). exact Hqueue. }
  split; [cbn; rewrite Hr3; reflexivity|]. split; reflexivity.
Qed.

Lemma mgpu_sched_submit_job_routing_witness :
  jobs sched_with_nop !! 1%positive = Some nop_job /\
  (mgpu_sched_submit_job sched_with_nop (Some 1%positive)).1 = 0 /\
  total_jobs (mgpu_sched_submit_job sched_with_nop (Some 1%positive)).2 = 1.
Proof.
  assert (Hj : jobs sched_with_nop !! 1%positive = Some nop_job)
    by (vm_compute; reflexivity).
  assert (H0 : (mgpu_sched_submit_job sched_with_nop (Some 1%positive)).1 = 0)
    by (vm_compute; reflexivity).
  split; [exact Hj|]. split; [exact H0|].
  assert (Hn : 0 < num_queues sched_with_nop) by reflexivity.
  assert (Hi : 0 <= job_queue_id nop_job) by (vm_compute; discriminate).
  destruct (mgpu_sched_submit_job_routing sched_with_nop 1%positive nop_job _ _
              Hj Hn Hi (surjective_pairing _)) as (_ & _ & Hok).
  destruct (Hok H0) as (j' & queue & queue' & _ & _ & _ & _ & _ & _ & _ & _ & Ht).
  rewrite Ht. reflexivity.
Defined.

Lemma msecs_to_jiffies_nonneg hz m :
  0 < hz <= 1000 -> 0 <= m -> 0 <= msecs_to_jiffies hz m.
Proof.
  intros Hhz Hm. unfold msecs_to_jiffies. cbv zeta.
  pose proof (u32_range m) as Hu.
  assert (Hk : 1 <= 1000 / hz) by (apply Z.div_le_lower_bound; lia).
  destruct (2 ^ 31 <=? u32 m); [vm_compute; discriminate|].
  apply Z.div_pos; lia.
Qed.

(** X8.  Waiting for a job that has completed.  Whatever the timeout,
    zero included, mgpu_sched_wait_job returns the job's result at once,
    without sleeping, consumes one completion and leaves the job's state as
    it is: a completed job is never reported as timed out. *)
Theorem mgpu_sched_wait_job_completed hz wakes job timeout_ms :
  0 < hz <= 1000 -> 0 <= timeout_ms ->
  0 < completion_done job ->
  mgpu_sched_wait_job hz wakes job timeout_ms
  = Some (job_result job,
          set_completion_done job (completion_done job - 1)).
Proof.
  intros Hhz Hms Hd.
  pose proof (msecs_to_jiffies_nonneg hz timeout_ms Hhz Hms) as Ht.
  unfold mgpu_sched_wait_job, wait_for_completion_timeout.
  destruct (completion_done job =? 0) eqn:E; [apply Z.eqb_eq in E; lia|].
  destruct (msecs_to_jiffies hz timeout_ms =? 0) eqn:E0.
  - reflexivity.
  - rewrite E0.
    destruct (msecs_to_jiffies hz timeout_ms <? 0) eqn:E1;
      [apply Z.ltb_lt in E1; lia | reflexivity].
Qed.

Lemma mgpu_sched_wait_job_completed_witness :
  0 < completion_done completed_job /\
  mgpu_sched_wait_job 1000 quiet_timeout completed_job 0
  = Some (0, set_completion_done completed_job 0).
Proof.
  split; [reflexivity|].
  apply (mgpu_sched_wait_job_completed 1000 quiet_timeout completed_job 0).
  - lia.
  - lia.
  - reflexivity.
Defined.

(** ** Fence emission, processing and bounded waits *)

(** X9.  An address that mgpu_fence_emit refuses with -EINVAL (outside
    the fence page) is one at which mgpu_fence_signaled reports every value
    as signaled, so that mgpu_wait_fence on it returns 0 at once, for every
    value and timeout, and leaves the device context as it is. *)
Theorem mgpu_fence_emit_refused hz wakes sig self mdev addr value :
  mgpu_fence_emit mdev addr value = - EINVAL ->
  forall v t,
    mgpu_fence_signaled mdev addr v = true /\
    mgpu_wait_fence hz wakes sig self mdev (MkWaitFence addr v t) = Some (0, mdev).
Proof.
  unfold mgpu_fence_emit, mgpu_wait_fence, mgpu_fence_signaled. intros H v t.
  destruct (fence_ctx mdev) as [ctx|] eqn:E; [|discriminate].
  cbn [wf_fence_addr wf_fence_value].
  destruct ((addr <? fence_dma_addr ctx)
            || (u64 (fence_dma_addr ctx + PAGE_SIZE) <=? addr)); [|discriminate].
  split; reflexivity.
Qed.

Lemma mgpu_fence_emit_refused_witness :
  mgpu_fence_emit fence_mdev 0x20000000 7 = - EINVAL /\
  mgpu_wait_fence 1000 [] false 0x7ffe0000 fence_mdev
                  (MkWaitFence 0x20000000 100 50)
    = Some (0, fence_mdev).
Proof.
  assert (He : mgpu_fence_emit fence_mdev 0x20000000 7 = - EINVAL)
    by (vm_compute; reflexivity).
  split; [exact He|].
  apply (mgpu_fence_emit_refused 1000 [] false 0x7ffe0000 fence_mdev
           0x20000000 7 He 100 50).
Defined.

Lemma fence_process_loop_spec l : forall hw wake,
  let r := fence_process_loop hw l wake in
  length r.1 = length l /\
  (forall i e, l !! i = Some e ->
     exists e', r.1 !! i = Some e' /\ e'.1 = e.1 /\
       fw_value e'.2 = fw_value e.2 /\
       fw_signaled e'.2
       = fw_signaled e.2 || (fw_value e.2 <=? u32 (hw i))) /\
  (r.2 = true <->
   wake = true \/
   exists i e, l !! i = Some e /\ fw_signaled e.2 = false /\
               fw_value e.2 <= u32 (hw i)).
Proof.
  induction l as [|[a w] rest IH]; intros hw wake; cbv zeta.
  - cbn. split; [reflexivity|]. split; [intros i e H; discriminate|].
    split; [auto|]. intros [H | (i & e & H & _)]; [exact H | discriminate].
  - cbn [fence_process_loop].
    set (hw' := fun i => hw (S i)).
    assert (Hcons : forall wake0 w',
      fw_value w' = fw_value w ->
      fw_signaled w' = fw_signaled w || (fw_value w <=? u32 (hw O)) ->
      (wake0 = true <->
       wake = true \/ (fw_signaled w = false /\ fw_value w <= u32 (hw O))) ->
      let r := fence_process_loop hw' rest wake0 in
      length ((a, w') :: r.1) = length ((a, w) :: rest) /\
      (forall i e, ((a, w) :: rest) !! i = Some e ->
         exists e', ((a, w') :: r.1) !! i = Some e' /\ e'.1 = e.1 /\
           fw_value e'.2 = fw_value e.2 /\
           fw_signaled e'.2
           = fw_signaled e.2 || (fw_value e.2 <=? u32 (hw i))) /\
      (r.2 = true <->
       wake = true \/
       exists i e, ((a, w) :: rest) !! i = Some e /\ fw_signaled e.2 = false /\
                   fw_value e.2 <= u32 (hw i))).
    { intros wake0 w' Hv Hs Hw. cbv zeta.
      destruct (IH hw' wake0) as (Hl & He & Hk). cbv zeta in Hl, He, Hk.
      split; [cbn; rewrite Hl; reflexivity|]. split.
      - intros [|i] e Hi.
        + cbn in Hi. injection Hi as <-. exists (a, w'). cbn. auto.
        + cbn in Hi. destruct (He i e Hi) as (e' & H1 & H2). exists e'. cbn. auto.
      - rewrite Hk, Hw. split.
        + intros [[H | [H1 H2]] | (i & e & H1 & H2)].
          * left; exact H.
          * right. exists O, (a, w). cbn. auto.
          * right. exists (S i), e. cbn. auto.
        + intros [H | ([|i] & e & H1 & H2 & H3)].
          * left; left; exact H.
          * cbn in H1. injection H1 as <-. cbn in H2, H3. left; right; auto.
          * right. exists i, e. cbn in H1. auto. }
    destruct (fw_signaled w) eqn:Es; cbn [negb].
    + specialize (Hcons wake w eq_refl). cbv zeta in Hcons.
      destruct (fence_process_loop hw' rest wake) as [l' wake'] eqn:E. cbn [fst snd] in *.
      apply Hcons.
      * cbn; rewrite ?Es; reflexivity.
      * split; [auto|]. intros [H | [H _]]; [exact H | discriminate].
    + destruct (fw_value w <=? u32 (hw O)) eqn:Ev.
      * specialize (Hcons true (MkFenceWait (fw_value w) true) eq_refl).
        cbv zeta in Hcons.
        destruct (fence_process_loop hw' rest true) as [l' wake'] eqn:E.
        cbn [fst snd] in *. apply Hcons.
        -- cbn; rewrite ?Es, ?Ev; reflexivity.
        -- apply Z.leb_le in Ev. split; auto.
      * specialize (Hcons wake w eq_refl). cbv zeta in Hcons.
        destruct (fence_process_loop hw' rest wake) as [l' wake'] eqn:E.
        cbn [fst snd] in *. apply Hcons.
        -- cbn; rewrite ?Es, ?Ev; reflexivity.
        -- apply Z.leb_gt in Ev. split; [auto|].
           intros [H | [_ H]]; [exact H | lia].
Qed.

(** X10.  mgpu_fence_process writes no register, leaves ring and fence
    page alone (mgpu_fence_signaled answers as before) and keeps the wait
    list entry by entry, with the same waiters and values.  Whatever the
    fence value register returns from one read to the next, an entry is
    flagged signaled afterwards exactly when it was before or its value does
    not exceed what the read made for it returned, so no flag is ever
    cleared; and the waiters are woken exactly when some entry that was not
    flagged has a value that its read had reached. *)
Theorem mgpu_fence_process_flags hw mdev :
  let r := mgpu_fence_process hw mdev in
  mmio r.2 = mmio mdev /\
  cmd_ring r.2 = cmd_ring mdev /\
  (forall addr value,
      mgpu_fence_signaled r.2 addr value = mgpu_fence_signaled mdev addr value) /\
  match fence_ctx mdev with
  | None => r = (false, mdev)
  | Some ctx =>
    exists ctx', fence_ctx r.2 = Some ctx' /\
      cpu_addr ctx' = cpu_addr ctx /\ fence_dma_addr ctx' = fence_dma_addr ctx /\
      seqno ctx' = seqno ctx /\
      length (wait_list ctx') = length (wait_list ctx) /\
      (forall i e, wait_list ctx !! i = Some e ->
         exists e', wait_list ctx' !! i = Some e' /\ e'.1 = e.1 /\
           fw_value e'.2 = fw_value e.2 /\
           fw_signaled e'.2
           = fw_signaled e.2 || (fw_value e.2 <=? u32 (hw i))) /\
      (r.1 = true <->
       exists i e, wait_list ctx !! i = Some e /\ fw_signaled e.2 = false /\
                   fw_value e.2 <= u32 (hw i))
  end.
Proof.
  cbv zeta. unfold mgpu_fence_process.
  destruct (fence_ctx mdev) as [ctx|] eqn:E.
  2:{ cbn. auto. }
  pose proof (fence_process_loop_spec (wait_list ctx) hw false) as H.
  cbv zeta in H.
  destruct (fence_process_loop hw (wait_list ctx) false) as [l wake].
  destruct H as (H1 & H2 & H3). cbn [snd fst] in *.
  split; [reflexivity|]. split; [reflexivity|].
  split.
  { intros addr value. unfold mgpu_fence_signaled. cbn. rewrite E. reflexivity. }
  eexists. split; [reflexivity|]. cbn [cpu_addr fence_dma_addr seqno wait_list set_wait_list].
  split; [reflexivity|]. split; [reflexivity|]. split; [reflexivity|].
  split; [exact H1|]. split; [exact H2|].
  rewrite H3. split.
  - intros [H | H]; [discriminate | exact H].
  - intros H. right. exact H.
Qed.

(** The register moving between two reads of one pass: of two waiters for
    the value 7 the first, whose read returns 5, stays as it is, and the
    second, whose read returns 9, is flagged; the waiters are woken. *)
Lemma mgpu_fence_process_register_moves :
  (mgpu_fence_process (fun i => if Nat.eqb i 0 then 5 else 9) two_waiters_mdev).1
    = true /\
  (map (fun e => fw_signaled e.2) <$>
     (wait_list <$>
        fence_ctx (mgpu_fence_process (fun i => if Nat.eqb i 0 then 5 else 9)
                                      two_waiters_mdev).2))
    = Some [false; true].
Proof. split; vm_compute; reflexivity. Qed.







(** ** Hang and error checks of the health monitor *)




Lemma error_code_recoverable code :
  (mgpu_get_error_info code).2 = (1 <=? code) && (code <=? 5).
Proof.
  unfold mgpu_get_error_info, mgpu_error_table. cbn [error_table_find fst].
  destruct (0 =? code) eqn:E0; [apply Z.eqb_eq in E0; subst; reflexivity|].
  destruct (1 =? code) eqn:E1; [apply Z.eqb_eq in E1; subst; reflexivity|].
  destruct (2 =? code) eqn:E2; [apply Z.eqb_eq in E2; subst; reflexivity|].
  destruct (3 =? code) eqn:E3; [apply Z.eqb_eq in E3; subst; reflexivity|].
  destruct (4 =? code) eqn:E4; [apply Z.eqb_eq in E4; subst; reflexivity|].
  destruct (5 =? code) eqn:E5; [apply Z.eqb_eq in E5; subst; reflexivity|].
  apply Z.eqb_neq in E0, E1, E2, E3, E4, E5. cbn.
  destruct (1 <=? code) eqn:L1; [|reflexivity].
  destruct (code <=? 5) eqn:L5; [|reflexivity].
  apply Z.leb_le in L1, L5. lia.
Qed.

(** X13.  The outcome of mgpu_health_check_errors.  It returns 1 for the
    error bit plus 1 for the halted bit of the status register; with the
    error bit set the counters of errors and of consecutive errors go up by
    one, without it the consecutive count falls back to 0; the status
    register is written (the error bit cleared) exactly when the error bit
    is set and the error code is one of the recoverable ones, 1 to 5, and no
    other register is written; the reset bookkeeping is untouched. *)
Theorem mgpu_health_check_errors_outcome ktime monitor mdev :
  let status := mgpu_read mdev MGPU_REG_STATUS in
  let code := Z.land (Z.shiftr status 16) 0xFF in
  let err := negb (Z.land status MGPU_STATUS_ERROR =? 0) in
  let halted := negb (Z.land status MGPU_STATUS_HALTED =? 0) in
  let r := mgpu_health_check_errors ktime monitor mdev in
  r.1.1 = (if err then 1 else 0) + (if halted then 1 else 0) /\
  consecutive_errors r.1.2 =
    (if err then u32 (consecutive_errors monitor + 1) else 0) /\
  error_count r.1.2 =
    (if err then u64 (error_count monitor + 1) else error_count monitor) /\
  mmio_writes (trace (mmio r.2)) =
    mmio_writes (trace (mmio mdev)) ++
    (if err && (1 <=? code) && (code <=? 5)
     then [(MGPU_REG_STATUS, u32 (Z.land status (Z.lnot MGPU_STATUS_ERROR)))]
     else []) /\
  reset_state r.2 = reset_state mdev.
Proof.
  cbv zeta. unfold mgpu_health_check_errors.
  destruct (Z.land (mgpu_read mdev MGPU_REG_STATUS) MGPU_STATUS_ERROR =? 0) eqn:Ee;
    cbn [negb andb].
  - destruct (Z.land (mgpu_read mdev MGPU_REG_STATUS) MGPU_STATUS_HALTED =? 0);
      cbn; rewrite app_nil_r; auto.
  - rewrite error_code_recoverable.
    destruct ((1 <=? _) && (_ <=? 5));
      destruct (Z.land (mgpu_read mdev MGPU_REG_STATUS) MGPU_STATUS_HALTED =? 0);
      cbn; rewrite ?mmio_writes_app, ?app_nil_r; auto.
Qed.

Lemma reset_state_schedule_congr a b :
  reset_state a = reset_state b ->
  reset_state (mgpu_reset_schedule a) = reset_state (mgpu_reset_schedule b).
Proof.
  unfold reset_state. intros H. inversion H as [[Hi Hc Hp]].
  unfold mgpu_reset_schedule, schedule_delayed_work. rewrite Hi.
  destruct (negb (in_reset b =? 0)); cbn; [congruence|].
  rewrite Hp, Hc. destruct (reset_work_pending b) eqn:Eb; cbn;
    rewrite ?Hi, ?Hp, ?Eb; reflexivity.
Qed.

(** X14.  The error threshold of mgpu_health_check.  On a device whose
    scratch register echoes the heartbeat and which never shows busy, a pass
    schedules a reset (recovery counter up by one, mgpu_reset_schedule
    called) exactly when the status shows the error bit and this makes the
    count of consecutive errors reach 10; otherwise recovery counter and
    reset bookkeeping are unchanged.  The heartbeat miss counter is
    unchanged either way. *)
Theorem mgpu_health_check_error_threshold hz jiffies ktime monitor mdev :
  let beat := u32 (heartbeat_counter monitor + 1) in
  let m1 := mgpu_write mdev MGPU_REG_SCRATCH beat in
  mgpu_read m1 MGPU_REG_SCRATCH = beat ->
  (forall t, Z.land (u32 (device (mmio mdev) t MGPU_REG_STATUS))
                    MGPU_STATUS_BUSY = 0) ->
  let status := mgpu_read m1 MGPU_REG_STATUS in
  let err := negb (Z.land status MGPU_STATUS_ERROR =? 0) in
  let over := err && (MGPU_ERROR_THRESHOLD <=? u32 (consecutive_errors monitor + 1)) in
  let r := mgpu_health_check hz jiffies ktime monitor mdev in
  consecutive_errors r.1 =
    (if err then u32 (consecutive_errors monitor + 1) else 0) /\
  heartbeat_misses r.1 = heartbeat_misses monitor /\
  recovery_count r.1 =
    (if over then u64 (recovery_count monitor + 1) else recovery_count monitor) /\
  reset_state r.2 =
    (if over then reset_state (mgpu_reset_schedule mdev) else reset_state mdev).
Proof.
  intros beat m1 Hecho Hidle status err over r.
  subst r over err status. unfold mgpu_health_check.
  unfold mgpu_health_check_heartbeat.
  cbn [heartbeat_counter set_heartbeat_counter set_last_check set_check_count].
  fold beat. fold m1. rewrite Hecho, Z.eqb_refl. cbn [negb].
  unfold mgpu_health_check_errors.
  set (status := mgpu_read m1 MGPU_REG_STATUS).
  assert (Hnb : forall m, device (mmio m) = device (mmio mdev) ->
                          (Z.land (mgpu_read m MGPU_REG_STATUS) MGPU_STATUS_BUSY =? 0) = true).
  { intros m Hm. apply Z.eqb_eq. unfold mgpu_read, mmio_read. rewrite Hm. apply Hidle. }
  destruct (MGPU_ERROR_THRESHOLD <=? u32 (consecutive_errors monitor + 1)) eqn:Et.
  all: destruct (Z.land status MGPU_STATUS_ERROR =? 0) eqn:Ee; cbn [negb andb].
  all: unfold mgpu_health_check_hang.
  all: try (rewrite (Hnb m1) by reflexivity).
  all: try (destruct (mgpu_get_error_info _).2;
            [rewrite (Hnb (mgpu_write m1 _ _)) by reflexivity
            |rewrite (Hnb m1) by reflexivity]).
  all: destruct (Z.land status MGPU_STATUS_HALTED =? 0); cbn [negb].
  all: change (0 <? 1) with true; change (0 <? 1 + 1) with true;
       change (0 <? 0) with false; change (0 <? 0 + 1) with true.
  all: cbn [consecutive_errors heartbeat_misses recovery_count
            set_recovery_count set_consecutive_errors set_last_error
            set_error_count set_last_heartbeat set_heartbeat_counter
            set_last_check set_check_count fst snd].
  all: rewrite ?Et.
  all: cbn [consecutive_errors heartbeat_misses recovery_count
            set_recovery_count set_consecutive_errors set_last_error
            set_error_count set_last_heartbeat set_heartbeat_counter
            set_last_check set_check_count fst snd].
  all: split; [reflexivity|]; split; [reflexivity|]; split; [reflexivity|].
  all: try reflexivity.
  all: try (apply reset_state_schedule_congr; reflexivity).
  all: change (MGPU_ERROR_THRESHOLD <=? 0) with false; reflexivity.
Qed.

Lemma mgpu_health_check_error_threshold_witness :
  recovery_count
    (mgpu_health_check 1000 0 0 nine_errors_monitor
                       (fresh_mdev (failing_device 9))).1 = 1 /\
  reset_state
    (mgpu_health_check 1000 0 0 nine_errors_monitor
                       (fresh_mdev (failing_device 9))).2
    = reset_state (mgpu_reset_schedule (fresh_mdev (failing_device 9))).
Proof.
  pose proof (mgpu_health_check_error_threshold 1000 0 0 nine_errors_monitor
                (fresh_mdev (failing_device 9))) as H.
  cbv zeta in H. destruct H as (_ & _ & H3 & H4).
  - vm_compute. reflexivity.
  - intros t. vm_compute. reflexivity.
  - split.
    + rewrite H3. vm_compute. reflexivity.
    + rewrite H4. vm_compute. reflexivity.
Defined.

Lemma selftest_loop_spec patterns : forall mdev ret,
  (ret = 0 \/ ret = - EIO) ->
  let r := selftest_loop mdev patterns ret in
  r.2 = after_scratch_writes mdev patterns /\
  (r.1 = 0 \/ r.1 = - EIO) /\
  (r.1 = 0 <->
   ret = 0 /\
   forall i p, patterns !! i = Some p ->
     mgpu_read (after_scratch_writes mdev (take (S i) patterns)) MGPU_REG_SCRATCH = p).
Proof.
  induction patterns as [|p rest IH]; intros mdev ret Hret; cbv zeta.
  - cbn. split; [reflexivity|]. split; [exact Hret|].
    split; [intros H; split; [exact H|]; intros i q Hq; discriminate|].
    intros [H _]. exact H.
  - cbn [selftest_loop].
    set (m1 := mgpu_write mdev MGPU_REG_SCRATCH p).
    set (ret1 := if negb (mgpu_read m1 MGPU_REG_SCRATCH =? p) then - EIO else ret).
    assert (Hret1 : ret1 = 0 \/ ret1 = - EIO).
    { subst ret1. destruct (negb _); [right; reflexivity | exact Hret]. }
    destruct (IH m1 ret1 Hret1) as (H2 & Hr & Hiff).
    split; [exact H2|]. split; [exact Hr|].
    rewrite Hiff. subst ret1. split.
    + intros [H0 Hall].
      destruct (mgpu_read m1 MGPU_REG_SCRATCH =? p) eqn:E; cbn [negb] in H0;
        [|discriminate].
      split; [exact H0|]. intros i q Hq. destruct i as [|i].
      * cbn in Hq. inversion Hq; subst q.
        change (take 1 (p :: rest)) with (p :: take 0 rest).
        rewrite take_0. cbn. apply Z.eqb_eq. exact E.
      * cbn in Hq. exact (Hall i q Hq).
    + intros [H0 Hall]. pose proof (Hall 0%nat p eq_refl) as Hp.
      change (take 1 (p :: rest)) with (p :: take 0 rest) in Hp.
      rewrite take_0 in Hp. cbn in Hp.
      fold m1 in Hp. rewrite Hp, Z.eqb_refl. cbn [negb].
      split; [exact H0|]. intros i q Hq. exact (Hall (S i) q Hq).
Qed.

Lemma after_scratch_writes_trace patterns : forall mdev,
  mmio_writes (trace (mmio (after_scratch_writes mdev patterns)))
  = mmio_writes (trace (mmio mdev))
    ++ map (fun p => (MGPU_REG_SCRATCH, u32 p)) patterns.
Proof.
  induction patterns as [|p rest IH]; intros mdev.
  - cbn. rewrite app_nil_r. reflexivity.
  - cbn [after_scratch_writes foldl]. fold (after_scratch_writes
      (mgpu_write mdev MGPU_REG_SCRATCH p) rest).
    rewrite IH, mmio_writes_mgpu_write, <- app_assoc. reflexivity.
Qed.

(** X15.  mgpu_run_selftest writes the four test patterns to the scratch
    register, in order, whatever it reads back, and nothing else; it returns
    0 or -EIO, and 0 exactly when every pattern read back as written and the
    version register reads neither 0 nor 0xFFFFFFFF. *)
Theorem mgpu_run_selftest_verdict mdev :
  let r := mgpu_run_selftest mdev in
  let version := mgpu_read r.2 MGPU_REG_VERSION in
  mmio_writes (trace (mmio r.2)) =
    mmio_writes (trace (mmio mdev))
    ++ map (fun p => (MGPU_REG_SCRATCH, p)) selftest_patterns /\
  (r.1 = 0 \/ r.1 = - EIO) /\
  (r.1 = 0 <->
   (forall i p, selftest_patterns !! i = Some p ->
      mgpu_read (after_scratch_writes mdev (take (S i) selftest_patterns))
                MGPU_REG_SCRATCH = p) /\
   version <> 0 /\ version <> 0xFFFFFFFF).
Proof.
  cbv zeta. unfold mgpu_run_selftest.
  pose proof (selftest_loop_spec selftest_patterns mdev 0 (or_introl eq_refl)) as H.
  cbv zeta in H.
  destruct (selftest_loop mdev selftest_patterns 0) as [ret m].
  cbn [fst snd] in H |- *. destruct H as (Hm & Hr & Hiff).
  split; [rewrite Hm; apply after_scratch_writes_trace|].
  destruct (mgpu_read m MGPU_REG_VERSION =? 0) eqn:E0; cbn [orb].
  { split; [right; reflexivity|]. split; [discriminate|].
    intros (_ & Hv & _). apply Z.eqb_eq in E0. contradiction. }
  destruct (mgpu_read m MGPU_REG_VERSION =? 4294967295) eqn:E1.
  { split; [right; reflexivity|]. split; [discriminate|].
    intros (_ & _ & Hv). apply Z.eqb_eq in E1. contradiction. }
  apply Z.eqb_neq in E0, E1.
  split; [exact Hr|]. rewrite Hiff. split.
  - intros [_ Hall]. auto.
  - intros (Hall & _ & _). auto.
Qed.

(** ** Reset polls and waits *)

Lemma poll_idle_loop_first_idle n : forall mdev k,
  (k < n)%nat ->
  (forall i, (i < k)%nat -> shows_idle (after_sleeps i mdev) = false) ->
  shows_idle (after_sleeps k mdev) = true ->
  poll_idle_loop n mdev = (Z.of_nat (n - 1 - k), after_sleeps k mdev).
Proof.
  induction n as [|n IH]; intros mdev k Hk Hbefore Hidle; [lia|].
  cbn [poll_idle_loop]. destruct k as [|k].
  - cbn in Hidle. unfold shows_idle in Hidle. rewrite Hidle.
    cbn. do 2 f_equal. lia.
  - pose proof (Hbefore 0%nat ltac:(lia)) as H0. cbn in H0.
    unfold shows_idle in H0. rewrite H0.
    rewrite (IH (msleep mdev 1) k); [| lia | | exact Hidle].
    + cbn [after_sleeps]. f_equal. f_equal. lia.
    + intros i Hi. apply (Hbefore (S i)). lia.
Qed.

Lemma poll_idle_loop_never n : forall mdev,
  (forall i, (i < n)%nat -> shows_idle (after_sleeps i mdev) = false) ->
  poll_idle_loop n mdev = (-1, after_sleeps n mdev).
Proof.
  induction n as [|n IH]; intros mdev Hnever; [reflexivity|].
  cbn [poll_idle_loop].
  pose proof (Hnever 0%nat ltac:(lia)) as H0. cbn in H0.
  unfold shows_idle in H0. rewrite H0.
  rewrite IH; [reflexivity|].
  intros i Hi. apply (Hnever (S i)). lia.
Qed.

(** With no idle status in the first [n] of [n + 1] polls the loop leaves
    its counter at 0 or at -1. *)
Lemma poll_idle_loop_late n mdev :
  (forall i, (i < n)%nat -> shows_idle (after_sleeps i mdev) = false) ->
  (poll_idle_loop (S n) mdev).1 <= 0.
Proof.
  intros Hnever.
  destruct (shows_idle (after_sleeps n mdev)) eqn:E.
  - rewrite (poll_idle_loop_first_idle (S n) mdev n); [cbn; lia | lia | exact Hnever | exact E].
  - rewrite poll_idle_loop_never; [cbn; lia|].
    intros i Hi. destruct (Nat.eq_dec i n) as [->|Hne]; [exact E|].
    apply Hnever. lia.
Qed.

(** X16.  The idle window of the reset polls.  mgpu_core_reset polls the
    status up to 100 times, but succeeds only when idle shows at one of the
    first 99 polls (it then acknowledges all interrupts); when it does not,
    the result is -ETIMEDOUT, also when the 100th poll would read idle.
    Likewise mgpu_reset_hw returns -ETIMEDOUT when none of its first 999
    polls reads idle. *)
Theorem mgpu_core_reset_idle_window mdev :
  ((exists k, (k < 99)%nat /\
      (forall i, (i < k)%nat ->
         shows_idle (after_sleeps i (core_reset_released mdev)) = false) /\
      shows_idle (after_sleeps k (core_reset_released mdev)) = true /\
      mgpu_core_reset mdev
      = (0, mgpu_write (after_sleeps k (core_reset_released mdev))
                       MGPU_REG_IRQ_ACK 0xFFFFFFFF))
   \/
   ((forall i, (i < 99)%nat ->
       shows_idle (after_sleeps i (core_reset_released mdev)) = false) /\
    (mgpu_core_reset mdev).1 = - ETIMEDOUT)) /\
  ((forall i, (i < 999)%nat ->
      shows_idle (after_sleeps i (reset_hw_released mdev)) = false) ->
   (mgpu_reset_hw mdev).1 = - ETIMEDOUT).
Proof.
  split.
  - set (m0 := core_reset_released mdev).
    assert (Hcases :
      (exists k, (k < 99)%nat /\
         (forall i, (i < k)%nat -> shows_idle (after_sleeps i m0) = false) /\
         shows_idle (after_sleeps k m0) = true) \/
      (forall i, (i < 99)%nat -> shows_idle (after_sleeps i m0) = false)).
    { generalize 99%nat. intros n. induction n as [|n IH].
      - right. intros i Hi. lia.
      - destruct IH as [(k & Hk & Hb & Hi)|Hnever].
        + left. exists k. split; [lia|]. auto.
        + destruct (shows_idle (after_sleeps n m0)) eqn:E.
          * left. exists n. split; [lia|]. auto.
          * right. intros i Hi. destruct (Nat.eq_dec i n) as [->|Hne]; [exact E|].
            apply Hnever. lia. }
    destruct Hcases as [(k & Hk & Hb & Hi)|Hnever].
    + left. exists k. split; [exact Hk|]. split; [exact Hb|]. split; [exact Hi|].
      unfold mgpu_core_reset. fold (core_reset_released mdev). fold m0.
      rewrite (poll_idle_loop_first_idle 100 m0 k ltac:(lia) Hb Hi).
      destruct (Z.of_nat (100 - 1 - k) <=? 0) eqn:E; [apply Z.leb_le in E; lia|].
      reflexivity.
    + right. split; [exact Hnever|].
      unfold mgpu_core_reset. fold (core_reset_released mdev). fold m0.
      pose proof (poll_idle_loop_late 99 m0 Hnever) as Hl.
      destruct (poll_idle_loop 100 m0) as [t m]. cbn in Hl.
      apply Z.leb_le in Hl. rewrite Hl. reflexivity.
  - intros Hnever. unfold mgpu_reset_hw. fold (reset_hw_released mdev).
    pose proof (poll_idle_loop_late 999 _ Hnever) as Hl.
    destruct (poll_idle_loop 1000 (reset_hw_released mdev)) as [t m]. cbn in Hl.
    apply Z.leb_le in Hl. rewrite Hl. reflexivity.
Qed.

(** A device that shows idle from the 100th poll on: the last poll of
    mgpu_core_reset reads idle and the reset is reported as timed out all
    the same; one that shows idle a millisecond earlier is reset. *)
Lemma mgpu_core_reset_last_poll :
  shows_idle (after_sleeps 99 (core_reset_released (fresh_mdev (idle_after 109))))
    = true /\
  (mgpu_core_reset (fresh_mdev (idle_after 109))).1 = - ETIMEDOUT /\
  (mgpu_core_reset (fresh_mdev (idle_after 108))).1 = 0.
Proof.
  split; [vm_compute; reflexivity|]. split; vm_compute; reflexivity.
Qed.

(** ** What validation does to the buffer *)

Lemma hdr_opcode_set_nop h : hdr_opcode (set_hdr_opcode h MGPU_CMD_NOP) = MGPU_CMD_NOP.
Proof.
  unfold hdr_opcode, set_hdr_opcode, MGPU_CMD_NOP.
  change (Z.land 0 255) with 0. rewrite Z.lor_0_r, <- Z.land_assoc.
  change (Z.land (Z.lnot 255) 255) with 0. apply Z.land_0_r.
Qed.

Lemma shiftr_set_nop h : Z.shiftr (set_hdr_opcode h MGPU_CMD_NOP) 8 = Z.shiftr h 8.
Proof.
  unfold set_hdr_opcode, MGPU_CMD_NOP.
  change (Z.land 0 255) with 0. rewrite Z.lor_0_r, Z.shiftr_land.
  change (Z.shiftr (Z.lnot 255) 8) with (-1). apply Z.land_m1_r.
Qed.

Lemma hdr_size_set_nop h : hdr_size (set_hdr_opcode h MGPU_CMD_NOP) = hdr_size h.
Proof. unfold hdr_size. rewrite shiftr_set_nop. reflexivity. Qed.

Lemma find_validator_opcode table opcode v :
  find_validator table opcode = Some v -> v_opcode v = opcode.
Proof.
  induction table as [|w rest IH]; cbn [find_validator]; [discriminate|].
  destruct (v_opcode w =? opcode) eqn:E.
  - intros [= ->]. apply Z.eqb_eq. exact E.
  - exact IH.
Qed.

Lemma is_privileged_opcodes opcode :
  is_privileged opcode = true <->
  opcode = MGPU_CMD_REG_WRITE \/ opcode = MGPU_CMD_REG_READ.
Proof.
  unfold is_privileged. split.
  - destruct (find_validator cmd_validators opcode) as [v|] eqn:Hv; [|discriminate].
    intros Hp. pose proof (find_validator_opcode _ _ _ Hv) as Ho.
    apply find_validator_In in Hv. unfold cmd_validators in Hv. cbn [In] in Hv.
    repeat (destruct Hv as [<- | Hv];
            [cbn in Hp, Ho; first [discriminate Hp | subst; auto]|]).
    destruct Hv.
  - intros [-> | ->]; reflexivity.
Qed.

(** Sizes a privileged record may declare. *)
Lemma privileged_sizes opcode v :
  find_validator cmd_validators opcode = Some v -> privileged v = true ->
  2 <= min_size v.
Proof.
  intros Hv Hp. apply find_validator_In in Hv. unfold cmd_validators in Hv.
  cbn [In] in Hv.
  repeat (destruct Hv as [<- | Hv]; [cbn in Hp |- *; first [discriminate Hp | lia]|]).
  destruct Hv.
Qed.

Lemma record_at_ge cmds end_ p q : record_at cmds end_ p q -> q < end_.
Proof. induction 1; assumption. Qed.

(** What the loop does to the buffer: the length stays, what lies before
    [ptr] stays, and a dword that changes is the header of a privileged
    record, with its opcode byte set to NOP. *)
Lemma validate_loop_rewrites fuel mdev orig : forall cmds ptr end_ ret out,
  0 <= ptr -> end_ <= Z.of_nat (length cmds) ->
  (forall i, ptr <= i -> cmds !!! Z.to_nat i = orig !!! Z.to_nat i) ->
  validate_loop fuel mdev cmds ptr end_ = Some (ret, out) ->
  length out = length cmds /\
  (forall i : nat,
      out !!! i = cmds !!! i \/
      (ptr <= Z.of_nat i /\ record_at orig end_ ptr (Z.of_nat i) /\
       is_privileged (hdr_opcode (orig !!! i)) = true /\
       out !!! i = set_hdr_opcode (orig !!! i) MGPU_CMD_NOP)) /\
  (ret = 0 ->
   forall q, record_at orig end_ ptr q ->
     out !!! Z.to_nat q =
       if is_privileged (hdr_opcode (orig !!! Z.to_nat q))
       then set_hdr_opcode (orig !!! Z.to_nat q) MGPU_CMD_NOP
       else orig !!! Z.to_nat q).
Proof.
  induction fuel as [|f IH]; intros cmds ptr end_ ret out Hp Hlen Hsame H;
    cbn [validate_loop] in H.
  - destruct (ptr <? end_) eqn:E; [discriminate|]. apply Z.ltb_ge in E.
    inversion H; subst. split; [reflexivity|]. split; [auto|].
    intros _ q Hq. apply record_at_ge in Hq as Hq'.
    inversion Hq; subst; lia.
  - destruct (ptr <? end_) eqn:E.
    2:{ apply Z.ltb_ge in E. inversion H; subst. split; [reflexivity|].
        split; [auto|]. intros _ q Hq. inversion Hq; subst; lia. }
    apply Z.ltb_lt in E.
    rewrite (Hsame ptr ltac:(lia)) in H.
    destruct (find_validator cmd_validators _) as [v|] eqn:Hv.
    2:{ inversion H; subst. split; [reflexivity|]. split; [auto|]. discriminate. }
    destruct (_ || _) eqn:Hb.
    { inversion H; subst. split; [reflexivity|]. split; [auto|]. discriminate. }
    destruct (_ >? end_) eqn:Hfit.
    { inversion H; subst. split; [reflexivity|]. split; [auto|]. discriminate. }
    apply orb_false_iff in Hb. destruct Hb as [Hmin Hmax].
    apply Z.ltb_ge in Hmin. rewrite Z.gtb_ltb in Hmax, Hfit.
    apply Z.ltb_ge in Hmax. apply Z.ltb_ge in Hfit.
    pose proof (cmd_validators_min_size _ _ Hv) as H1.
    match type of H with context [negb (?r =? 0)] =>
      destruct (r =? 0) eqn:Hr end; cbn [negb] in H.
    2:{ injection H as Hr0 Hc. subst out. split; [reflexivity|]. split; [auto|].
        intros Hz. rewrite Hz in Hr0. rewrite Hr0 in Hr. discriminate. }
    set (h := orig !!! Z.to_nat ptr) in *.
    assert (Hpriv : is_privileged (hdr_opcode h) = privileged v).
    { unfold is_privileged. rewrite Hv. reflexivity. }
    set (cmds1 := if privileged v
                  then <[Z.to_nat ptr := set_hdr_opcode h MGPU_CMD_NOP]> cmds
                  else cmds) in *.
    assert (Hlen1 : length cmds1 = length cmds).
    { subst cmds1. destruct (privileged v); [apply length_insert | reflexivity]. }
    assert (Hsame1 : forall i, ptr + hdr_size h <= i ->
                               cmds1 !!! Z.to_nat i = orig !!! Z.to_nat i).
    { intros i Hi. subst cmds1. destruct (privileged v); [|apply Hsame; lia].
      rewrite list_lookup_total_insert_ne; [apply Hsame; lia|].
      intros Heq. apply Z2Nat.inj in Heq; lia. }
    destruct (IH cmds1 (ptr + hdr_size h) end_ ret out ltac:(lia)
                 ltac:(rewrite Hlen1; exact Hlen) Hsame1 H) as (HA & HB & HC).
    assert (Hptr : out !!! Z.to_nat ptr = cmds1 !!! Z.to_nat ptr).
    { destruct (HB (Z.to_nat ptr)) as [Heq | (Hge & _)]; [exact Heq|].
      rewrite Z2Nat.id in Hge by lia. lia. }
    assert (Hc1 : cmds1 !!! Z.to_nat ptr =
                  if privileged v then set_hdr_opcode h MGPU_CMD_NOP else h).
    { subst cmds1. destruct (privileged v).
      - apply list_lookup_total_insert_eq. lia.
      - apply Hsame. lia. }
    split; [congruence|]. split.
    + intros i. destruct (HB i) as [Heq | (Hge & Hrec & Hpr & Hout)].
      * destruct (Nat.eq_dec i (Z.to_nat ptr)) as [->|Hne].
        -- destruct (privileged v) eqn:Epv.
           ++ right. rewrite Z2Nat.id by lia. split; [lia|].
              split; [apply ra_here; exact E|]. fold h.
              split; [exact Hpriv|]. rewrite Hptr, Hc1. reflexivity.
           ++ left. rewrite Heq. subst cmds1. reflexivity.
        -- left. rewrite Heq. subst cmds1. destruct (privileged v); [|reflexivity].
           apply list_lookup_total_insert_ne. congruence.
      * right. split; [lia|]. split; [|auto].
        apply ra_next; [exact E|]. exact Hrec.
    + intros Hret q Hq. inversion Hq as [? Hlt | ? ? Hlt Hnext]; subst.
      * fold h. rewrite Hptr, Hc1, Hpriv. reflexivity.
      * apply HC; [reflexivity | assumption].
Qed.

(** X17.  What an accepting validation leaves in the buffer.  When
    mgpu_validate_commands accepts a stream that the buffer holds in full,
    the buffer keeps its length, only opcode bytes have changed (the upper
    24 bits of every dword are as before), and only in headers of records of
    a privileged opcode; at every record position no REG_WRITE or REG_READ
    opcode is left, the declared size is as before, a privileged record
    reads as a NOP and any other header is unchanged. *)
Theorem mgpu_validate_commands_neutralises mdev cmds size_bytes out :
  size_bytes / 4 <= Z.of_nat (length cmds) ->
  mgpu_validate_commands mdev cmds size_bytes = Some (0, out) ->
  length out = length cmds /\
  (forall i : nat, Z.shiftr (out !!! i) 8 = Z.shiftr (cmds !!! i) 8) /\
  (forall i : nat, out !!! i <> cmds !!! i ->
     record_at cmds (size_bytes / 4) 0 (Z.of_nat i) /\
     is_privileged (hdr_opcode (cmds !!! i)) = true) /\
  (forall q, record_at cmds (size_bytes / 4) 0 q ->
     hdr_opcode (out !!! Z.to_nat q) <> MGPU_CMD_REG_WRITE /\
     hdr_opcode (out !!! Z.to_nat q) <> MGPU_CMD_REG_READ /\
     hdr_size (out !!! Z.to_nat q) = hdr_size (cmds !!! Z.to_nat q) /\
     (is_privileged (hdr_opcode (cmds !!! Z.to_nat q)) = true ->
      hdr_opcode (out !!! Z.to_nat q) = MGPU_CMD_NOP) /\
     (is_privileged (hdr_opcode (cmds !!! Z.to_nat q)) = false ->
      out !!! Z.to_nat q = cmds !!! Z.to_nat q)).
Proof.
  intros Hlen H. unfold mgpu_validate_commands in H.
  destruct (validate_loop_rewrites _ mdev cmds cmds 0 _ 0 out ltac:(lia) Hlen
              ltac:(reflexivity) H) as (HA & HB & HC).
  split; [exact HA|]. split.
  { intros i. destruct (HB i) as [-> | (_ & _ & _ & ->)]; [reflexivity|].
    apply shiftr_set_nop. }
  split.
  { intros i Hne. destruct (HB i) as [Heq | (_ & Hrec & Hpr & _)];
      [contradiction | auto]. }
  intros q Hq. rewrite (HC eq_refl q Hq).
  destruct (is_privileged (hdr_opcode (cmds !!! Z.to_nat q))) eqn:Ep.
  - rewrite hdr_opcode_set_nop, hdr_size_set_nop.
    split; [discriminate|]. split; [discriminate|]. split; [reflexivity|].
    split; [reflexivity | discriminate].
  - split.
    { intros Ho. rewrite Ho in Ep. discriminate. }
    split.
    { intros Ho. rewrite Ho in Ep. discriminate. }
    split; [reflexivity|]. split; [discriminate | reflexivity].
Qed.

Lemma mgpu_validate_commands_neutralises_witness :
  mgpu_validate_commands (fresh_mdev vertex_device) draw_then_reg_write 32
    = Some (0, neutralised_stream) /\
  length neutralised_stream = length draw_then_reg_write /\
  forall i : nat,
    Z.shiftr (neutralised_stream !!! i) 8 = Z.shiftr (draw_then_reg_write !!! i) 8.
Proof.
  assert (Hv : mgpu_validate_commands (fresh_mdev vertex_device)
                 draw_then_reg_write 32 = Some (0, neutralised_stream))
    by (vm_compute; reflexivity).
  split; [exact Hv|].
  destruct (mgpu_validate_commands_neutralises (fresh_mdev vertex_device)
              draw_then_reg_write 32 neutralised_stream) as (Hl & Hh & _).
  - vm_compute. discriminate.
  - exact Hv.
  - split; [exact Hl | exact Hh].
Defined.

(** The check of a record reads only dwords of that record. *)
Lemma validator_check_agree mdev v cmds out ptr s :
  In v cmd_validators -> min_size v <= s -> 0 <= ptr ->
  (forall j, 0 <= j < s ->
     out !!! Z.to_nat (ptr + j) = cmds !!! Z.to_nat (ptr + j)) ->
  match validate v with
  | Some check => check mdev out ptr s
  | None => 0
  end =
  match validate v with
  | Some check => check mdev cmds ptr s
  | None => 0
  end.
Proof.
  intros Hv Hs Hp Hsame. unfold cmd_validators in Hv. cbn [In] in Hv.
  repeat (destruct Hv as [<- | Hv];
          [cbn [validate min_size] in *;
           try reflexivity;
           unfold mgpu_validate_draw_cmd, mgpu_validate_dma_cmd,
                  mgpu_validate_fence_cmd, cmd_field;
           rewrite ?(Hsame 1), ?(Hsame 2), ?(Hsame 3) by lia; reflexivity|]).
  destruct Hv.
Qed.

Lemma set_nop_changes h :
  is_privileged (hdr_opcode h) = true -> set_hdr_opcode h MGPU_CMD_NOP <> h.
Proof.
  intros Hp Heq. apply is_privileged_opcodes in Hp.
  pose proof (hdr_opcode_set_nop h) as H0. rewrite Heq in H0.
  destruct Hp as [Hp|Hp]; rewrite Hp in H0; discriminate.
Qed.

Lemma validate_loop_again fuel mdev : forall cmds ptr end_ out,
  0 <= ptr -> end_ <= Z.of_nat (length cmds) ->
  validate_loop fuel mdev cmds ptr end_ = Some (0, out) ->
  (validate_loop fuel mdev out ptr end_ = Some (0, out) /\
   forall i : nat, ptr <= Z.of_nat i -> out !!! i = cmds !!! i)
  \/
  (validate_loop fuel mdev out ptr end_ = Some (- EINVAL, out) /\
   exists i : nat, out !!! i <> cmds !!! i).
Proof.
  induction fuel as [|f IH]; intros cmds ptr end_ out Hp Hlen H;
    pose proof H as Hrun; cbn [validate_loop] in H |- *.
  - destruct (ptr <? end_) eqn:E; [discriminate|].
    inversion H; subst. left. split; reflexivity.
  - destruct (ptr <? end_) eqn:E.
    2:{ inversion H; subst. left. split; reflexivity. }
    apply Z.ltb_lt in E.
    set (h := cmds !!! Z.to_nat ptr) in *.
    destruct (find_validator cmd_validators (hdr_opcode h)) as [v|] eqn:Hv;
      [|discriminate].
    destruct (_ || _) eqn:Hb; [discriminate|].
    destruct (_ >? end_) eqn:Hfit; [discriminate|].
    pose proof Hb as Hb'. apply orb_false_iff in Hb'. destruct Hb' as [Hmin Hmax].
    apply Z.ltb_ge in Hmin.
    pose proof (cmd_validators_min_size _ _ Hv) as H1.
    match type of H with context [negb (?r =? 0)] =>
      destruct (r =? 0) eqn:Hr end; cbn [negb] in H.
    2:{ injection H as Hr0 Hc. rewrite Hr0 in Hr. discriminate. }
    set (cmds1 := if privileged v
                  then <[Z.to_nat ptr := set_hdr_opcode h MGPU_CMD_NOP]> cmds
                  else cmds) in *.
    assert (Hlen1 : length cmds1 = length cmds).
    { subst cmds1. destruct (privileged v); [apply length_insert | reflexivity]. }
    destruct (validate_loop_rewrites f mdev cmds1 cmds1 (ptr + hdr_size h) end_ 0 out
                ltac:(lia) ltac:(rewrite Hlen1; exact Hlen) ltac:(reflexivity) H)
      as (_ & HB & _).
    assert (Hframe : forall i : nat, Z.of_nat i < ptr + hdr_size h ->
                                     out !!! i = cmds1 !!! i).
    { intros i Hi. destruct (HB i) as [Heq | (Hge & _)]; [exact Heq | lia]. }
    assert (Hptr : out !!! Z.to_nat ptr = cmds1 !!! Z.to_nat ptr).
    { apply Hframe. rewrite Z2Nat.id by lia. lia. }
    assert (Hpriv : is_privileged (hdr_opcode h) = privileged v).
    { unfold is_privileged. rewrite Hv. reflexivity. }
    destruct (privileged v) eqn:Epv.
    + (* the header now reads NOP with the size of the privileged record *)
      right.
      assert (Hh : out !!! Z.to_nat ptr = set_hdr_opcode h MGPU_CMD_NOP).
      { rewrite Hptr. subst cmds1. apply list_lookup_total_insert_eq. lia. }
      split.
      * rewrite Hh, hdr_opcode_set_nop, hdr_size_set_nop.
        pose proof (privileged_sizes _ _ Hv Epv) as H2.
        cbn [find_validator cmd_validators v_opcode Z.eqb MGPU_CMD_NOP min_size max_size].
        destruct (hdr_size h >? 1) eqn:Eg; [rewrite orb_true_r; reflexivity|].
        rewrite Z.gtb_ltb in Eg. apply Z.ltb_ge in Eg. lia.
      * exists (Z.to_nat ptr). rewrite Hh. fold h. apply set_nop_changes.
        rewrite Hpriv. reflexivity.
    + (* the record is as it was: the loop goes on as before *)
      subst cmds1.
      assert (Hh : out !!! Z.to_nat ptr = h) by exact Hptr.
      rewrite Hh, Hv, Hb, Hfit.
      rewrite (validator_check_agree mdev v cmds out ptr (hdr_size h)
                 (find_validator_In _ _ _ Hv) Hmin Hp).
      2:{ intros j Hj. apply Hframe. rewrite Z2Nat.id by lia. lia. }
      rewrite Hr. cbn [negb]. rewrite Epv.
      destruct (IH cmds (ptr + hdr_size h) end_ out ltac:(lia) Hlen H)
        as [[Hagain Heq] | [Hagain Hne]].
      * left. split; [exact Hagain|]. intros i Hi.
        destruct (Z_lt_ge_dec (Z.of_nat i) (ptr + hdr_size h)) as [Hlt|Hge].
        -- apply Hframe. exact Hlt.
        -- apply Heq. lia.
      * right. split; [exact Hagain | exact Hne].
Qed.

Lemma list_eq_total (l1 l2 : list Z) :
  length l1 = length l2 -> (forall i : nat, l1 !!! i = l2 !!! i) -> l1 = l2.
Proof.
  intros Hlen Hall. apply list_eq. intros i.
  destruct (Nat.lt_ge_cases i (length l1)) as [Hlt|Hge].
  - rewrite (list_lookup_lookup_total_lt l1 i Hlt).
    rewrite (list_lookup_lookup_total_lt l2 i) by lia.
    rewrite Hall. reflexivity.
  - rewrite !lookup_ge_None_2 by lia. reflexivity.
Qed.

(** X18.  Validating twice.  A stream that mgpu_validate_commands
    accepted unchanged is accepted again; one it accepted with a privileged
    record turned into a NOP is rejected with -EINVAL when validated again,
    since the NOP keeps the declared size of the record it replaces. *)
Theorem mgpu_validate_commands_twice mdev cmds size_bytes out :
  size_bytes / 4 <= Z.of_nat (length cmds) ->
  mgpu_validate_commands mdev cmds size_bytes = Some (0, out) ->
  (out = cmds /\
   mgpu_validate_commands mdev out size_bytes = Some (0, out))
  \/
  (out <> cmds /\
   mgpu_validate_commands mdev out size_bytes = Some (- EINVAL, out)).
Proof.
  intros Hlen H. unfold mgpu_validate_commands in *.
  destruct (validate_loop_rewrites _ mdev cmds cmds 0 _ 0 out ltac:(lia) Hlen
              ltac:(reflexivity) H) as (HA & _ & _).
  destruct (validate_loop_again _ mdev cmds 0 _ out ltac:(lia) Hlen H)
    as [[Hagain Heq] | [Hagain [i Hne]]].
  - left. split; [|exact Hagain].
    apply list_eq_total; [exact HA|]. intros i. apply Heq. lia.
  - right. split; [|exact Hagain]. intros ->. contradiction.
Qed.

Lemma mgpu_validate_commands_twice_witness :
  mgpu_validate_commands (fresh_mdev vertex_device) draw_then_reg_write 32
    = Some (0, neutralised_stream) /\
  mgpu_validate_commands (fresh_mdev vertex_device) neutralised_stream 32
    = Some (- EINVAL, neutralised_stream).
Proof.
  assert (Hv : mgpu_validate_commands (fresh_mdev vertex_device)
                 draw_then_reg_write 32 = Some (0, neutralised_stream))
    by (vm_compute; reflexivity).
  split; [exact Hv|].
  destruct (mgpu_validate_commands_twice (fresh_mdev vertex_device)
              draw_then_reg_write 32 neutralised_stream) as [[He _] | [_ Hr]].
  - vm_compute. discriminate.
  - exact Hv.
  - vm_compute in He. discriminate He.
  - exact Hr.
Defined.

(** X19.  mgpu_submit_validated always returns.  When it fails the
    submission counter of the file context is unchanged; a size above the
    largest ring or not a multiple of 4 gives -EINVAL, and a stream the
    validator refuses gives a failure, in both cases without any change to
    the device context. *)
Theorem mgpu_submit_validated_refusal env cmd_copy mdev args count :
  exists ret mdev' count',
    mgpu_submit_validated env cmd_copy mdev args count
      = Some (ret, mdev', count') /\
    (ret <> 0 -> count' = count) /\
    (sub_cmd_size args > MGPU_RING_SIZE_MAX \/ Z.land (sub_cmd_size args) 3 <> 0 ->
     ret = - EINVAL /\ mdev' = mdev) /\
    (forall cmd_buf r out,
        copy_from_user env (sub_commands args) (sub_cmd_size args) = Some cmd_buf ->
        mgpu_validate_commands mdev cmd_buf (sub_cmd_size args) = Some (r, out) ->
        r <> 0 ->
        ret <> 0 /\ mdev' = mdev).
Proof.
  unfold mgpu_submit_validated.
  destruct ((sub_commands args =? 0) || (sub_cmd_size args =? 0)).
  { eexists _, _, _. split; [reflexivity|]. split; [reflexivity|].
    split; [auto|]. intros; split; [discriminate | reflexivity]. }
  destruct (sub_cmd_size args >? MGPU_RING_SIZE_MAX) eqn:Emax.
  { eexists _, _, _. split; [reflexivity|]. split; [reflexivity|].
    split; [auto|]. intros; split; [discriminate | reflexivity]. }
  destruct (Z.land (sub_cmd_size args) 3 =? 0) eqn:Eal; cbn [negb].
  2:{ eexists _, _, _. split; [reflexivity|]. split; [reflexivity|].
    split; [auto|]. intros; split; [discriminate | reflexivity]. }
  assert (Hnot : ~ (sub_cmd_size args > MGPU_RING_SIZE_MAX
                    \/ Z.land (sub_cmd_size args) 3 <> 0)).
  { rewrite Z.gtb_ltb in Emax. apply Z.ltb_ge in Emax. apply Z.eqb_eq in Eal.
    intros [H|H]; [lia | contradiction]. }
  destruct (negb (kmalloc_ok env)).
  { eexists _, _, _. split; [reflexivity|]. split; [reflexivity|].
    split; [intros H; contradiction|]. intros; split; [discriminate | reflexivity]. }
  destruct (copy_from_user env _ _) as [cmd_buf|].
  2:{ eexists _, _, _. split; [reflexivity|]. split; [reflexivity|].
    split; [intros H; contradiction|]. intros; discriminate. }
  destruct (validate_loop_total (Z.to_nat (sub_cmd_size args / 4)) mdev cmd_buf 0
              (sub_cmd_size args / 4) ltac:(lia)) as (r0 & out0 & Hrun & Hret).
  unfold mgpu_validate_commands. rewrite Hrun.
  destruct (r0 =? 0) eqn:Er; cbn [negb].
  - destruct (mgpu_submit_commands env mdev _) as [ret mdev'].
    eexists _, _, _. split; [reflexivity|].
    split.
    { intros Hne. apply Z.eqb_neq in Hne. rewrite Hne. reflexivity. }
    split; [intros H; contradiction|].
    intros cmd_buf' r out Hc Hv Hr. injection Hc as <-.
    rewrite Hrun in Hv. injection Hv as <- <-.
    apply Z.eqb_eq in Er. contradiction.
  - eexists _, _, _. split; [reflexivity|]. split; [reflexivity|].
    split; [intros H; contradiction|].
    intros _ _ _ _ _ _. split; [apply Z.eqb_neq; exact Er | reflexivity].
Qed.

(** ** Shader slots *)

(** X20.  Capacity of the shader slots.  A load that succeeds names one of
    the slots 0 to 3, has a size of at least 8 bytes that is a multiple of
    4, fits the instruction memory from the slot's offset on (slot * 1024 +
    size <= 4096) and a type up to compute; a load into any of the slots 4
    to 15, which the slot check admits, fails and writes no register. *)
Theorem mgpu_load_shader_capacity env slots mdev args :
  0 <= ls_slot args -> 0 <= ls_size args < 2 ^ 32 ->
  let r := mgpu_load_shader env (Some slots) mdev args in
  (r.1.1 = 0 ->
   ls_slot args < 4 /\
   8 <= ls_size args /\ ls_size args mod 4 = 0 /\
   ls_slot args * 1024 + ls_size args <= MGPU_REG_INSTR_MEM_SIZE /\
   ls_type args <= MGPU_SHADER_COMPUTE) /\
  (4 <= ls_slot args -> r.1.1 <> 0 /\ r.2 = mdev).
Proof.
  intros Hslot Hsize. cbv zeta. unfold mgpu_load_shader.
  destruct (16 <=? ls_slot args) eqn:E16.
  { cbn. split; [discriminate|]. intros _. split; [discriminate | reflexivity]. }
  apply Z.leb_gt in E16.
  destruct ((ls_size args =? 0) || (ls_size args >? MGPU_REG_INSTR_MEM_SIZE)).
  { cbn. split; [discriminate|]. intros _. split; [discriminate | reflexivity]. }
  destruct (negb (kmalloc_ok env)).
  { cbn. split; [discriminate|]. intros _. split; [discriminate | reflexivity]. }
  destruct (copy_from_user env _ _) as [code|].
  2:{ cbn. split; [discriminate|]. intros _. split; [discriminate | reflexivity]. }
  unfold mgpu_shader_validate.
  destruct ((ls_size args <? 8) || (ls_size args >? MGPU_REG_INSTR_MEM_SIZE)) eqn:Eb.
  { cbn. split; [discriminate|]. intros _. split; [discriminate | reflexivity]. }
  apply orb_false_iff in Eb as [Eb1 Eb2]. apply Z.ltb_ge in Eb1.
  rewrite Z.gtb_ltb in Eb2. apply Z.ltb_ge in Eb2.
  destruct (Z.land (ls_size args) 3 =? 0) eqn:Eal; cbn [negb].
  2:{ cbn. split; [discriminate|]. intros _. split; [discriminate | reflexivity]. }
  destruct (ls_type args >? MGPU_SHADER_COMPUTE) eqn:Et.
  { cbn. split; [discriminate|]. intros _. split; [discriminate | reflexivity]. }
  rewrite Z.gtb_ltb in Et. apply Z.ltb_ge in Et.
  cbn [Z.eqb negb]. unfold mgpu_shader_write_to_hw.
  unfold MGPU_REG_INSTR_MEM_SIZE in *.
  rewrite (u32_small (ls_slot args * 256)) by lia.
  rewrite (u32_small (ls_slot args * 256 * 4)) by lia.
  unfold u64. rewrite (Z.mod_small (ls_slot args * 256 * 4 + ls_size args)) by lia.
  destruct (ls_slot args * 256 * 4 + ls_size args >? 4096) eqn:Efit.
  - rewrite Z.gtb_ltb in Efit. apply Z.ltb_lt in Efit.
    cbn. split; [discriminate|]. intros _. split; [discriminate | reflexivity].
  - rewrite Z.gtb_ltb in Efit. apply Z.ltb_ge in Efit.
    cbn [negb Z.eqb fst snd]. split.
    + intros _. apply Z.eqb_eq in Eal.
      change 3 with (Z.ones 2) in Eal. rewrite Z.land_ones in Eal by lia.
      change (2 ^ 2) with 4 in Eal. lia.
    + intros H4. lia.
Qed.

Lemma mgpu_load_shader_capacity_witness :
  (mgpu_load_shader shader_env fresh_shader_mgr (fresh_mdev idle_device)
                    shader_1k_slot3).1.1 = 0 /\
  (mgpu_load_shader shader_env fresh_shader_mgr (fresh_mdev idle_device)
                    shader_8_slot4).1.1 <> 0 /\
  (mgpu_load_shader shader_env fresh_shader_mgr (fresh_mdev idle_device)
                    shader_8_slot4).2 = fresh_mdev idle_device.
Proof.
  split; [vm_compute; reflexivity|].
  pose proof (mgpu_load_shader_capacity shader_env (replicate 16 empty_slot)
                (fresh_mdev idle_device) shader_8_slot4) as H.
  cbv zeta in H. destruct H as [_ H].
  - vm_compute. discriminate.
  - vm_compute. split; [discriminate | reflexivity].
  - apply H. vm_compute. discriminate.
Defined.

Ltac zneq := let H := fresh in intros H; vm_compute in H; discriminate H.

Lemma shader_slot_insert_eq slots slot s :
  0 <= slot -> (Z.to_nat slot < length slots)%nat ->
  shader_slot (<[Z.to_nat slot := s]> slots) slot = s.
Proof.
  intros H0 Hl. unfold shader_slot, mgpu_shader_mgr.
  rewrite list_lookup_insert_eq by exact Hl.
  reflexivity.
Qed.

Lemma shader_slot_insert_ne slots slot slot' s :
  0 <= slot -> 0 <= slot' -> slot <> slot' ->
  shader_slot (<[Z.to_nat slot := s]> slots) slot' = shader_slot slots slot'.
Proof.
  intros H0 H1 Hne. unfold shader_slot, mgpu_shader_mgr.
  rewrite list_lookup_insert_ne; [reflexivity|].
  intros Heq. apply Z2Nat.inj in Heq; lia.
Qed.

(** How a call of mgpu_load_shader can end. *)
Lemma mgpu_load_shader_cases env slots mdev args :
  let r := mgpu_load_shader env (Some slots) mdev args in
  (r.1.1 <> 0 /\ r.1.1 <> - ENOSPC /\ r.1.2 = Some slots /\ r.2 = mdev) \/
  (r.1.1 = - ENOSPC /\ r.2 = mdev /\
   r.1.2 = Some (<[Z.to_nat (ls_slot args) :=
                     MkShaderSlot None (ls_size args) (ls_type args) false]> slots)) \/
  (r.1.1 = 0 /\
   exists code,
     copy_from_user env (ls_data args) (ls_size args) = Some code /\
     r.1.2 = Some (<[Z.to_nat (ls_slot args) :=
                       MkShaderSlot (Some code) (ls_size args) (ls_type args) true]>
                     slots) /\
     r.2 = mgpu_write
             (shader_write_loop mdev (u32 (ls_slot args * 256)) 0
                (take (Z.to_nat (u32 (ls_size args / 4))) code))
             MGPU_REG_SHADER_CTRL
             (Z.lor (Z.shiftl (ls_slot args) 16)
                    (Z.land (u32 (ls_size args / 4)) 0xFFFF))).
Proof.
  cbv zeta. unfold mgpu_load_shader.
  destruct (16 <=? ls_slot args).
  { left. cbn. split; [zneq|]. split; [zneq|]. auto. }
  destruct (_ || _).
  { left. cbn. split; [zneq|]. split; [zneq|]. auto. }
  destruct (negb (kmalloc_ok env)).
  { left. cbn. split; [zneq|]. split; [zneq|]. auto. }
  destruct (copy_from_user env _ _) as [code|] eqn:Hcopy.
  2:{ left. cbn. split; [zneq|]. split; [zneq|]. auto. }
  unfold mgpu_shader_validate.
  destruct (_ || _).
  { left. cbn. split; [zneq|]. split; [zneq|]. auto. }
  destruct (Z.land (ls_size args) 3 =? 0); cbn [negb].
  2:{ left. cbn. split; [zneq|]. split; [zneq|]. auto. }
  destruct (_ >? MGPU_SHADER_COMPUTE).
  { left. cbn. split; [zneq|]. split; [zneq|]. auto. }
  cbn [Z.eqb negb]. unfold mgpu_shader_write_to_hw.
  destruct (_ >? MGPU_REG_INSTR_MEM_SIZE).
  - right. left. cbn. auto.
  - right. right. cbn [negb Z.eqb fst snd]. split; [reflexivity|].
    exists code. auto.
Qed.

(** X21.  A load that fails with -ENOSPC writes no register but has
    already overwritten the slot: afterwards mgpu_shader_get_info and
    mgpu_shader_bind report the slot as empty (-ENOENT), also when a shader
    was loaded there before; the other slots answer as before. *)
Theorem mgpu_load_shader_no_space env (slots : mgpu_shader_mgr) mdev args mgr' mdev' :
  length slots = 16%nat -> 0 <= ls_slot args ->
  mgpu_load_shader env (Some slots) mdev args = (- ENOSPC, mgr', mdev') ->
  mdev' = mdev /\
  ls_slot args < 16 /\
  mgpu_shader_get_info mgr' (ls_slot args) = (- ENOENT, None) /\
  (forall m t, mgpu_shader_bind mgr' m (ls_slot args) t = (- ENOENT, m)) /\
  (forall s, 0 <= s -> s <> ls_slot args ->
             mgpu_shader_get_info mgr' s = mgpu_shader_get_info (Some slots) s).
Proof.
  intros Hlen Hslot H.
  assert (H16 : ls_slot args < 16).
  { unfold mgpu_load_shader in H. destruct (16 <=? ls_slot args) eqn:E.
    - inversion H.
    - apply Z.leb_gt in E. exact E. }
  pose proof (mgpu_load_shader_cases env slots mdev args) as Hc.
  cbv zeta in Hc. rewrite H in Hc. cbn [fst snd] in Hc.
  destruct Hc as [(_ & Hne & _) | [(_ & Hm & Hmgr) | (H0 & _)]];
    [contradiction | | discriminate].
  subst mgr' mdev'. split; [reflexivity|]. split; [exact H16|].
  assert (Hin : (Z.to_nat (ls_slot args) < length slots)%nat) by lia.
  apply Z.leb_gt in H16.
  split.
  { unfold mgpu_shader_get_info. rewrite H16.
    rewrite shader_slot_insert_eq by assumption. reflexivity. }
  split.
  { intros m t. unfold mgpu_shader_bind. rewrite H16.
    rewrite shader_slot_insert_eq by assumption. reflexivity. }
  intros s Hs Hne. unfold mgpu_shader_get_info.
  rewrite shader_slot_insert_ne by auto. reflexivity.
Qed.

Lemma mgpu_load_shader_no_space_witness :
  mgpu_shader_get_info (Some loaded_slots) 3 = (0, Some (1024, MGPU_SHADER_FRAGMENT)) /\
  (mgpu_load_shader shader_env (Some loaded_slots) (fresh_mdev idle_device)
                    shader_2k_slot3).1.1 = - ENOSPC /\
  mgpu_shader_get_info
    (mgpu_load_shader shader_env (Some loaded_slots) (fresh_mdev idle_device)
                      shader_2k_slot3).1.2 3
    = (- ENOENT, None).
Proof.
  split; [vm_compute; reflexivity|].
  assert (Hr : mgpu_load_shader shader_env (Some loaded_slots)
                 (fresh_mdev idle_device) shader_2k_slot3
               = (- ENOSPC,
                  (mgpu_load_shader shader_env (Some loaded_slots)
                     (fresh_mdev idle_device) shader_2k_slot3).1.2,
                  (mgpu_load_shader shader_env (Some loaded_slots)
                     (fresh_mdev idle_device) shader_2k_slot3).2))
    by (vm_compute; reflexivity).
  split; [rewrite Hr; reflexivity|].
  assert (Hl : length loaded_slots = 16%nat) by reflexivity.
  assert (Hs : 0 <= ls_slot shader_2k_slot3) by (vm_compute; discriminate).
  destruct (mgpu_load_shader_no_space shader_env loaded_slots
              (fresh_mdev idle_device) shader_2k_slot3 _ _ Hl Hs Hr)
    as (_ & _ & Hinfo & _).
  exact Hinfo.
Defined.

(** X22.  Load, then query and bind.  After a successful load
    mgpu_shader_get_info returns the size and type loaded for that slot,
    mgpu_shader_bind with that type succeeds and writes slot * 256 to the
    program counter register of the type (and nothing else), bind with
    another type is refused with -EINVAL, and the other slots answer as
    before. *)
Theorem mgpu_load_shader_round_trip env (slots : mgpu_shader_mgr) mdev args mgr' mdev' :
  length slots = 16%nat -> 0 <= ls_slot args -> 0 <= ls_type args ->
  mgpu_load_shader env (Some slots) mdev args = (0, mgr', mdev') ->
  mgpu_shader_get_info mgr' (ls_slot args)
    = (0, Some (ls_size args, ls_type args)) /\
  (forall m,
      mgpu_shader_bind mgr' m (ls_slot args) (ls_type args)
      = (0, mgpu_write m (MGPU_REG_SHADER_PC + 4 * ls_type args)
                       (ls_slot args * 256))) /\
  (forall m t, t <> ls_type args ->
      mgpu_shader_bind mgr' m (ls_slot args) t = (- EINVAL, m)) /\
  (forall s, 0 <= s -> s <> ls_slot args ->
      mgpu_shader_get_info mgr' s = mgpu_shader_get_info (Some slots) s).
Proof.
  intros Hlen Hslot Htype H.
  assert (H4 : ls_slot args < 16).
  { unfold mgpu_load_shader in H. destruct (16 <=? ls_slot args) eqn:E.
    - inversion H.
    - apply Z.leb_gt in E. exact E. }
  assert (Ht2 : ls_type args <= MGPU_SHADER_COMPUTE).
  { unfold mgpu_load_shader in H.
    destruct (16 <=? ls_slot args); [inversion H|].
    destruct ((ls_size args =? 0) || (ls_size args >? MGPU_REG_INSTR_MEM_SIZE));
      [inversion H|].
    destruct (negb (kmalloc_ok env)); [inversion H|].
    destruct (copy_from_user env _ _) as [code|]; [|inversion H].
    unfold mgpu_shader_validate in H.
    destruct ((ls_size args <? 8) || (ls_size args >? MGPU_REG_INSTR_MEM_SIZE));
      [inversion H|].
    destruct (Z.land (ls_size args) 3 =? 0); cbn [negb] in H; [|inversion H].
    destruct (ls_type args >? MGPU_SHADER_COMPUTE) eqn:Et; [inversion H|].
    rewrite Z.gtb_ltb in Et. apply Z.ltb_ge in Et. exact Et. }
  pose proof (mgpu_load_shader_cases env slots mdev args) as Hc.
  cbv zeta in Hc. rewrite H in Hc. cbn [fst snd] in Hc.
  destruct Hc as [(Hne & _) | [(Hne & _) | (_ & code & _ & Hmgr & _)]];
    [contradiction | discriminate |].
  subst mgr'.
  assert (Hin : (Z.to_nat (ls_slot args) < length slots)%nat) by lia.
  assert (H16 : (16 <=? ls_slot args) = false) by (apply Z.leb_gt; lia).
  split.
  { unfold mgpu_shader_get_info. rewrite H16.
    rewrite shader_slot_insert_eq by assumption. reflexivity. }
  split.
  { intros m. unfold mgpu_shader_bind. rewrite H16.
    rewrite shader_slot_insert_eq by assumption.
    cbn [slot_loaded slot_type negb]. rewrite Z.eqb_refl. cbn [negb].
    rewrite (u32_small (ls_slot args * 256)) by lia.
    unfold MGPU_SHADER_COMPUTE, MGPU_SHADER_VERTEX, MGPU_SHADER_FRAGMENT in *.
    assert (Hcases : ls_type args = 0 \/ ls_type args = 1 \/ ls_type args = 2) by lia.
    destruct Hcases as [-> | [-> | ->]]; reflexivity. }
  split.
  { intros m t Hne. unfold mgpu_shader_bind. rewrite H16.
    rewrite shader_slot_insert_eq by assumption.
    cbn [slot_loaded slot_type negb].
    destruct (ls_type args =? t) eqn:E; [apply Z.eqb_eq in E; congruence|].
    reflexivity. }
  intros s Hs Hne. unfold mgpu_shader_get_info.
  rewrite shader_slot_insert_ne by auto. reflexivity.
Qed.

Lemma mgpu_load_shader_round_trip_witness :
  (mgpu_load_shader shader_env fresh_shader_mgr (fresh_mdev idle_device)
                    shader_1k_slot3).1.1 = 0 /\
  mgpu_shader_get_info
    (mgpu_load_shader shader_env fresh_shader_mgr (fresh_mdev idle_device)
                      shader_1k_slot3).1.2 3
    = (0, Some (1024, MGPU_SHADER_FRAGMENT)).
Proof.
  assert (Hr : mgpu_load_shader shader_env (Some (replicate 16 empty_slot))
                 (fresh_mdev idle_device) shader_1k_slot3
               = (0,
                  (mgpu_load_shader shader_env fresh_shader_mgr
                     (fresh_mdev idle_device) shader_1k_slot3).1.2,
                  (mgpu_load_shader shader_env fresh_shader_mgr
                     (fresh_mdev idle_device) shader_1k_slot3).2))
    by (vm_compute; reflexivity).
  split; [vm_compute; reflexivity|].
  assert (Hl : length (replicate 16 empty_slot) = 16%nat) by reflexivity.
  assert (Hs : 0 <= ls_slot shader_1k_slot3) by (vm_compute; discriminate).
  assert (Ht : 0 <= ls_type shader_1k_slot3) by (vm_compute; discriminate).
  destruct (mgpu_load_shader_round_trip shader_env (replicate 16 empty_slot)
              (fresh_mdev idle_device) shader_1k_slot3 _ _ Hl Hs Ht Hr)
    as (Hinfo & _).
  exact Hinfo.
Defined.
